(** * ROR STAY: listing filters, contact intake and admin image staging

    A shallow embedding of the client logic of the ROR STAY front end:
    - [Listings] (public listings page): the client-side filter pipeline
      [filteredListings], the filter-option catalogs, the phone validator
      and the rate-limited contact submission [submitContact];
    - [AdminNewListing]: vocabulary mapping, payload construction, image
      staging and the create-then-upload flow of [submit];
    - [AdminListings]: image staging of the edit form and [updateListing];
    - [FilterRules]: the matching rules of the listing filter as the
      specification words them, against which the pipeline is compared.

    JavaScript strings are modelled as [string] (sequences of 8-bit code
    units); case mapping and white space are the ASCII ones, which is what
    the fixed vocabularies of the program use.  Numbers are rationals plus
    NaN ([JsNumber]); infinities are outside the model. *)

From Stdlib Require Import Ascii DecimalString QArith Qround Lqa.
From stdpp Require Import gmap strings sorting.

Local Open Scope Z_scope.

(** ** JavaScript string and number primitives used by the components *)

Module Js.

(** The ASCII white space [String.prototype.trim] and the regular-expression
    class [\s] recognise: TAB, LF, VT, FF, CR and SPACE.  They also strip
    U+00A0, U+FEFF and the Unicode space separators, which are outside the
    model. *)
Definition isWhiteSpace (c : ascii) : bool :=
  let n := Ascii.nat_of_ascii c in
  ((9 <=? n) && (n <=? 13) || (n =? 32))%nat.

(** [\d] *)
Definition isDigit (c : ascii) : bool :=
  let n := Ascii.nat_of_ascii c in
  ((48 <=? n) && (n <=? 57))%nat.

(** [String.prototype.toLowerCase] on ASCII text, where it folds the letters
    A to Z one by one.  The cased letters outside ASCII, which JavaScript
    folds too (some depending on their neighbours), are outside the
    model. *)
Definition toLowerChar (c : ascii) : ascii :=
  let n := Ascii.nat_of_ascii c in
  if ((65 <=? n) && (n <=? 90))%nat then Ascii.ascii_of_nat (n + 32) else c.

Fixpoint toLowerCase (s : string) : string :=
  match s with
  | EmptyString => EmptyString
  | String c s' => String (toLowerChar c) (toLowerCase s')
  end.

Fixpoint trimStart (s : string) : string :=
  match s with
  | EmptyString => EmptyString
  | String c s' => if isWhiteSpace c then trimStart s' else s
  end.

(** [trimEnd] drops the trailing white space: a character is kept when it
    is not white space or when something is kept after it. *)
Fixpoint trimEnd (s : string) : string :=
  match s with
  | EmptyString => EmptyString
  | String c s' =>
      match trimEnd s' with
      | EmptyString => if isWhiteSpace c then EmptyString else String c EmptyString
      | t => String c t
      end
  end.

Definition trim (s : string) : string := trimEnd (trimStart s).

(** Truthiness of a string: every string but the empty one. *)
Definition truthy (s : string) : bool :=
  match s with EmptyString => false | _ => true end.

(** [a || b] on strings. *)
Definition orElse (a b : string) : string := if truthy a then a else b.

Definition startsWith (s p : string) : bool := String.prefix p s.

(** [s.includes(t)]: [t] occurs in [s] at some offset. *)
Fixpoint includes (s t : string) : bool :=
  String.prefix t s ||
  match s with
  | EmptyString => false
  | String _ s' => includes s' t
  end.

(** [s.replace(/\D/g, '')] *)
Fixpoint stripNonDigits (s : string) : string :=
  match s with
  | EmptyString => EmptyString
  | String c s' =>
      if isDigit c then String c (stripNonDigits s') else stripNonDigits s'
  end.

(** A JavaScript number: a finite value or NaN. *)
Inductive JsNumber : Type :=
| JsNum (q : Q)
| JsNaN.

(** [x || 0] on numbers: NaN and zero are falsy. *)
Definition orZero (x : JsNumber) : JsNumber :=
  match x with
  | JsNum q => if Qeq_bool q 0 then JsNum 0 else JsNum q
  | JsNaN => JsNum 0
  end.

(** Comparisons; every comparison with NaN is false. *)
Definition ltb (x y : JsNumber) : bool :=
  match x, y with
  | JsNum a, JsNum b => negb (Qle_bool b a)
  | _, _ => false
  end.

Definition leb (x y : JsNumber) : bool :=
  match x, y with
  | JsNum a, JsNum b => Qle_bool a b
  | _, _ => false
  end.

Definition ofZ (z : Z) : JsNumber := JsNum (inject_Z z).

(** [String(n)] for an integer [n]: its decimal numeral. *)
Definition stringOfZ (z : Z) : string :=
  DecimalString.NilZero.string_of_int (Z.to_int z).

End Js.

(** ** The public listings page *)

Module Listings.

Import Js.

(** *** Data *)

(** The [price] field of a property as it arrives from the API: a number,
    a string that is converted with [Number], or absent ([null] or
    [undefined]). *)
Inductive PriceField : Type :=
| PriceNumber (n : JsNumber)
| PriceString (s : string)
| PriceMissing.

Record Address : Type := { city : option string }.

(** The fields of a Property record the listings page reads.  [None] is an
    absent (or falsy non-string) field; [features] is [Some] exactly when
    the field is an array. *)
Record Property : Type := {
  id : string;
  title : string;
  price : PriceField;
  property_type : option string;
  address : option Address;
  features : option (list string)
}.

Record Filters : Type := {
  location : string;
  nearby : string;
  priceRange : string;
  roomType : string;
  restrictions : string
}.

Definition noFilters : Filters :=
  {| location := ""; nearby := ""; priceRange := ""; roomType := "";
     restrictions := "" |}.

Inductive Facet : Type :=
| FLocation | FNearby | FPriceRange | FRoomType | FRestrictions.

#[global] Instance Facet_eq_dec : EqDecision Facet.
Proof. solve_decision. Defined.

Definition facetValue (k : Facet) (fs : Filters) : string :=
  match k with
  | FLocation => location fs
  | FNearby => nearby fs
  | FPriceRange => priceRange fs
  | FRoomType => roomType fs
  | FRestrictions => restrictions fs
  end.

(** [setFilters({...filters, k: value})] *)
Definition setFacet (k : Facet) (value : string) (fs : Filters) : Filters :=
  match k with
  | FLocation =>
      {| location := value; nearby := nearby fs; priceRange := priceRange fs;
         roomType := roomType fs; restrictions := restrictions fs |}
  | FNearby =>
      {| location := location fs; nearby := value; priceRange := priceRange fs;
         roomType := roomType fs; restrictions := restrictions fs |}
  | FPriceRange =>
      {| location := location fs; nearby := nearby fs; priceRange := value;
         roomType := roomType fs; restrictions := restrictions fs |}
  | FRoomType =>
      {| location := location fs; nearby := nearby fs;
         priceRange := priceRange fs; roomType := value;
         restrictions := restrictions fs |}
  | FRestrictions =>
      {| location := location fs; nearby := nearby fs;
         priceRange := priceRange fs; roomType := roomType fs;
         restrictions := value |}
  end.

(** The filter set in which only facet [k] is set. *)
Definition onlyFacet (k : Facet) (fs : Filters) : Filters :=
  setFacet k (facetValue k fs) noFilters.

Definition PRICE_RANGES : list string :=
  [ "Under ₹10,000"; "₹10,000 - ₹20,000"; "₹20,000 - ₹30,000";
    "₹30,000 - ₹50,000"; "₹50,000 - ₹75,000"; "Above ₹75,000" ].

Definition UI_ROOM_TYPES : list string := [ "Apartment"; "House"; "Condo" ].

Definition UI_RESTRICTIONS : list string :=
  [ "Only Boys"; "Only Girls"; "Family"; "Working Professionals"; "Students" ].

(** Own-property lookup in an object literal.  The keys looked up are
    dropdown values and ids assigned by the server; a key inherited from
    [Object.prototype] (such as [constructor]) is outside the model. *)
Fixpoint lookupOwn {A : Type} (m : list (string * A)) (k : string) : option A :=
  match m with
  | [] => None
  | (k', v) :: m' => if String.eqb k' k then Some v else lookupOwn m' k
  end.

(** Remove a prefix, ignoring case ([p] is given in lower case). *)
Fixpoint stripPrefixCI (p s : string) : option string :=
  match p, s with
  | EmptyString, _ => Some s
  | String a p', String b s' =>
      if Ascii.eqb a (toLowerChar b) then stripPrefixCI p' s' else None
  | String _ _, EmptyString => None
  end.

(** *** The client-side filter pipeline *)

(** The object literal [map] of [filteredListings]: bucket label to price
    predicate. *)
Definition priceMap : list (string * (JsNumber -> bool)) :=
  [ ("Under ₹10,000", fun price => ltb price (ofZ 10000));
    ("₹10,000 - ₹20,000",
      fun price => leb (ofZ 10000) price && leb price (ofZ 20000));
    ("₹20,000 - ₹30,000",
      fun price => leb (ofZ 20000) price && leb price (ofZ 30000));
    ("₹30,000 - ₹50,000",
      fun price => leb (ofZ 30000) price && leb price (ofZ 50000));
    ("₹50,000 - ₹75,000",
      fun price => leb (ofZ 50000) price && leb price (ofZ 75000));
    ("Above ₹75,000", fun price => ltb (ofZ 75000) price) ].

Section Pipeline.

(** [Number] applied to a string (the StringToNumber conversion). *)
Variable Number : string -> JsNumber.

(** [typeof it.price === 'number' ? it.price : Number(it.price) || 0] *)
Definition numericPrice (it : Property) : JsNumber :=
  match price it with
  | PriceNumber n => n
  | PriceString s => orZero (Number s)
  | PriceMissing => JsNum 0
  end.

Definition priceStage (fs : Filters) (arr : list Property) : list Property :=
  if truthy (priceRange fs) then
    match lookupOwn priceMap (priceRange fs) with
    | Some priceFilter =>
        List.filter (fun it => priceFilter (numericPrice it)) arr
    | None => arr
    end
  else arr.

Definition roomTypeCallback (roomType : string) (it : Property) : bool :=
  let propertyType := toLowerCase (default "" (property_type it)) in
  if String.eqb roomType "apartment" then String.eqb propertyType "apartment"
  else if String.eqb roomType "house" then String.eqb propertyType "house"
  else if String.eqb roomType "condo" then String.eqb propertyType "condo"
  else false.

Definition roomTypeStage (fs : Filters) (arr : list Property) : list Property :=
  if truthy (roomType fs) && truthy (trim (roomType fs)) then
    List.filter (roomTypeCallback (toLowerCase (trim (roomType fs)))) arr
  else arr.

Definition cityOf (it : Property) : string :=
  match address it with
  | Some a => default "" (city a)
  | None => ""
  end.

Definition locationCallback (location : string) (it : Property) : bool :=
  includes (toLowerCase (cityOf it)) location.

Definition locationStage (fs : Filters) (arr : list Property) : list Property :=
  if truthy (location fs) && truthy (trim (location fs)) then
    List.filter (locationCallback (toLowerCase (trim (location fs)))) arr
  else arr.

(** [Array.isArray(it?.features) && it.features.some(cb)] *)
Definition someFeature (cb : string -> bool) (it : Property) : bool :=
  match features it with
  | Some fl => existsb cb fl
  | None => false
  end.

Definition restrictionsCallback (r : string) (it : Property) : bool :=
  someFeature (fun f => String.eqb (toLowerCase f) r) it.

Definition restrictionsStage (fs : Filters) (arr : list Property)
  : list Property :=
  if truthy (restrictions fs) && truthy (trim (restrictions fs)) then
    List.filter (restrictionsCallback (toLowerCase (trim (restrictions fs)))) arr
  else arr.

Definition nearbyCallback (nb : string) (it : Property) : bool :=
  someFeature
    (fun f => let s := toLowerCase f in startsWith s "nearby:" && includes s nb)
    it.

Definition nearbyStage (fs : Filters) (arr : list Property) : list Property :=
  if truthy (nearby fs) && truthy (trim (nearby fs)) then
    List.filter (nearbyCallback (toLowerCase (trim (nearby fs)))) arr
  else arr.

(** [filteredListings]: the five stages in source order. *)
Definition filteredListings (fs : Filters) (listings : list Property)
  : list Property :=
  nearbyStage fs
    (restrictionsStage fs
      (locationStage fs
        (roomTypeStage fs
          (priceStage fs listings)))).

(** What one facet demands of one property: the stage's guard decides
    whether the stage's callback applies. *)
Definition facetHolds (k : Facet) (fs : Filters) (it : Property) : bool :=
  match k with
  | FPriceRange =>
      if truthy (priceRange fs) then
        match lookupOwn priceMap (priceRange fs) with
        | Some priceFilter => priceFilter (numericPrice it)
        | None => true
        end
      else true
  | FRoomType =>
      if truthy (roomType fs) && truthy (trim (roomType fs)) then
        roomTypeCallback (toLowerCase (trim (roomType fs))) it
      else true
  | FLocation =>
      if truthy (location fs) && truthy (trim (location fs)) then
        locationCallback (toLowerCase (trim (location fs))) it
      else true
  | FRestrictions =>
      if truthy (restrictions fs) && truthy (trim (restrictions fs)) then
        restrictionsCallback (toLowerCase (trim (restrictions fs))) it
      else true
  | FNearby =>
      if truthy (nearby fs) && truthy (trim (nearby fs)) then
        nearbyCallback (toLowerCase (trim (nearby fs))) it
      else true
  end.

End Pipeline.

(** A numeric price is finite and its value satisfies [P]. *)
Definition priceWithin (P : Q -> Prop) (p : JsNumber) : Prop :=
  exists q : Q, p = JsNum q /\ P q.

(** The nearby facet as the specification words it: some feature entry has
    the prefix [Nearby:] and what follows the prefix, trimmed, contains the
    filter value, ignoring case. *)
Definition nearbyMatches (value : string) (it : Property) : bool :=
  someFeature
    (fun f =>
       match stripPrefixCI "nearby:" f with
       | Some rest => includes (toLowerCase (trim rest)) (toLowerCase (trim value))
       | None => false
       end)
    it.

Definition allFacets : list Facet :=
  [FPriceRange; FRoomType; FLocation; FRestrictions; FNearby].

(** *** Filter-option catalogs *)

(** [Array.from(new Set(l))]: first occurrences, in order. *)
Fixpoint dedupe (l : list string) : list string :=
  match l with
  | [] => []
  | x :: l' => x :: List.filter (fun y => negb (String.eqb x y)) (dedupe l')
  end.

(** [Array.prototype.sort()] with the default comparison of strings by
    code units. *)
Fixpoint insertSorted (x : string) (l : list string) : list string :=
  match l with
  | [] => [x]
  | y :: l' => if String.leb x y then x :: l else y :: insertSorted x l'
  end.

Definition sortStrings (l : list string) : list string :=
  foldr insertSorted [] l.

(** [.filter(Boolean)] on strings. *)
Definition filterTruthy (l : list string) : list string := List.filter truthy l.

(** [/^\s*word\s*:/i.test(f)] *)
Definition hasTag (word : string) (f : string) : bool :=
  match stripPrefixCI word (trimStart f) with
  | Some rest => String.prefix ":" (trimStart rest)
  | None => false
  end.

(** [/^\s*nearby\s*:/i.test(f)] *)
Definition isNearbyTag (f : string) : bool := hasTag "nearby" f.

(** [/^\s*(nearby|location)\s*:/i.test(f)] *)
Definition isReservedTag (f : string) : bool :=
  hasTag "nearby" f || hasTag "location" f.

(** [f.split(':').slice(1).join(':')]: what follows the first colon. *)
Fixpoint afterFirstColon (f : string) : string :=
  match f with
  | EmptyString => EmptyString
  | String c f' => if Ascii.eqb c ":" then f' else afterFirstColon f'
  end.

Definition featuresRaw (arr : list Property) : list string :=
  flat_map (fun it => default [] (features it)) arr.

Record Catalogs : Type := {
  locationOptions : list string;
  nearbyOptions : list string;
  typeOptions : list string;
  featureOptions : list string
}.

Definition noCatalogs : Catalogs :=
  {| locationOptions := []; nearbyOptions := []; typeOptions := [];
     featureOptions := [] |}.

Definition buildTypes (arr : list Property) : list string :=
  sortStrings (dedupe (filterTruthy
    (List.map (fun it => default "" (property_type it)) arr))).

Definition buildNearby (arr : list Property) : list string :=
  sortStrings (dedupe (filterTruthy
    (List.map (fun f => trim (afterFirstColon f))
      (List.filter isNearbyTag (featuresRaw arr))))).

Definition buildLocations (arr : list Property) : list string :=
  sortStrings (dedupe (filterTruthy (List.map cityOf arr))).

Definition buildRestrictionOptions (arr : list Property) : list string :=
  sortStrings (dedupe (filterTruthy
    (List.map trim
      (List.filter (fun f => negb (isReservedTag f)) (featuresRaw arr))))).

(** The body of the catalog-building effect once the request resolved. *)
Definition buildCatalogs (arr : list Property) : Catalogs :=
  {| locationOptions := buildLocations arr;
     nearbyOptions := buildNearby arr;
     typeOptions := buildTypes arr;
     featureOptions := buildRestrictionOptions arr |}.

(** *** The component as a transition system *)

(** How a GET on the properties endpoints resolves. *)
Inductive Response : Type :=
| RespArray (data : list Property)
| RespOther
| RespFailed.

(** [Array.isArray(res.data) ? res.data : []] *)
Definition arrayOf (r : Response) : list Property :=
  match r with
  | RespArray data => data
  | _ => []
  end.

Record PageState : Type := {
  filters : Filters;
  listings : list Property;
  catalogs : Catalogs;
  loading : bool;
  error : string;
  page : Z
}.

Definition initialPage : PageState :=
  {| filters := noFilters; listings := []; catalogs := noCatalogs;
     loading := true; error := ""; page := 1 |}.

(** Requests the component's effects start. *)
Inductive Request : Type :=
| GetAllForCatalogs
| GetListings (fs : Filters).

Inductive Event : Type :=
| Mounted
| CatalogsLoaded (r : Response)
| FilterChanged (k : Facet) (value : string)
| FiltersCleared
| ListingsLoaded (r : Response)
| PageSet (p : Z).

(** A change of the filter object: the page-reset effect and the start of
    [fetchProperties]. *)
Definition withFilters (fs : Filters) (st : PageState) : PageState :=
  {| filters := fs; listings := listings st; catalogs := catalogs st;
     loading := true; error := ""; page := 1 |}.

Definition filtersEqb (a b : Filters) : bool :=
  String.eqb (location a) (location b) && String.eqb (nearby a) (nearby b)
  && String.eqb (priceRange a) (priceRange b)
  && String.eqb (roomType a) (roomType b)
  && String.eqb (restrictions a) (restrictions b).

(** [setFilters(fs)]: the two effects that depend on the filter values run
    only when one of the values differs. *)
Definition applyFilters (fs : Filters) (st : PageState) : PageState :=
  if filtersEqb fs (filters st) then st else withFilters fs st.

Definition step (e : Event) (st : PageState) : PageState :=
  match e with
  | Mounted => withFilters (filters st) st
  | CatalogsLoaded RespFailed => st
  | CatalogsLoaded r =>
      {| filters := filters st; listings := listings st;
         catalogs := buildCatalogs (arrayOf r);
         loading := loading st; error := error st; page := page st |}
  | FilterChanged k value => applyFilters (setFacet k value (filters st)) st
  | FiltersCleared => applyFilters noFilters st
  | ListingsLoaded RespFailed =>
      {| filters := filters st; listings := []; catalogs := catalogs st;
         loading := false;
         error := "Failed to load properties. Please try again.";
         page := page st |}
  | ListingsLoaded r =>
      {| filters := filters st; listings := arrayOf r;
         catalogs := catalogs st; loading := false; error := error st;
         page := page st |}
  | PageSet p =>
      {| filters := filters st; listings := listings st;
         catalogs := catalogs st; loading := loading st; error := error st;
         page := p |}
  end.

(** The requests an event starts: the catalog effect has no dependency and
    runs on mount only; the listings effect runs on mount and on every
    change of a filter value. *)
Definition refetch (fs : Filters) (st : PageState) : list Request :=
  if filtersEqb fs (filters st) then [] else [GetListings fs].

Definition requests (e : Event) (st : PageState) : list Request :=
  match e with
  | Mounted => [GetAllForCatalogs; GetListings (filters st)]
  | FilterChanged k value => refetch (setFacet k value (filters st)) st
  | FiltersCleared => refetch noFilters st
  | CatalogsLoaded _ | ListingsLoaded _ | PageSet _ => []
  end.

Definition run (es : list Event) (st : PageState) : PageState :=
  foldl (fun s e => step e s) st es.

(** The events that change the active filter selection. *)
Definition isFilterEvent (e : Event) : bool :=
  match e with
  | FilterChanged _ _ | FiltersCleared => true
  | _ => false
  end.

(** The events that follow the one resolution of the mount request. *)
Definition afterCatalogs (e : Event) : bool :=
  match e with
  | Mounted | CatalogsLoaded _ => false
  | _ => true
  end.

(** *** Phone validation *)

(** [isValidPhone]: [String(val || '')] is [val] itself for a string. *)
Definition isValidPhone (val : string) : bool :=
  (String.length (stripNonDigits (orElse val "")) =? 10)%nat.

(** The number of decimal digits occurring in a string. *)
Fixpoint countDigits (s : string) : nat :=
  match s with
  | EmptyString => 0%nat
  | String c s' => ((if isDigit c then 1 else 0) + countDigits s')%nat
  end.

(** *** The per-listing contact modal *)

Record ContactForm : Type := {
  name : string;
  email : string;
  phone : string;
  message : string;
  website : string
}.

Record ContactState : Type := {
  contactOpen : bool;
  contactListing : option Property;
  contactForm : ContactForm;
  contactSubmitting : bool;
  contactError : string;
  contactSuccess : string
}.

Record ContactPayload : Type := {
  p_name : string;
  p_email : string;
  p_phone : string;
  p_listing_id : string;
  p_property_id : string;
  p_message : string
}.

(** How the POST resolves; a failure carries the message the [catch] block
    derives from the error object. *)
Inductive PostOutcome : Type :=
| PostOk
| PostFailed (msg : string).

(** What the environment supplies to one run of [submitContact]: the clock
    at the rate-limit check, the server's answer, the clock after the
    answer, and whether [localStorage.setItem] throws. *)
Record SubmitEnv : Type := {
  now : Z;
  post : ContactPayload -> PostOutcome;
  nowAfter : Z;
  setItemThrows : bool
}.

(** What one run leaves behind. *)
Record SubmitResult : Type := {
  stateAfter : ContactState;
  storageAfter : gmap string string;
  sent : list ContactPayload;
  closeScheduled : bool
}.

Definition RATE_KEY : string := "contact_last_submit".
Definition RATE_LIMIT_MS : Z := 60000.

Definition withOutcome (st : ContactState) (err succ : string) : ContactState :=
  {| contactOpen := contactOpen st; contactListing := contactListing st;
     contactForm := contactForm st; contactSubmitting := false;
     contactError := err; contactSuccess := succ |}.

Definition blockedMessage (secs : Z) : string :=
  "Please wait " +:+ stringOfZ secs +:+ "s before submitting again.".

Definition inquiryMessage (l : Property) : string :=
  "Inquiry for listing " +:+ id l +:+
  (if truthy (title l) then ": " +:+ title l else "").

(** A form that passes the client validation: name, email and phone are
    filled, the phone is valid and the honeypot field is blank. *)
Definition formComplete (f : ContactForm) : bool :=
  truthy (trim (name f)) && truthy (trim (email f)) && truthy (trim (phone f))
  && isValidPhone (trim (phone f)) && negb (truthy (trim (website f))).

Section Contact.

Variable Number : string -> JsNumber.

(** [Number(localStorage.getItem(RATE_KEY) || 0)] *)
Definition lastSubmit (storage : gmap string string) : JsNumber :=
  match storage !! RATE_KEY with
  | Some s => if truthy s then Number s else ofZ 0
  | None => ofZ 0
  end.

(** The rate-limit test: [Some secs] when the submission is blocked, with
    [secs = Math.ceil((RATE_LIMIT_MS - (now - last)) / 1000)]. *)
Definition rateLimited (now : Z) (last : JsNumber) : option Z :=
  match last with
  | JsNum l =>
      let elapsed := (inject_Z now - l)%Q in
      if negb (Qle_bool (inject_Z RATE_LIMIT_MS) elapsed) then
        Some (Qceiling ((inject_Z RATE_LIMIT_MS - elapsed) / 1000))
      else None
  | JsNaN => None
  end.

Definition submitContact (env : SubmitEnv) (st : ContactState)
    (storage : gmap string string) : SubmitResult :=
  match contactListing st with
  | None =>
      {| stateAfter := st; storageAfter := storage; sent := [];
         closeScheduled := false |}
  | Some listing =>
      let stop msg :=
        {| stateAfter := withOutcome st msg ""; storageAfter := storage;
           sent := []; closeScheduled := false |} in
      match rateLimited (now env) (lastSubmit storage) with
      | Some secs => stop (blockedMessage secs)
      | None =>
          let name := trim (name (contactForm st)) in
          let email := trim (email (contactForm st)) in
          let phone := trim (phone (contactForm st)) in
          if negb (truthy name) || negb (truthy email) || negb (truthy phone)
          then stop "Please fill Name, Email and Contact No."
          else if negb (isValidPhone phone)
          then stop "Please enter a valid contact number (10-13 digits)."
          else if truthy (trim (website (contactForm st)))
          then stop "Submission blocked as spam."
          else
            let payload :=
              {| p_name := name; p_email := email; p_phone := phone;
                 p_listing_id := id listing; p_property_id := id listing;
                 p_message := inquiryMessage listing |} in
            match post env payload with
            | PostOk =>
                {| stateAfter :=
                     withOutcome st ""
                       "Thanks for showing the interest, we will reach out to you soon.";
                   storageAfter :=
                     if setItemThrows env then storage
                     else <[RATE_KEY := stringOfZ (nowAfter env)]> storage;
                   sent := [payload];
                   closeScheduled := true |}
            | PostFailed msg =>
                {| stateAfter := withOutcome st msg ""; storageAfter := storage;
                   sent := [payload]; closeScheduled := false |}
            end
      end
  end.

End Contact.

End Listings.

(** ** What the admin components share: files, staged images, API errors *)

Module Admin.

Import Js.

Record File : Type := {
  fileName : string;
  type : string;
  size : Z
}.

(** An entry of [selectedImages]. *)
Record StagedImage : Type := {
  file : File;
  preview : string;
  imageId : string
}.

(** The values [URL.createObjectURL] and the random id generator return
    during one event, by position of the file in the batch. *)
Record Fresh : Type := {
  createObjectURL : nat -> File -> string;
  randomId : nat -> string
}.

Definition stage (fresh : Fresh) (files : list File) : list StagedImage :=
  imap (fun i f =>
          {| file := f; preview := createObjectURL fresh i f;
             imageId := randomId fresh i |}) files.

Definition MAX_IMAGES : nat := 10.
Definition MAX_BYTES : Z := 10 * 1024 * 1024.

Definition countMessage : string := "Maximum 10 images allowed".
Definition typeMessage : string := "Only image files are allowed".
Definition sizeMessage : string := "Image size must be less than 10MB".

Definition isImage (f : File) : bool := startsWith (type f) "image/".
Definition tooLarge (f : File) : bool := MAX_BYTES <? size f.

(** The validation loop of [handleImageSelect] (the same text in both
    components): the message of the first violation met, if any. *)
Fixpoint firstViolation (files : list File) : option string :=
  match files with
  | [] => None
  | f :: rest =>
      if negb (isImage f) then Some typeMessage
      else if tooLarge f then Some sizeMessage
      else firstViolation rest
  end.

(** A file that passes both checks of the loop. *)
Definition acceptable (f : File) : bool := isImage f && negb (tooLarge f).

(** What one file-select event does to the staged set and to the image
    error, given the total the count check computes: too many images; else
    the first file, in selection order, that is not acceptable decides
    between the type and the size message; else everything is staged. *)
Definition StagingOutcome (total : nat) (fresh : Fresh) (files : list File)
    (before after : list StagedImage) (err : string) : Prop :=
  ((MAX_IMAGES < total)%nat -> after = before /\ err = countMessage)
  /\ ((total <= MAX_IMAGES)%nat ->
      forall ok f rest,
        files = ok ++ f :: rest ->
        Forall (fun g => acceptable g = true) ok ->
        (isImage f = false -> after = before /\ err = typeMessage)
        /\ (isImage f = true -> tooLarge f = true ->
            after = before /\ err = sizeMessage))
  /\ ((total <= MAX_IMAGES)%nat ->
      Forall (fun g => acceptable g = true) files ->
      after = before ++ stage fresh files
      /\ err = ""
      /\ List.map file after = List.map file before ++ files
      /\ List.map preview (stage fresh files)
         = imap (createObjectURL fresh) files).

(** The error object of a rejected request, as the [catch] blocks read it:
    [e.response.data.detail], [e.response.data.message], [e.message] (empty
    when absent) and [e.response.status]. *)
Record ApiError : Type := {
  detail : string;
  dataMessage : string;
  errMessage : string;
  status : option Z
}.

Inductive ApiResult (A : Type) : Type :=
| Ok (a : A)
| Failed (e : ApiError).
Arguments Ok {A} a.
Arguments Failed {A} e.

Definition statusIs (e : ApiError) (code : Z) : bool :=
  match status e with
  | Some c => c =? code
  | None => false
  end.

(** [uploadImages] replaces every failure by [new Error('Failed to upload
    images')]. *)
Definition uploadError : ApiError :=
  {| detail := ""; dataMessage := ""; errMessage := "Failed to upload images";
     status := None |}.

End Admin.

(** ** The admin New Listing form *)

Module AdminNewListing.

Import Js Admin.

Definition UI_PROPERTY_TYPES : list string := [ "Flat"; "Apartment"; "Condo" ].
Definition UI_SIZES : list string :=
  [ "1 BHK"; "2 BHK"; "3 BHK"; "4 BHK"; "5 BHK" ].
Definition UI_STATUSES : list string :=
  [ "Available"; "Not Available"; "off_market" ].

Definition mapPropertyTypeToBackend (val : string) : string :=
  let v := toLowerCase (orElse val "") in
  if String.eqb v "flat" || String.eqb v "apartment" then "apartment"
  else if String.eqb v "condo" then "condo"
  else "apartment".

Definition mapStatusToBackend (val : string) : string :=
  let v := toLowerCase (orElse val "") in
  if String.eqb v "available" then "available"
  else if String.eqb v "not available" then "off_market"
  else if String.eqb v "off_market" then "off_market"
  else "available".

(** [Number(d)] for a one-character string holding a decimal digit. *)
Definition digitValue (d : ascii) : Z := Z.of_nat (Ascii.nat_of_ascii d) - 48.

(** [bedroomsFromSize]: the match of [/^\s*(\d)\s*bhk\s*$/i]; [None] is the
    empty string returned when the size does not match. *)
Definition bedroomsFromSize (size : string) : option JsNumber :=
  match trimStart (orElse size "") with
  | String d rest =>
      if isDigit d then
        match Listings.stripPrefixCI "bhk" (trimStart rest) with
        | Some tail =>
            match trimStart tail with
            | EmptyString => Some (ofZ (digitValue d))
            | _ => None
            end
        | None => None
        end
      else None
  | EmptyString => None
  end.


(** [x || null] where [x] is a number or the empty string. *)
Definition orNull (x : option JsNumber) : option JsNumber :=
  match x with
  | Some (JsNum q) => if Qeq_bool q 0 then None else Some (JsNum q)
  | Some JsNaN | None => None
  end.

Record Address : Type := {
  street : string;
  city : string;
  state : string;
  zip_code : string;
  country : string
}.

Record Coordinates : Type := {
  latitude : string;
  longitude : string
}.

Record Form : Type := {
  title : string;
  property_type_ui : string;
  size_ui : string;
  restrictions_ui : string;
  status_ui : string;
  price : string;
  bedrooms : string;
  bathrooms : string;
  square_feet : string;
  description : string;
  features : string;
  address : Address;
  coordinates : Coordinates;
  nearby : string;
  location_text : string;
  contact_phone : string;
  alternative_phone : string;
  contact_email : string
}.

Definition initialForm : Form :=
  {| title := ""; property_type_ui := "Apartment"; size_ui := "";
     restrictions_ui := ""; status_ui := "Available"; price := "";
     bedrooms := ""; bathrooms := ""; square_feet := ""; description := "";
     features := "";
     address := {| street := ""; city := "Jaipur"; state := "Rajasthan";
                   zip_code := ""; country := "India" |};
     coordinates := {| latitude := ""; longitude := "" |};
     nearby := ""; location_text := ""; contact_phone := "";
     alternative_phone := ""; contact_email := "" |}.

(** The body of the POST that creates a property. *)
Record Payload : Type := {
  p_title : string;
  p_property_type : string;
  p_status : string;
  p_price : JsNumber;
  p_bedrooms : option JsNumber;
  p_bathrooms : option JsNumber;
  p_square_feet : option JsNumber;
  p_description : option string;
  p_features : list string;
  p_images : list string;
  p_address : Address;
  p_coordinates : option (JsNumber * JsNumber)
}.

(** [s.split(',')] *)
Fixpoint splitComma (s : string) : list string :=
  match s with
  | EmptyString => [EmptyString]
  | String c s' =>
      if Ascii.eqb c "," then EmptyString :: splitComma s'
      else match splitComma s' with
           | piece :: pieces => String c piece :: pieces
           | [] => [String c EmptyString]
           end
  end.

Definition pushIf (value : string) (entry : string) (base : list string)
  : list string :=
  if truthy value then base ++ [entry] else base.

Section Payload.

Variable Number : string -> JsNumber.

(** [s ? Number(s) : null] *)
Definition numberOrNull (s : string) : option JsNumber :=
  if truthy s then Some (Number s) else None.

Definition payloadFeatures (form : Form) : list string :=
  let base :=
    if truthy (features form)
    then Listings.filterTruthy (List.map trim (splitComma (features form)))
    else [] in
  pushIf (location_text form) ("Location: " +:+ location_text form)
    (pushIf (nearby form) ("Nearby: " +:+ nearby form)
      (pushIf (restrictions_ui form) (restrictions_ui form) base)).

Definition buildPayload (form : Form) : Payload :=
  {| p_title := title form;
     p_property_type := mapPropertyTypeToBackend (property_type_ui form);
     p_status := mapStatusToBackend (status_ui form);
     p_price := Number (price form);
     p_bedrooms :=
       if truthy (bedrooms form) then Some (Number (bedrooms form))
       else orNull (bedroomsFromSize (size_ui form));
     p_bathrooms := numberOrNull (bathrooms form);
     p_square_feet := numberOrNull (square_feet form);
     p_description :=
       if truthy (description form) then Some (description form) else None;
     p_features := payloadFeatures form;
     p_images := [];
     p_address :=
       {| street := street (address form); city := city (address form);
          state := state (address form); zip_code := zip_code (address form);
          country := orElse (country (address form)) "United States" |};
     p_coordinates :=
       if truthy (latitude (coordinates form))
          && truthy (longitude (coordinates form))
       then Some (Number (latitude (coordinates form)),
                  Number (longitude (coordinates form)))
       else None |}.

End Payload.

(** *** Image staging *)

Record ImageState : Type := {
  selectedImages : list StagedImage;
  imageError : string
}.

Definition handleImageSelect (fresh : Fresh) (files : list File)
    (st : ImageState) : ImageState :=
  if (MAX_IMAGES <? length files + length (selectedImages st))%nat then
    {| selectedImages := selectedImages st; imageError := countMessage |}
  else
    match firstViolation files with
    | Some msg => {| selectedImages := selectedImages st; imageError := msg |}
    | None =>
        {| selectedImages := selectedImages st ++ stage fresh files;
           imageError := "" |}
    end.

(** *** Creating the listing, then uploading its images *)

Inductive Request : Type :=
| CreateProperty (authorized : bool) (payload : Payload)
| UploadImages (propertyId : string) (files : list File)
| PutImages (authorized : bool) (propertyId : string) (images : list string)
| DeleteProperty (propertyId : string)
| GetMyProperties.

Definition isDelete (r : Request) : bool :=
  match r with
  | DeleteProperty _ => true
  | _ => false
  end.

Record State : Type := {
  form : Form;
  loading : bool;
  error : string;
  success : string;
  images : ImageState;
  imageUploading : bool
}.

(** How the server answers the requests of one run of [submit]: the created
    record's id, the uploaded image URLs ([response.data.images || []]),
    and the outcome of the PUT that attaches them. *)
Record Server : Type := {
  onCreate : Payload -> ApiResult string;
  onUpload : string -> list File -> ApiResult (list string);
  onPutImages : string -> list string -> ApiResult unit
}.

Record Run : Type := {
  stateAfter : State;
  trace : list Request;
  revoked : list string
}.

Definition hasToken (token : option string) : bool :=
  match token with
  | Some t => truthy t
  | None => false
  end.

Definition partialCreateMessage : string :=
  "Property created but image upload failed. You can add images later by editing the property.".

Definition createErrorMessage (e : ApiError) : string :=
  let msg := orElse (detail e) (orElse (errMessage e) "Failed to create listing.") in
  if statusIs e 401 || statusIs e 403
  then msg +:+ " (Authentication required. Please log in as agent/admin or use dev public endpoint.)"
  else msg.

Definition successMessage (createdId : string) (uploaded : list string) : string :=
  "Listing created with ID: " +:+ createdId +:+
  (if (0 <? length uploaded)%nat
   then " and " +:+ stringOfZ (Z.of_nat (length uploaded)) +:+ " images uploaded"
   else "").

Definition resetForm (f : Form) : Form :=
  {| title := ""; property_type_ui := property_type_ui f; size_ui := "";
     restrictions_ui := ""; status_ui := status_ui f; price := "";
     bedrooms := ""; bathrooms := ""; square_feet := ""; description := "";
     features := ""; address := address f; coordinates := coordinates f;
     nearby := ""; location_text := ""; contact_phone := "";
     alternative_phone := ""; contact_email := "" |}.

(** [uploadImages]: nothing is sent without staged images; otherwise one
    multipart POST, whose failure is thrown again as [uploadError]. *)
Definition uploadImages (srv : Server) (propertyId : string)
    (selectedImages : list StagedImage)
  : ApiResult (list string) * list Request :=
  match selectedImages with
  | [] => (Ok [], [])
  | _ =>
      let files := List.map file selectedImages in
      (match onUpload srv propertyId files with
       | Ok uploaded => Ok uploaded
       | Failed _ => Failed uploadError
       end,
       [UploadImages propertyId files])
  end.

(** The image step of [submit]: the uploaded URLs, the error it sets (empty
    when none) and the requests it issues. *)
Definition attachImages (srv : Server) (authorized : bool) (createdId : string)
    (staged : list StagedImage) : list string * string * list Request :=
  match staged with
  | [] => ([], "", [])
  | _ =>
      match uploadImages srv createdId staged with
      | (Failed _, reqs) => ([], partialCreateMessage, reqs)
      | (Ok uploaded, reqs) =>
          let reqs' := reqs ++ [PutImages authorized createdId uploaded] in
          match onPutImages srv createdId uploaded with
          | Failed _ => (uploaded, partialCreateMessage, reqs')
          | Ok _ => (uploaded, "", reqs')
          end
      end
  end.

Section Submit.

Variable Number : string -> JsNumber.

Definition submit (token : option string) (srv : Server) (st : State) : Run :=
  let payload := buildPayload Number (form st) in
  let authorized := hasToken token in
  match onCreate srv payload with
  | Failed e =>
      {| stateAfter :=
           {| form := form st; loading := false;
              error := createErrorMessage e; success := "";
              images := images st; imageUploading := imageUploading st |};
         trace := [CreateProperty authorized payload];
         revoked := [] |}
  | Ok createdId =>
      let staged := selectedImages (images st) in
      let '(uploaded, err, reqs) :=
        attachImages srv authorized createdId staged in
      {| stateAfter :=
           {| form := resetForm (form st); loading := false;
              error := err; success := successMessage createdId uploaded;
              images := {| selectedImages := []; imageError := "" |};
              imageUploading :=
                match staged with
                | [] => imageUploading st
                | _ => false
                end |};
         trace := CreateProperty authorized payload :: reqs;
         revoked :=
           List.map preview (List.filter (fun img => truthy (preview img)) staged) |}
  end.

End Submit.

(** [deleteOne]: the only place of the component that issues a DELETE. *)
Definition deleteOne (token : option string) (propertyId : string)
    (outcome : ApiResult unit) : list Request :=
  if truthy propertyId && hasToken token then
    match outcome with
    | Ok _ => [DeleteProperty propertyId; GetMyProperties]
    | Failed _ => [DeleteProperty propertyId]
    end
  else [].

End AdminNewListing.

(** ** The admin listings page (edit form) *)

Module AdminListings.

Import Js Admin.

Record Listing : Type := {
  id : string;
  listingImages : list string
}.

(** The table that maps the ids of five records to the ids the mutating
    endpoints expect. *)
Definition idMapping : list (string * string) :=
  [ ("68ce7ad275b8647ccef110ba", "22a9d63e-b0b7-449e-a757-43215814e82e");
    ("68ce7ad275b8647ccef110bb", "9efed634-a8bb-4079-9c2a-ab2a90eca4d4");
    ("68ce7ad275b8647ccef110bc", "b31e354a-ada1-427d-8ef9-1824c608073b");
    ("68ce7ad275b8647ccef110bd", "23a71945-3f85-4427-a712-404e6450b0ea");
    ("68ce7ad275b8647ccef110be", "5d8dc159-c57b-4fdb-859f-e795e1e420f6") ].

(** [idMapping[listing.id] || listing.id] *)
Definition getCorrectId (listing : Listing) : string :=
  match Listings.lookupOwn idMapping (id listing) with
  | Some uuid => orElse uuid (id listing)
  | None => id listing
  end.

Inductive Route : Type :=
| Authorized
| Public
| Plain.

Section Edit.

(** The scalar fields of the edit form, which the update payload copies or
    converts one by one. *)
Variable Fields : Type.

(** [editForm]: the empty object after a reset; [images] is the retained
    list of existing image URLs when the form has one. *)
Record EditForm : Type := {
  fields : option Fields;
  images : option (list string)
}.

Definition emptyForm : EditForm := {| fields := None; images := None |}.

Record UpdatePayload : Type := {
  u_fields : option Fields;
  u_images : list string
}.

Inductive Request : Type :=
| UploadImages (propertyId : string) (files : list File)
| PutProperty (route : Route) (propertyId : string) (payload : UpdatePayload)
| DeleteProperty (route : Route) (propertyId : string)
| GetProperties.

Definition isDelete (r : Request) : bool :=
  match r with
  | DeleteProperty _ _ => true
  | _ => false
  end.

Record State : Type := {
  listings : list Listing;
  loading : bool;
  error : string;
  editingListing : option Listing;
  editForm : EditForm;
  updateLoading : bool;
  selectedImages : list StagedImage;
  imageError : string;
  imageUploading : bool
}.

(** *** Image staging of the edit form *)

Definition handleImageSelect (fresh : Fresh) (files : list File) (st : State)
  : State :=
  let currentImageCount := length (default [] (images (editForm st))) in
  let reject msg :=
    {| listings := listings st; loading := loading st; error := error st;
       editingListing := editingListing st; editForm := editForm st;
       updateLoading := updateLoading st;
       selectedImages := selectedImages st; imageError := msg;
       imageUploading := imageUploading st |} in
  if (MAX_IMAGES <? length files + currentImageCount
                    + length (selectedImages st))%nat
  then reject countMessage
  else
    match firstViolation files with
    | Some msg => reject msg
    | None =>
        {| listings := listings st; loading := loading st; error := error st;
           editingListing := editingListing st; editForm := editForm st;
           updateLoading := updateLoading st;
           selectedImages := selectedImages st ++ stage fresh files;
           imageError := ""; imageUploading := imageUploading st |}
    end.

(** *** Saving the edit *)

(** How the server answers the requests of one run of [updateListing]. *)
Record Server : Type := {
  onUpload : string -> list File -> ApiResult (list string);
  onPut : Route -> string -> UpdatePayload -> ApiResult unit;
  onList : ApiResult (list Listing)
}.

(** What one run leaves behind: the final state, the requests issued, the
    preview URLs released, and the successive values given to [setError]. *)
Record Run : Type := {
  stateAfter : State;
  trace : list Request;
  revoked : list string;
  errorLog : list string
}.

Definition partialUpdateMessage : string :=
  "Property updated but image upload failed. You can try uploading images again.".

Definition updateErrorMessage (e : ApiError) : string :=
  if truthy (detail e) then detail e
  else if truthy (dataMessage e) then dataMessage e
  else if statusIs e 404 then "Listing not found. It may have been deleted."
  else if statusIs e 401 || statusIs e 403
  then "Authentication required. Please log in as admin/agent."
  else if statusIs e 422 then "Invalid data provided. Please check all fields."
  else if truthy (errMessage e) then errMessage e
  else "Failed to update listing.".

Definition listErrorMessage (e : ApiError) : string :=
  orElse (detail e) (orElse (errMessage e) "Failed to load listings.").

(** [uploadImages], as in the New Listing form. *)
Definition uploadImages (srv : Server) (propertyId : string)
    (selectedImages : list StagedImage)
  : ApiResult (list string) * list Request :=
  match selectedImages with
  | [] => (Ok [], [])
  | _ =>
      let files := List.map file selectedImages in
      (match onUpload srv propertyId files with
       | Ok uploaded => Ok uploaded
       | Failed _ => Failed uploadError
       end,
       [UploadImages propertyId files])
  end.

(** The image step of [updateListing], which runs before the PUT. *)
Definition uploadStaged (srv : Server) (correctId : string)
    (staged : list StagedImage) : list string * string * list Request :=
  match staged with
  | [] => ([], "", [])
  | _ =>
      match uploadImages srv correctId staged with
      | (Ok uploaded, reqs) => (uploaded, "", reqs)
      | (Failed _, reqs) => ([], partialUpdateMessage, reqs)
      end
  end.

(** The PUT, with the fallback from the public route to the plain one when
    there is no token. *)
Definition putUpdate (srv : Server) (authorized : bool) (correctId : string)
    (payload : UpdatePayload) : ApiResult unit * list Request :=
  if authorized then
    (onPut srv Authorized correctId payload,
     [PutProperty Authorized correctId payload])
  else
    match onPut srv Public correctId payload with
    | Ok r => (Ok r, [PutProperty Public correctId payload])
    | Failed _ =>
        (onPut srv Plain correctId payload,
         [PutProperty Public correctId payload;
          PutProperty Plain correctId payload])
    end.

Definition updateListing (token : option string) (srv : Server) (st : State)
  : Run :=
  match editingListing st with
  | None => {| stateAfter := st; trace := []; revoked := []; errorLog := [] |}
  | Some listing =>
      let correctId := getCorrectId listing in
      let staged := selectedImages st in
      let '(uploaded, uploadErr, reqs1) := uploadStaged srv correctId staged in
      let uploading :=
        match staged with
        | [] => imageUploading st
        | _ => false
        end in
      let payload :=
        {| u_fields := fields (editForm st);
           u_images := default [] (images (editForm st)) ++ uploaded |} in
      let '(answer, reqs2) :=
        putUpdate srv (AdminNewListing.hasToken token) correctId payload in
      match answer with
      | Failed e =>
          {| stateAfter :=
               {| listings := listings st; loading := loading st;
                  error := updateErrorMessage e;
                  editingListing := editingListing st;
                  editForm := editForm st; updateLoading := false;
                  selectedImages := staged; imageError := imageError st;
                  imageUploading := uploading |};
             trace := reqs1 ++ reqs2;
             revoked := [];
             errorLog :=
               "" :: (if truthy uploadErr then [uploadErr] else [])
                  ++ [updateErrorMessage e] |}
      | Ok _ =>
          (* fetchListings: setError('') and then the outcome of the GET *)
          {| stateAfter :=
               {| listings :=
                    match onList srv with
                    | Ok data => data
                    | Failed _ => []
                    end;
                  loading := false;
                  error :=
                    match onList srv with
                    | Ok _ => ""
                    | Failed e => listErrorMessage e
                    end;
                  editingListing := None; editForm := emptyForm;
                  updateLoading := false; selectedImages := [];
                  imageError := ""; imageUploading := uploading |};
             trace := reqs1 ++ reqs2 ++ [GetProperties];
             revoked :=
               List.map preview
                 (List.filter (fun img => truthy (preview img)) staged);
             errorLog :=
               "" :: (if truthy uploadErr then [uploadErr] else [])
                  ++ "" :: match onList srv with
                           | Ok _ => []
                           | Failed e => [listErrorMessage e]
                           end |}
      end
  end.

End Edit.

End AdminListings.

(** ** Sample data *)

Module Examples.

Import Js.

(** A [Number] for running examples: the empty string is 0, an unsigned
    decimal numeral is its value, anything else is NaN. *)
Fixpoint digitsValue (acc : Z) (s : string) : option Z :=
  match s with
  | EmptyString => Some acc
  | String c s' =>
      if isDigit c
      then digitsValue (10 * acc + (Z.of_nat (Ascii.nat_of_ascii c) - 48)) s'
      else None
  end.

Definition decimalNumber (s : string) : JsNumber :=
  match digitsValue 0 s with
  | Some z => ofZ z
  | None => JsNaN
  end.

Definition metroFlat : Listings.Property :=
  {| Listings.id := "p1"; Listings.title := "Flat by the metro";
     Listings.price := Listings.PriceNumber (ofZ 15000);
     Listings.property_type := Some "apartment";
     Listings.address := Some {| Listings.city := Some "Jaipur" |};
     Listings.features := Some ["Nearby: Metro Station"; "Family"] |}.

Definition airportHouse : Listings.Property :=
  {| Listings.id := "p2"; Listings.title := "House by the airport";
     Listings.price := Listings.PriceNumber (ofZ 80000);
     Listings.property_type := Some "house";
     Listings.address := Some {| Listings.city := Some "Jaipur" |};
     Listings.features := Some ["Nearby: Airport"; "Only Boys"] |}.

Definition studentCondo : Listings.Property :=
  {| Listings.id := "p3"; Listings.title := "";
     Listings.price := Listings.PriceString "15000";
     Listings.property_type := Some "Condo";
     Listings.address := Some {| Listings.city := Some "Jodhpur" |};
     Listings.features := Some ["Students"; "Location: Old Town"] |}.

Definition cornerRoom : Listings.Property :=
  {| Listings.id := "p4"; Listings.title := "Corner room";
     Listings.price := Listings.PriceNumber (ofZ 9000);
     Listings.property_type := Some "apartment";
     Listings.address := Some {| Listings.city := Some "Jaipur" |};
     Listings.features := Some ["Nearby: NE"] |}.

Definition sampleListings : list Listings.Property :=
  [metroFlat; airportHouse; studentCondo].

Definition jaipurOnly : Listings.Filters :=
  Listings.setFacet Listings.FLocation "Jaipur" Listings.noFilters.

Definition jaipurApartments : Listings.Filters :=
  Listings.setFacet Listings.FRoomType "Apartment" jaipurOnly.

Definition nearbyNE : Listings.Filters :=
  Listings.setFacet Listings.FNearby "NE" Listings.noFilters.

Definition flatForm : AdminNewListing.Form :=
  {| AdminNewListing.title := "Two rooms in Jaipur";
     AdminNewListing.property_type_ui := "Flat";
     AdminNewListing.size_ui := "2 BHK";
     AdminNewListing.restrictions_ui := "Family";
     AdminNewListing.status_ui := "Not Available";
     AdminNewListing.price := "15000";
     AdminNewListing.bedrooms := "";
     AdminNewListing.bathrooms := "";
     AdminNewListing.square_feet := "";
     AdminNewListing.description := "";
     AdminNewListing.features := "Lift, Parking";
     AdminNewListing.address := AdminNewListing.address AdminNewListing.initialForm;
     AdminNewListing.coordinates :=
       AdminNewListing.coordinates AdminNewListing.initialForm;
     AdminNewListing.nearby := "Metro Station";
     AdminNewListing.location_text := "";
     AdminNewListing.contact_phone := "";
     AdminNewListing.alternative_phone := "";
     AdminNewListing.contact_email := "" |}.

Definition photo : Admin.File :=
  {| Admin.fileName := "front.png"; Admin.type := "image/png";
     Admin.size := 2 * 1024 * 1024 |}.

Definition hugePhoto : Admin.File :=
  {| Admin.fileName := "panorama.png"; Admin.type := "image/png";
     Admin.size := 11 * 1024 * 1024 |}.

Definition lease : Admin.File :=
  {| Admin.fileName := "lease.pdf"; Admin.type := "application/pdf";
     Admin.size := 1024 |}.

Definition blobs : Admin.Fresh :=
  {| Admin.createObjectURL := fun i f => "blob:" +:+ Admin.fileName f;
     Admin.randomId := fun i => stringOfZ (Z.of_nat i) |}.

Definition nothingStaged : AdminNewListing.ImageState :=
  {| AdminNewListing.selectedImages := []; AdminNewListing.imageError := "" |}.

(** An edit in progress on a listing, with one staged photo. *)
Definition editedListing : AdminListings.Listing :=
  {| AdminListings.id := "68ce7ad275b8647ccef110ba";
     AdminListings.listingImages := [] |}.

Definition stagedPhoto : Admin.StagedImage :=
  {| Admin.file := photo; Admin.preview := "blob:front.png";
     Admin.imageId := "a1b2c3d4e" |}.

Definition editing : AdminListings.State unit :=
  {| AdminListings.listings := [editedListing];
     AdminListings.loading := false;
     AdminListings.error := "";
     AdminListings.editingListing := Some editedListing;
     AdminListings.editForm :=
       {| AdminListings.fields := Some tt; AdminListings.images := None |};
     AdminListings.updateLoading := false;
     AdminListings.selectedImages := [stagedPhoto];
     AdminListings.imageError := "";
     AdminListings.imageUploading := false |}.

Definition networkError : Admin.ApiError :=
  {| Admin.detail := ""; Admin.dataMessage := "";
     Admin.errMessage := "Network Error"; Admin.status := None |}.

(** The image upload is refused; the update and the refresh succeed. *)
Definition uploadDown : AdminListings.Server unit :=
  {| AdminListings.onUpload := fun _ _ => Admin.Failed networkError;
     AdminListings.onPut := fun _ _ _ => Admin.Ok tt;
     AdminListings.onList := Admin.Ok [editedListing] |}.

(** The New Listing form with one staged photo, and a server that creates
    the record but refuses the image upload. *)
Definition creating : AdminNewListing.State :=
  {| AdminNewListing.form := flatForm;
     AdminNewListing.loading := false;
     AdminNewListing.error := "";
     AdminNewListing.success := "";
     AdminNewListing.images :=
       {| AdminNewListing.selectedImages := [stagedPhoto];
          AdminNewListing.imageError := "" |};
     AdminNewListing.imageUploading := false |}.

Definition createOnly : AdminNewListing.Server :=
  {| AdminNewListing.onCreate := fun _ => Admin.Ok "new-id";
     AdminNewListing.onUpload := fun _ _ => Admin.Failed networkError;
     AdminNewListing.onPutImages := fun _ _ => Admin.Ok tt |}.

(** A visitor's inquiry about a listing. *)
Definition inquiry : Listings.ContactState :=
  {| Listings.contactOpen := true;
     Listings.contactListing := Some metroFlat;
     Listings.contactForm :=
       {| Listings.name := "Asha"; Listings.email := "asha@example.com";
          Listings.phone := "98765 43210"; Listings.message := "";
          Listings.website := "" |};
     Listings.contactSubmitting := false;
     Listings.contactError := "";
     Listings.contactSuccess := "" |}.

(** The storage after a submission recorded at time [t]. *)
Definition submittedAt (t : Z) : gmap string string :=
  {[ Listings.RATE_KEY := stringOfZ t ]}.

Definition serverUp (t : Z) : Listings.SubmitEnv :=
  {| Listings.now := t; Listings.post := fun _ => Listings.PostOk;
     Listings.nowAfter := t + 250; Listings.setItemThrows := false |}.

Definition serverDown (t : Z) : Listings.SubmitEnv :=
  {| Listings.now := t;
     Listings.post := fun _ => Listings.PostFailed "Network Error";
     Listings.nowAfter := t + 250; Listings.setItemThrows := false |}.

End Examples.

(** ** The listings page: pages, swipes and the image carousel *)

Module Paging.

Definition ITEMS_PER_PAGE : Z := 6.

(** [Math.max(1, Math.ceil(n / ITEMS_PER_PAGE))] for a list of [n] items. *)
Definition totalPages (n : nat) : Z :=
  Z.max 1 (Qceiling (inject_Z (Z.of_nat n) / inject_Z ITEMS_PER_PAGE)).

(** The index [Array.prototype.slice] derives from an argument: a negative
    argument counts from the end, and the result is clamped to the list. *)
Definition sliceIndex (len k : Z) : nat :=
  Z.to_nat (if k <? 0 then Z.max (len + k) 0 else Z.min k len).

(** [l.slice(start, stop)] *)
Definition slice {A : Type} (l : list A) (start stop : Z) : list A :=
  let len := Z.of_nat (length l) in
  let from := sliceIndex len start in
  let to := sliceIndex len stop in
  take (to - from) (drop from l).

Definition currentPageListings {A : Type} (filtered : list A) (page : Z)
  : list A :=
  let start := (page - 1) * ITEMS_PER_PAGE in
  slice filtered start (start + ITEMS_PER_PAGE).

(** The Next and Previous buttons. *)
Definition nextPage (total p : Z) : Z := Z.min total (p + 1).
Definition prevPage (p : Z) : Z := Z.max 1 (p - 1).

Definition THRESHOLD : Q := 50.

(** [onTouchEnd]: [startX] is the coordinate recorded by [onTouchStart],
    [endX] the one of the touch that ended; [None] is [null]. *)
Definition onTouchEnd (startX endX : option Q) (total page : Z) : Z :=
  match startX, endX with
  | Some s, Some e =>
      let delta := (e - s)%Q in
      if Qle_bool delta (- THRESHOLD) && (page <? total) then nextPage total page
      else if Qle_bool THRESHOLD delta && (1 <? page) then prevPage page
      else page
  | _, _ => page
  end.

Inductive PageEvent : Type :=
| Next
| Previous
| Swipe (startX endX : option Q).

Definition turn (total : Z) (page : Z) (e : PageEvent) : Z :=
  match e with
  | Next => nextPage total page
  | Previous => prevPage page
  | Swipe startX endX => onTouchEnd startX endX total page
  end.

End Paging.

Module Carousel.

(** A value of the [currentImageIndex] object: an integer, or NaN (the
    remainder of a division by zero). *)
Inductive Index : Type :=
| Idx (i : Z)
| IdxNaN.

(** [a % n] on integers: the remainder has the sign of [a]. *)
Definition remainder (a n : Z) : Index :=
  if n =? 0 then IdxNaN else Idx (Z.rem a n).

(** [prev[listingId] || 0], which is also the index the card displays. *)
Definition current (m : gmap string Index) (listingId : string) : Z :=
  match m !! listingId with
  | Some (Idx i) => i
  | Some IdxNaN | None => 0
  end.

Definition nextImage (listingId : string) (totalImages : Z)
    (prev : gmap string Index) : gmap string Index :=
  <[listingId := remainder (current prev listingId + 1) totalImages]> prev.

Definition prevImage (listingId : string) (totalImages : Z)
    (prev : gmap string Index) : gmap string Index :=
  <[listingId := remainder (current prev listingId - 1 + totalImages)
                   totalImages]> prev.

Definition setImageIndex (listingId : string) (index : Z)
    (prev : gmap string Index) : gmap string Index :=
  <[listingId := Idx index]> prev.

(** [images[currentIndex] || images[0]] for a non-empty list of URLs. *)
Definition currentImage (images : list string) (currentIndex : Z)
  : option string :=
  let pick :=
    if currentIndex <? 0 then None else images !! Z.to_nat currentIndex in
  match pick with
  | Some url => if Js.truthy url then Some url else images !! 0%nat
  | None => images !! 0%nat
  end.

End Carousel.

(** ** The listings page: the request that loads the properties *)

Module Search.

Import Js.

(** [mapRoomTypeToBackend]; [None] is [undefined]. *)
Definition mapRoomTypeToBackend (val : string) : option string :=
  let v := toLowerCase (orElse val "") in
  if String.eqb v "apartment" then Some "apartment"
  else if String.eqb v "house" then Some "house"
  else if String.eqb v "condo" then Some "condo"
  else None.

(** The query parameters of the search request; [None] (for [features],
    the empty list) is an absent key. *)
Record Params : Type := {
  min_price : option Z;
  max_price : option Z;
  city : option string;
  property_types : option string;
  features : list string
}.

(** The object literal [map] of [fetchProperties]: bucket label to price
    bounds. *)
Definition priceParams : list (string * (option Z * option Z)) :=
  [ ("Under ₹10,000", (None, Some 10000));
    ("₹10,000 - ₹20,000", (Some 10000, Some 20000));
    ("₹20,000 - ₹30,000", (Some 20000, Some 30000));
    ("₹30,000 - ₹50,000", (Some 30000, Some 50000));
    ("₹50,000 - ₹75,000", (Some 50000, Some 75000));
    ("Above ₹75,000", (Some 75000, None)) ].

Definition priceBounds (fs : Listings.Filters) : option Z * option Z :=
  if truthy (Listings.priceRange fs) then
    default (None, None)
      (Listings.lookupOwn priceParams (Listings.priceRange fs))
  else (None, None).

Definition buildParams (fs : Listings.Filters) : Params :=
  {| min_price := fst (priceBounds fs);
     max_price := snd (priceBounds fs);
     city :=
       if truthy (Listings.location fs) && truthy (trim (Listings.location fs))
       then Some (trim (Listings.location fs)) else None;
     property_types :=
       if truthy (Listings.roomType fs) && truthy (trim (Listings.roomType fs))
       then mapRoomTypeToBackend (trim (Listings.roomType fs)) else None;
     features :=
       if truthy (Listings.nearby fs)
       then ["Nearby: " +:+ Listings.nearby fs] else [] |}.

(** [Object.keys(params).length > 0] *)
Definition useSearch (p : Params) : bool :=
  bool_decide (is_Some (min_price p)) || bool_decide (is_Some (max_price p))
  || bool_decide (is_Some (city p)) || bool_decide (is_Some (property_types p))
  || bool_decide (features p <> []).

Inductive FetchRequest : Type :=
| SearchRequest (p : Params)
| AllRequest.

(** The requests of [fetchProperties] and the answer it passes on: the
    search request when there are parameters, the unfiltered request when
    there are none or when the search failed. *)
Definition fetchProperties (fs : Listings.Filters)
    (server : FetchRequest -> Listings.Response)
  : Listings.Response * list FetchRequest :=
  let params := buildParams fs in
  if useSearch params then
    match server (SearchRequest params) with
    | Listings.RespFailed =>
        (server AllRequest, [SearchRequest params; AllRequest])
    | r => (r, [SearchRequest params])
    end
  else (server AllRequest, [AllRequest]).

(** What the page shows once [fetchProperties] resolved: the client-side
    filter applied to the listings the answer set. *)
Definition shown (Number : string -> JsNumber) (fs : Listings.Filters)
    (server : FetchRequest -> Listings.Response) : list Listings.Property :=
  Listings.filteredListings Number fs
    (Listings.listings
       (Listings.step (Listings.ListingsLoaded (fst (fetchProperties fs server)))
          (Listings.applyFilters fs Listings.initialPage))).

(** A price is within the bounds of the search parameters. *)
Definition withinBounds (bounds : option Z * option Z) (p : JsNumber) : Prop :=
  exists q : Q,
    p = JsNum q
    /\ (forall lo, fst bounds = Some lo -> (inject_Z lo <= q)%Q)
    /\ (forall hi, snd bounds = Some hi -> (q <= inject_Z hi)%Q).

End Search.

(** ** Order of strings *)

(** [a] comes strictly before [b] in the order of code units, the order of
    [Array.prototype.sort()]. *)
Definition codeUnitsBelow (a b : string) : Prop := String.ltb a b = true.

(** ** Price buckets of a price *)

(** The labels of the price map whose predicate a price satisfies. *)
Definition bucketsOf (p : Js.JsNumber) : list string :=
  List.map fst (List.filter (fun entry => snd entry p) Listings.priceMap).

(** ** Staged images of the New Listing form over a session *)

Module NewListingImages.

Import Js Admin.

(** [removeImage]: the images kept, and the preview URLs it releases. *)
Definition removeImage (imageId : string) (prev : list StagedImage)
  : list StagedImage * list string :=
  (List.filter (fun img => negb (String.eqb (Admin.imageId img) imageId)) prev,
   List.map preview
     (List.filter
        (fun img => String.eqb (Admin.imageId img) imageId && truthy (preview img))
        prev)).

Inductive ImageEvent : Type :=
| Select (fresh : Fresh) (files : list File)
| Remove (imageId : string)
| Submit (token : option string) (srv : AdminNewListing.Server).

(** The form together with the preview URLs the browser handed out and
    the ones the component released. *)
Record Session : Type := {
  state : AdminNewListing.State;
  created : list string;
  released : list string
}.

Definition withImages (st : AdminNewListing.State)
    (imgs : AdminNewListing.ImageState) : AdminNewListing.State :=
  {| AdminNewListing.form := AdminNewListing.form st;
     AdminNewListing.loading := AdminNewListing.loading st;
     AdminNewListing.error := AdminNewListing.error st;
     AdminNewListing.success := AdminNewListing.success st;
     AdminNewListing.images := imgs;
     AdminNewListing.imageUploading := AdminNewListing.imageUploading st |}.

Definition staged (s : Session) : list StagedImage :=
  AdminNewListing.selectedImages (AdminNewListing.images (state s)).

Section Events.

Variable Number : string -> JsNumber.

(** One event of the session.  A file selection hands out one URL per
    image it appends; [removeImage] and a successful [submit] release
    URLs. *)
Definition onEvent (s : Session) (e : ImageEvent) : Session :=
  match e with
  | Select fresh files =>
      let imgs :=
        AdminNewListing.handleImageSelect fresh files
          (AdminNewListing.images (state s)) in
      {| state := withImages (state s) imgs;
         created :=
           created s
           ++ List.map preview
                (drop (length (staged s)) (AdminNewListing.selectedImages imgs));
         released := released s |}
  | Remove imageId =>
      let '(kept, urls) := removeImage imageId (staged s) in
      {| state :=
           withImages (state s)
             {| AdminNewListing.selectedImages := kept;
                AdminNewListing.imageError :=
                  AdminNewListing.imageError
                    (AdminNewListing.images (state s)) |};
         created := created s;
         released := released s ++ urls |}
  | Submit token srv =>
      let run := AdminNewListing.submit Number token srv (state s) in
      {| state := AdminNewListing.stateAfter run;
         created := created s;
         released := released s ++ AdminNewListing.revoked run |}
  end.

Definition session (events : list ImageEvent) (s : Session) : Session :=
  foldl onEvent s events.

End Events.


Definition emptySession (st : AdminNewListing.State) : Session :=
  {| state :=
       withImages st
         {| AdminNewListing.selectedImages := [];
            AdminNewListing.imageError := "" |};
     created := []; released := [] |}.

End NewListingImages.

(** ** Images of the edit form over a session *)

Module EditImages.

Import Js Admin.

Section Edit.

Variable Fields : Type.

Definition withImages (st : AdminListings.State Fields)
    (existing : option (list string)) (stagedImages : list StagedImage)
  : AdminListings.State Fields :=
  {| AdminListings.listings := AdminListings.listings Fields st;
     AdminListings.loading := AdminListings.loading Fields st;
     AdminListings.error := AdminListings.error Fields st;
     AdminListings.editingListing := AdminListings.editingListing Fields st;
     AdminListings.editForm :=
       {| AdminListings.fields :=
            AdminListings.fields Fields (AdminListings.editForm Fields st);
          AdminListings.images := existing |};
     AdminListings.updateLoading := AdminListings.updateLoading Fields st;
     AdminListings.selectedImages := stagedImages;
     AdminListings.imageError := AdminListings.imageError Fields st;
     AdminListings.imageUploading := AdminListings.imageUploading Fields st |}.

Definition existingImages (st : AdminListings.State Fields) : list string :=
  default [] (AdminListings.images Fields (AdminListings.editForm Fields st)).

(** [removeNewImage] *)
Definition removeNewImage (imageId : string) (st : AdminListings.State Fields)
  : AdminListings.State Fields :=
  withImages st
    (AdminListings.images Fields (AdminListings.editForm Fields st))
    (fst (NewListingImages.removeImage imageId
            (AdminListings.selectedImages Fields st))).

(** [removeExistingImage]: [(prev.images || []).filter(img => img !== imageUrl)] *)
Definition removeExistingImage (imageUrl : string)
    (st : AdminListings.State Fields) : AdminListings.State Fields :=
  withImages st
    (Some (List.filter (fun img => negb (String.eqb img imageUrl))
             (existingImages st)))
    (AdminListings.selectedImages Fields st).

Inductive EditEvent : Type :=
| Select (fresh : Fresh) (files : list File)
| RemoveNew (imageId : string)
| RemoveExisting (imageUrl : string).

Definition onEvent (st : AdminListings.State Fields) (e : EditEvent)
  : AdminListings.State Fields :=
  match e with
  | Select fresh files => AdminListings.handleImageSelect Fields fresh files st
  | RemoveNew imageId => removeNewImage imageId st
  | RemoveExisting imageUrl => removeExistingImage imageUrl st
  end.

(** The count the edit form displays: existing plus staged images. *)
Definition imageCount (st : AdminListings.State Fields) : nat :=
  length (existingImages st) + length (AdminListings.selectedImages Fields st).

End Edit.

End EditImages.

(** ** The features field of the edit form *)

Module FeatureText.

Import Js.

(** [l.join(sep)] *)
Fixpoint joinWith (sep : string) (l : list string) : string :=
  match l with
  | [] => ""
  | x :: l' =>
      match l' with
      | [] => x
      | _ => x +:+ sep +:+ joinWith sep l'
      end
  end.

(** [startEdit]: [listing.features ? listing.features.join(', ') : ''] *)
Definition editText (features : option (list string)) : string :=
  match features with
  | Some l => joinWith ", " l
  | None => ""
  end.

(** [updateListing]:
    [editForm.features ? editForm.features.split(',').map(s => s.trim()).filter(Boolean) : []] *)
Definition parseFeatures (text : string) : list string :=
  if truthy text
  then Listings.filterTruthy (List.map trim (AdminNewListing.splitComma text))
  else [].

(** A feature the text field carries unchanged: not empty, without a comma,
    without white space at either end. *)
Definition plain (f : string) : Prop :=
  f <> "" /\ includes f "," = false /\ trim f = f.

End FeatureText.

(** ** The admin listings page: search and delete *)

Module AdminSearch.

Import Js.

(** The fields of a listing the search reads; [None] is an absent field. *)
Record Row : Type := {
  listing : AdminListings.Listing;
  title : option string;
  property_type : option string;
  status : option string;
  price : option JsNumber;
  street : option string;
  city : option string
}.

(** [field?.toLowerCase().includes(searchLower)] *)
Definition fieldHas (field : option string) (searchLower : string) : bool :=
  match field with
  | Some text => includes (toLowerCase text) searchLower
  | None => false
  end.

Section Query.

(** [Number.prototype.toString] *)
Variable numberToString : JsNumber -> string.

(** The callback of the search effect. *)
Definition matches (searchQuery : string) (row : Row) : bool :=
  let correctId := AdminListings.getCorrectId (listing row) in
  let searchLower := toLowerCase searchQuery in
  includes (toLowerCase (AdminListings.id (listing row))) searchLower
  || includes (toLowerCase correctId) searchLower
  || fieldHas (title row) searchLower
  || fieldHas (property_type row) searchLower
  || fieldHas (status row) searchLower
  || match price row with
     | Some p => includes (numberToString p) searchQuery
     | None => false
     end
  || fieldHas (street row) searchLower
  || fieldHas (city row) searchLower.

(** The search effect: what [filteredListings] is set to. *)
Definition search (searchQuery : string) (listings : list Row) : list Row :=
  if negb (truthy (trim searchQuery)) then listings
  else List.filter (matches searchQuery) listings.

End Query.

End AdminSearch.

Module DeleteFlow.

Import Js Admin.

(** The part of the component state [deleteListing] touches. *)
Record State : Type := {
  listings : list AdminListings.Listing;
  loading : bool;
  error : string;
  confirmDeleteId : string
}.

Inductive Request : Type :=
| Delete (route : AdminListings.Route) (propertyId : string)
| GetProperties.

Record Server : Type := {
  onDelete : AdminListings.Route -> string -> ApiResult unit;
  onList : ApiResult (list AdminListings.Listing)
}.

Record Run : Type := {
  stateAfter : State;
  trace : list Request
}.

Definition deleteErrorMessage (e : ApiError) : string :=
  if truthy (detail e) then detail e
  else if statusIs e 404
  then "Listing not found. It may have already been deleted."
  else if statusIs e 401 || statusIs e 403
  then "Authentication required. Please log in as admin/agent."
  else if truthy (errMessage e) then errMessage e
  else "Failed to delete listing.".

(** The DELETE, with the fallback from the public route to the plain one
    when there is no token. *)
Definition sendDelete (srv : Server) (authorized : bool) (correctId : string)
  : ApiResult unit * list Request :=
  if authorized then
    (onDelete srv AdminListings.Authorized correctId,
     [Delete AdminListings.Authorized correctId])
  else
    match onDelete srv AdminListings.Public correctId with
    | Ok r => (Ok r, [Delete AdminListings.Public correctId])
    | Failed _ =>
        (onDelete srv AdminListings.Plain correctId,
         [Delete AdminListings.Public correctId;
          Delete AdminListings.Plain correctId])
    end.

(** [deleteListing] for a listing; on success [fetchListings] refreshes the
    list and the confirmation is closed. *)
Definition deleteListing (token : option string) (srv : Server)
    (listing : AdminListings.Listing) (st : State) : Run :=
  let correctId := AdminListings.getCorrectId listing in
  let '(answer, reqs) :=
    sendDelete srv (AdminNewListing.hasToken token) correctId in
  match answer with
  | Ok _ =>
      {| stateAfter :=
           {| listings :=
                match onList srv with
                | Ok data => data
                | Failed _ => []
                end;
              loading := false;
              error :=
                match onList srv with
                | Ok _ => ""
                | Failed e => AdminListings.listErrorMessage e
                end;
              confirmDeleteId := "" |};
         trace := reqs ++ [GetProperties] |}
  | Failed e =>
      {| stateAfter :=
           {| listings := listings st; loading := loading st;
              error := deleteErrorMessage e;
              confirmDeleteId := confirmDeleteId st |};
         trace := reqs |}
  end.

End DeleteFlow.

(** ** Sample data for the admin listings page *)

Module AdminExamples.

(** [Number.prototype.toString] on the whole numbers of the sample data. *)
Definition wholeNumberToString (n : Js.JsNumber) : string :=
  match n with
  | Js.JsNum q => Js.stringOfZ (Qfloor q)
  | Js.JsNaN => "NaN"
  end.

(** A row whose id is one of the mapped ObjectIds. *)
Definition mappedRow : AdminSearch.Row :=
  {| AdminSearch.listing := Examples.editedListing;
     AdminSearch.title := Some "Sunny 2 BHK near Metro";
     AdminSearch.property_type := Some "apartment";
     AdminSearch.status := Some "active";
     AdminSearch.price := Some (Js.ofZ 18000);
     AdminSearch.street := Some "MI Road";
     AdminSearch.city := Some "Jaipur" |}.

(** A row with few fields and an id outside the mapping. *)
Definition bareRow : AdminSearch.Row :=
  {| AdminSearch.listing :=
       {| AdminListings.id := "5f1c";
          AdminListings.listingImages := [] |};
     AdminSearch.title := None;
     AdminSearch.property_type := Some "house";
     AdminSearch.status := None;
     AdminSearch.price := None;
     AdminSearch.street := None;
     AdminSearch.city := Some "Delhi" |}.

Definition rows : list AdminSearch.Row := [mappedRow; bareRow].

End AdminExamples.


(** ** A session on the edit dialog of the admin listings page *)

Module EditSession.

Import Js Admin.

Section Session.

Variable Fields : Type.

(** The scalar fields [startEdit] computes from a listing. *)
Variable formOf : AdminListings.Listing -> Fields.

(** The state of a freshly mounted component. *)
Definition initial : AdminListings.State Fields :=
  {| AdminListings.listings := [];
     AdminListings.loading := false;
     AdminListings.error := "";
     AdminListings.editingListing := None;
     AdminListings.editForm := AdminListings.emptyForm Fields;
     AdminListings.updateLoading := false;
     AdminListings.selectedImages := [];
     AdminListings.imageError := "";
     AdminListings.imageUploading := false |}.

(** [startEdit]: the form is rebuilt from the listing, without an [images]
    key, and the staged images are dropped. *)
Definition startEdit (listing : AdminListings.Listing)
    (st : AdminListings.State Fields) : AdminListings.State Fields :=
  {| AdminListings.listings := AdminListings.listings Fields st;
     AdminListings.loading := AdminListings.loading Fields st;
     AdminListings.error := AdminListings.error Fields st;
     AdminListings.editingListing := Some listing;
     AdminListings.editForm :=
       {| AdminListings.fields := Some (formOf listing);
          AdminListings.images := None |};
     AdminListings.updateLoading := AdminListings.updateLoading Fields st;
     AdminListings.selectedImages := [];
     AdminListings.imageError := "";
     AdminListings.imageUploading := AdminListings.imageUploading Fields st |}.

(** An input of the dialog: [setEditForm(prev => ({ ...prev, key: value }))]. *)
Definition editField (change : option Fields -> option Fields)
    (st : AdminListings.State Fields) : AdminListings.State Fields :=
  {| AdminListings.listings := AdminListings.listings Fields st;
     AdminListings.loading := AdminListings.loading Fields st;
     AdminListings.error := AdminListings.error Fields st;
     AdminListings.editingListing := AdminListings.editingListing Fields st;
     AdminListings.editForm :=
       {| AdminListings.fields :=
            change (AdminListings.fields Fields (AdminListings.editForm Fields st));
          AdminListings.images :=
            AdminListings.images Fields (AdminListings.editForm Fields st) |};
     AdminListings.updateLoading := AdminListings.updateLoading Fields st;
     AdminListings.selectedImages := AdminListings.selectedImages Fields st;
     AdminListings.imageError := AdminListings.imageError Fields st;
     AdminListings.imageUploading := AdminListings.imageUploading Fields st |}.

(** The Cancel button and closing the dialog: [setEditingListing(null)]. *)
Definition cancel (st : AdminListings.State Fields)
  : AdminListings.State Fields :=
  {| AdminListings.listings := AdminListings.listings Fields st;
     AdminListings.loading := AdminListings.loading Fields st;
     AdminListings.error := AdminListings.error Fields st;
     AdminListings.editingListing := None;
     AdminListings.editForm := AdminListings.editForm Fields st;
     AdminListings.updateLoading := AdminListings.updateLoading Fields st;
     AdminListings.selectedImages := AdminListings.selectedImages Fields st;
     AdminListings.imageError := AdminListings.imageError Fields st;
     AdminListings.imageUploading := AdminListings.imageUploading Fields st |}.

Inductive Event : Type :=
| StartEdit (listing : AdminListings.Listing)
| EditField (change : option Fields -> option Fields)
| Image (e : EditImages.EditEvent)
| Cancel
| Save (token : option string) (srv : AdminListings.Server Fields).

(** The component state and the requests sent so far. *)
Definition step
    (acc : AdminListings.State Fields * list (AdminListings.Request Fields))
    (e : Event)
  : AdminListings.State Fields * list (AdminListings.Request Fields) :=
  let '(st, sent) := acc in
  match e with
  | StartEdit listing => (startEdit listing st, sent)
  | EditField change => (editField change st, sent)
  | Image e => (EditImages.onEvent Fields st e, sent)
  | Cancel => (cancel st, sent)
  | Save token srv =>
      let run := AdminListings.updateListing Fields token srv st in
      (AdminListings.stateAfter Fields run,
       sent ++ AdminListings.trace Fields run)
  end.

Definition session (events : list Event)
  : AdminListings.State Fields * list (AdminListings.Request Fields) :=
  foldl step (initial, []) events.

End Session.

End EditSession.


(** ** The matching rules of the listing filter, as the specification states them *)

Module FilterRules.

Import Js.

(** A price bucket: closed at both ends, except the open-ended lowest and
    highest ones. *)
Inductive Bucket : Type :=
| Under (bound : Z)
| Between (low high : Z)
| Above (bound : Z).

Definition buckets : list (string * Bucket) :=
  [ ("Under ₹10,000", Under 10000);
    ("₹10,000 - ₹20,000", Between 10000 20000);
    ("₹20,000 - ₹30,000", Between 20000 30000);
    ("₹30,000 - ₹50,000", Between 30000 50000);
    ("₹50,000 - ₹75,000", Between 50000 75000);
    ("Above ₹75,000", Above 75000) ].

Definition inBucket (b : Bucket) (p : Q) : bool :=
  match b with
  | Under bound => negb (Qle_bool (inject_Z bound) p)
  | Between low high => Qle_bool (inject_Z low) p && Qle_bool p (inject_Z high)
  | Above bound => negb (Qle_bool p (inject_Z bound))
  end.

(** The price of a Property of the data model, a number. *)
Definition priceOf (it : Listings.Property) : option Q :=
  match Listings.price it with
  | Listings.PriceNumber (JsNum q) => Some q
  | _ => None
  end.

(** The price lies in the bucket the label names. *)
Definition priceRule (value : string) (it : Listings.Property) : bool :=
  match Listings.lookupOwn buckets value, priceOf it with
  | Some b, Some p => inBucket b p
  | _, _ => false
  end.

(** The room type vocabulary and the backend type each word stands for. *)
Definition backendTypes : list (string * string) :=
  [ ("Apartment", "apartment"); ("House", "house"); ("Condo", "condo") ].

(** The property type is, ignoring case, the backend type of the word. *)
Definition roomTypeRule (value : string) (it : Listings.Property) : bool :=
  match Listings.lookupOwn backendTypes value, Listings.property_type it with
  | Some t, Some p => String.eqb (toLowerCase p) t
  | _, _ => false
  end.

(** The value is a substring of [address.city], ignoring case. *)
Definition locationRule (value : string) (it : Listings.Property) : bool :=
  match Listings.address it with
  | Some a =>
      match Listings.city a with
      | Some c => includes (toLowerCase c) (toLowerCase value)
      | None => false
      end
  | None => false
  end.

(** Some feature entry equals the value, ignoring case. *)
Definition restrictionsRule (value : string) (it : Listings.Property) : bool :=
  match Listings.features it with
  | Some fl => existsb (fun f => String.eqb (toLowerCase f) (toLowerCase value)) fl
  | None => false
  end.

(** The rule of each facet; the nearby rule is [Listings.nearbyMatches]: an
    entry with the prefix [Nearby:] whose remainder, trimmed, contains the
    value, ignoring case. *)
Definition rule (k : Listings.Facet) : string -> Listings.Property -> bool :=
  match k with
  | Listings.FPriceRange => priceRule
  | Listings.FRoomType => roomTypeRule
  | Listings.FLocation => locationRule
  | Listings.FRestrictions => restrictionsRule
  | Listings.FNearby => Listings.nearbyMatches
  end.

(** A property matches a filter set when it satisfies the rule of every
    facet that is not empty. *)
Definition matchesAll (fs : Listings.Filters) (it : Listings.Property) : bool :=
  forallb
    (fun k =>
       let value := Listings.facetValue k fs in
       negb (truthy value) || rule k value it)
    Listings.allFacets.

(** The result the contract asks for. *)
Definition expected (fs : Listings.Filters) (l : list Listings.Property)
  : list Listings.Property :=
  List.filter (matchesAll fs) l.

(** The filter sets the five dropdowns can produce: a price label and a
    room type out of the fixed lists, and values without surrounding white
    space for the other three. *)
Definition offered (fs : Listings.Filters) : Prop :=
  (Listings.priceRange fs = "" \/ In (Listings.priceRange fs) Listings.PRICE_RANGES)
  /\ (Listings.roomType fs = "" \/ In (Listings.roomType fs) Listings.UI_ROOM_TYPES)
  /\ trim (Listings.location fs) = Listings.location fs
  /\ trim (Listings.nearby fs) = Listings.nearby fs
  /\ trim (Listings.restrictions fs) = Listings.restrictions fs.

(** The price of the property arrived as a number, as in the data model. *)
Definition hasNumberPrice (it : Listings.Property) : bool :=
  match Listings.price it with
  | Listings.PriceNumber _ => true
  | _ => false
  end.

End FilterRules.

(** ** What the filter bar of the listings page renders *)

Module FilterBar.

(** The items of each of the five [Select]s of the filter bar. *)
Definition shownOptions (k : Listings.Facet) (st : Listings.PageState)
  : list string :=
  match k with
  | Listings.FLocation => Listings.locationOptions (Listings.catalogs st)
  | Listings.FNearby => Listings.nearbyOptions (Listings.catalogs st)
  | Listings.FPriceRange => Listings.PRICE_RANGES
  | Listings.FRoomType => Listings.UI_ROOM_TYPES
  | Listings.FRestrictions => Listings.UI_RESTRICTIONS
  end.

End FilterBar.

(** ** The inputs of the New Listing form that decide the bedrooms *)

Module NewListingInputs.

Import Js AdminNewListing.





End NewListingInputs.

(** ** Seven-bit strings *)

Module Charset.

(** Every code unit of the string is an ASCII character: on such strings
    the case mapping and the white space of the model are those of
    JavaScript. *)
Fixpoint isAscii (s : string) : bool :=
  match s with
  | EmptyString => true
  | String c s' => (Ascii.nat_of_ascii c <? 128)%nat && isAscii s'
  end.

Definition asciiField (field : option string) : bool :=
  match field with
  | Some text => isAscii text
  | None => true
  end.

(** The text fields of a row the admin search reads are ASCII. *)
Definition asciiRow (row : AdminSearch.Row) : bool :=
  isAscii (AdminListings.id (AdminSearch.listing row))
  && asciiField (AdminSearch.title row)
  && asciiField (AdminSearch.property_type row)
  && asciiField (AdminSearch.status row)
  && asciiField (AdminSearch.street row)
  && asciiField (AdminSearch.city row).

End Charset.

(** ** Further sample data *)

Module Scenarios.

(** The inquiry of the sample visitor, with the phone written with its
    country code. *)
Definition countryCodeInquiry : Listings.ContactState :=
  {| Listings.contactOpen := true;
     Listings.contactListing := Some Examples.metroFlat;
     Listings.contactForm :=
       {| Listings.name := "Asha"; Listings.email := "asha@example.com";
          Listings.phone := "+91-9876543210"; Listings.message := "";
          Listings.website := "" |};
     Listings.contactSubmitting := false;
     Listings.contactError := "";
     Listings.contactSuccess := "" |}.

(** A listing that already has ten images. *)
Definition fullListing : AdminListings.Listing :=
  {| AdminListings.id := "68ce7ad275b8647ccef110bb";
     AdminListings.listingImages :=
       List.map (fun n => "/uploads/room-" +:+ Js.stringOfZ n +:+ ".png")
         [1; 2; 3; 4; 5; 6; 7; 8; 9; 10] |}.

(** A property of a type the room type dropdown does not name. *)
Definition townhouse : Listings.Property :=
  {| Listings.id := "p5"; Listings.title := "Townhouse";
     Listings.price := Listings.PriceNumber (Js.ofZ 40000);
     Listings.property_type := Some "townhouse";
     Listings.address := Some {| Listings.city := Some "Udaipur" |};
     Listings.features := Some ["Pets allowed"] |}.

(** Every request succeeds; the upload answers with two URLs. *)
Definition allUp : AdminListings.Server unit :=
  {| AdminListings.onUpload :=
       fun _ _ => Admin.Ok ["/uploads/a.png"; "/uploads/b.png"];
     AdminListings.onPut := fun _ _ _ => Admin.Ok tt;
     AdminListings.onList := Admin.Ok [Examples.editedListing] |}.

(** The upload succeeds and the update is refused. *)
Definition putDown : AdminListings.Server unit :=
  {| AdminListings.onUpload := fun _ _ => Admin.Ok ["/uploads/a.png"];
     AdminListings.onPut := fun _ _ _ => Admin.Failed Examples.networkError;
     AdminListings.onList := Admin.Ok [Examples.editedListing] |}.

End Scenarios.


(** * Properties *)

(** ** Strings *)

Lemma orElse_empty (s : string) : Js.orElse s "" = s.
Proof. by destruct s. Qed.

Lemma length_stripNonDigits (s : string) :
  String.length (Js.stripNonDigits s) = Listings.countDigits s.
Proof.
  induction s as [|c s IH]; simpl; [done|].
  destruct (Js.isDigit c); simpl; by rewrite IH.
Qed.

(** ** Phone validation *)

(** The validator accepts a phone string exactly when it holds ten decimal
    digits, whatever other characters surround them; so the nine-digit
    [987654321] is rejected, the ten-digit [9876543210] is accepted, and
    [+91-9876543210], which keeps twelve digits once the other characters
    are stripped, is rejected. *)
Theorem isValidPhone_ten_digits :
  (forall val : string,
     Listings.isValidPhone val = true <-> Listings.countDigits val = 10%nat)
  /\ Listings.isValidPhone "987654321" = false
  /\ Listings.isValidPhone "9876543210" = true
  /\ Js.stripNonDigits "+91-9876543210" = "919876543210"
  /\ Listings.isValidPhone "+91-9876543210" = false.
Proof.
  split; [|by repeat split].
  intros val. unfold Listings.isValidPhone.
  rewrite orElse_empty, length_stripNonDigits.
  apply Nat.eqb_eq.
Qed.

(** ** Numbers *)

Lemma ltb_JsNum (a b : Q) : Js.ltb (Js.JsNum a) (Js.JsNum b) = true <-> (a < b)%Q.
Proof.
  simpl. rewrite negb_true_iff, <- not_true_iff_false, Qle_bool_iff.
  split; [apply Qnot_le_lt | apply Qlt_not_le].
Qed.

Lemma leb_JsNum (a b : Q) : Js.leb (Js.JsNum a) (Js.JsNum b) = true <-> (a <= b)%Q.
Proof. apply Qle_bool_iff. Qed.

Lemma below_iff (hi : Z) (p : Js.JsNumber) :
  Js.ltb p (Js.ofZ hi) = true
  <-> Listings.priceWithin (fun q => q < inject_Z hi)%Q p.
Proof.
  destruct p as [q|]; simpl.
  - rewrite (ltb_JsNum q (inject_Z hi)). split.
    + intros H. by exists q.
    + by intros (q' & [= <-] & H).
  - split; [done|]. by intros (q & H & _).
Qed.

Lemma above_iff (lo : Z) (p : Js.JsNumber) :
  Js.ltb (Js.ofZ lo) p = true
  <-> Listings.priceWithin (fun q => inject_Z lo < q)%Q p.
Proof.
  destruct p as [q|]; simpl.
  - rewrite (ltb_JsNum (inject_Z lo) q). split.
    + intros H. by exists q.
    + by intros (q' & [= <-] & H).
  - split; [done|]. by intros (q & H & _).
Qed.

Lemma between_iff (lo hi : Z) (p : Js.JsNumber) :
  Js.leb (Js.ofZ lo) p && Js.leb p (Js.ofZ hi) = true
  <-> Listings.priceWithin (fun q => inject_Z lo <= q /\ q <= inject_Z hi)%Q p.
Proof.
  destruct p as [q|]; simpl.
  - rewrite andb_true_iff, !Qle_bool_iff. split.
    + intros H. by exists q.
    + by intros (q' & [= <-] & H).
  - split; [done|]. by intros (q & H & _).
Qed.

(** ** The price buckets *)





(** ** The filter pipeline *)

Lemma filter_all {A : Type} (l : list A) : List.filter (fun _ => true) l = l.
Proof. induction l as [|x l IH]; simpl; congruence. Qed.

Lemma filter_twice {A : Type} (f g : A -> bool) (l : list A) :
  List.filter f (List.filter g l) = List.filter (fun x => g x && f x) l.
Proof.
  induction l as [|x l IH]; simpl; [done|].
  destruct (g x); simpl; [destruct (f x)|]; by rewrite IH.
Qed.

Lemma guarded_filter {A : Type} (guard : bool) (cb : A -> bool) (l : list A) :
  (if guard then List.filter cb l else l)
  = List.filter (fun x => if guard then cb x else true) l.
Proof. destruct guard; [done|]. by rewrite filter_all. Qed.

Section PipelineFacts.

Import Listings.

Variable Number : string -> Js.JsNumber.

Local Abbreviation holds := (facetHolds Number).

Lemma priceStage_filter fs l :
  priceStage Number fs l = List.filter (holds FPriceRange fs) l.
Proof.
  unfold priceStage, facetHolds.
  destruct (Js.truthy (priceRange fs)); [|by rewrite filter_all].
  destruct (lookupOwn priceMap (priceRange fs)); [done|by rewrite filter_all].
Qed.

Lemma roomTypeStage_filter fs l :
  roomTypeStage fs l = List.filter (holds FRoomType fs) l.
Proof. apply guarded_filter. Qed.

Lemma locationStage_filter fs l :
  locationStage fs l = List.filter (holds FLocation fs) l.
Proof. apply guarded_filter. Qed.

Lemma restrictionsStage_filter fs l :
  restrictionsStage fs l = List.filter (holds FRestrictions fs) l.
Proof. apply guarded_filter. Qed.

Lemma nearbyStage_filter fs l :
  nearbyStage fs l = List.filter (holds FNearby fs) l.
Proof. apply guarded_filter. Qed.

Lemma filteredListings_filter fs l :
  filteredListings Number fs l
  = List.filter (fun it => forallb (fun k => holds k fs it) allFacets) l.
Proof.
  unfold filteredListings.
  rewrite nearbyStage_filter, restrictionsStage_filter, locationStage_filter,
    roomTypeStage_filter, priceStage_filter, !filter_twice.
  apply filter_ext. intros it. simpl.
  by rewrite andb_true_r, !andb_assoc.
Qed.

Lemma allFacets_spec fs it :
  forallb (fun k => holds k fs it) allFacets = true
  <-> forall k, holds k fs it = true.
Proof.
  rewrite forallb_forall. split; intros H k; [|by intros _].
  apply H. destruct k; simpl; tauto.
Qed.

Lemma facetHolds_empty k fs it : facetValue k fs = "" -> holds k fs it = true.
Proof. destruct k; simpl; by intros ->. Qed.

Lemma facetHolds_onlyFacet k j fs it :
  holds j (onlyFacet k fs) it = if decide (j = k) then holds k fs it else true.
Proof. destruct k, j; by simpl. Qed.

Lemma facetHolds_setFacet_ne k j v fs it :
  j <> k -> holds j (setFacet k v fs) it = holds j fs it.
Proof. destruct k, j; by simpl. Qed.

Lemma filteredListings_onlyFacet k fs l :
  filteredListings Number (onlyFacet k fs) l = List.filter (holds k fs) l.
Proof.
  rewrite filteredListings_filter.
  apply filter_ext. intros it.
  cbn [forallb allFacets]. rewrite !facetHolds_onlyFacet.
  destruct k; simpl; by rewrite ?andb_true_r.
Qed.

End PipelineFacts.

(** A facet is set when its value is not blank (the stages trim it) and,
    for the price, when the label is one of the six of the price map: a
    value made of white space, or an unknown price label, constrains
    nothing. *)
Lemma unset_facet_no_constraint (Number : string -> Js.JsNumber)
    (k : Listings.Facet) (fs : Listings.Filters) (it : Listings.Property) :
  (k <> Listings.FPriceRange /\ Js.trim (Listings.facetValue k fs) = ""
   \/ k = Listings.FPriceRange
      /\ Listings.lookupOwn Listings.priceMap (Listings.priceRange fs) = None) ->
  Listings.facetHolds Number k fs it = true.
Proof.
  intros [[Hk Hblank] | [-> Hlabel]].
  - destruct k; simpl in *; try done; rewrite Hblank; simpl;
      by rewrite andb_false_r.
  - unfold Listings.facetHolds. rewrite Hlabel. by destruct (Js.truthy _).
Qed.

(** The fixed vocabularies of the dropdowns are neither blank nor changed
    by trimming. *)
Lemma ui_vocabulary_trimmed :
  Forall (fun v => Js.trim v = v /\ Js.truthy v = true)
    (Listings.UI_ROOM_TYPES ++ Listings.UI_RESTRICTIONS ++ Listings.PRICE_RANGES).
Proof. repeat constructor. Qed.

(** The pipeline composes its stages as a conjunction of the tests the
    stages apply: the result is the sub-list, in order, of the properties
    that pass the test of every stage; a property belongs to it exactly
    when it belongs to every single-facet result; a facet whose value is
    empty tests nothing; and setting one more facet never adds a
    property. *)
Theorem stages_compose (Number : string -> Js.JsNumber)
    (fs : Listings.Filters) (l : list Listings.Property) :
  Listings.filteredListings Number fs l
  = List.filter
      (fun it => forallb (fun k => Listings.facetHolds Number k fs it)
                   Listings.allFacets) l
  /\ (forall it,
        In it (Listings.filteredListings Number fs l)
        <-> In it l
            /\ forall k, Listings.facetValue k fs <> ""
                         -> Listings.facetHolds Number k fs it = true)
  /\ (forall k,
        Listings.filteredListings Number (Listings.onlyFacet k fs) l
        = List.filter (Listings.facetHolds Number k fs) l)
  /\ (forall it,
        In it (Listings.filteredListings Number fs l)
        <-> forall k,
              In it (Listings.filteredListings Number
                       (Listings.onlyFacet k fs) l))
  /\ (forall k,
        Listings.facetValue k fs = ""
        -> Listings.filteredListings Number (Listings.onlyFacet k fs) l = l)
  /\ (forall k v it,
        Listings.facetValue k fs = ""
        -> In it (Listings.filteredListings Number
                    (Listings.setFacet k v fs) l)
        -> In it (Listings.filteredListings Number fs l)).
Proof.
  assert (Hmem : forall fs' it,
            In it (Listings.filteredListings Number fs' l)
            <-> In it l /\ forall k, Listings.facetHolds Number k fs' it = true).
  { intros fs' it.
    by rewrite filteredListings_filter, filter_In, allFacets_spec. }
  refine (conj _ (conj _ (conj _ (conj _ (conj _ _))))).
  - apply filteredListings_filter.
  - intros it. rewrite Hmem. split; intros [Hin H]; (split; [done|]).
    + intros k _. apply H.
    + intros k.
      destruct (decide (Listings.facetValue k fs = "")) as [He|Hne];
        [by apply facetHolds_empty | by apply H].
  - intros k. apply filteredListings_onlyFacet.
  - intros it. rewrite Hmem. split.
    + intros [Hin H] k. rewrite filteredListings_onlyFacet, filter_In. auto.
    + intros H. split.
      * specialize (H Listings.FNearby).
        rewrite filteredListings_onlyFacet, filter_In in H. tauto.
      * intros k. specialize (H k).
        rewrite filteredListings_onlyFacet, filter_In in H. tauto.
  - intros k He. rewrite filteredListings_onlyFacet.
    rewrite <- (filter_all l) at 2. apply filter_ext.
    intros it. by apply facetHolds_empty.
  - intros k v it He. rewrite !Hmem. intros [Hin H]. split; [done|].
    intros j. destruct (decide (j = k)) as [->|Hne].
    + by apply facetHolds_empty.
    + rewrite <- (facetHolds_setFacet_ne Number k j v fs it Hne). apply H.
Qed.

(** The composition at work: with the city and the room type both set, the
    result is a strict part of the result for the city alone. *)
Lemma stages_compose_example :
  Listings.filteredListings Examples.decimalNumber
    (Listings.onlyFacet Listings.FNearby Examples.jaipurOnly)
    Examples.sampleListings
  = Examples.sampleListings
  /\ In Examples.metroFlat
       (Listings.filteredListings Examples.decimalNumber Examples.jaipurOnly
          Examples.sampleListings)
  /\ Listings.filteredListings Examples.decimalNumber Examples.jaipurApartments
       Examples.sampleListings
     = [Examples.metroFlat]
  /\ Listings.filteredListings Examples.decimalNumber Examples.jaipurOnly
       Examples.sampleListings
     = [Examples.metroFlat; Examples.airportHouse].
Proof.
  destruct (stages_compose Examples.decimalNumber
              Examples.jaipurOnly Examples.sampleListings)
    as (_ & _ & _ & _ & Hempty & Hmore).
  split; [exact (Hempty Listings.FNearby eq_refl)|].
  split; [|split; reflexivity].
  apply (Hmore Listings.FRoomType "Apartment" Examples.metroFlat eq_refl).
  left. reflexivity.
Defined.

(** ** The nearby facet *)

Lemma append_cons (x : ascii) (a b : string) :
  String x a +:+ b = String x (a +:+ b).
Proof. reflexivity. Qed.

Lemma append_nil (b : string) : "" +:+ b = b.
Proof. reflexivity. Qed.

Lemma append_assoc (a b c : string) : (a +:+ b) +:+ c = a +:+ b +:+ c.
Proof.
  induction a as [|x a IH]; [done|]. by rewrite !append_cons, IH.
Qed.

Lemma prefix_iff (t s : string) :
  String.prefix t s = true <-> exists b, s = t +:+ b.
Proof.
  revert s. induction t as [|x t IH]; intros s.
  - split; [by exists s|by destruct s].
  - destruct s as [|y s]; [split; [done|by intros [b Hb]]|].
    simpl. destruct (Ascii.ascii_dec x y) as [->|Hne].
    + rewrite IH. split; intros [b Hb]; exists b;
        rewrite append_cons in *; congruence.
    + split; [done|]. intros [b Hb]. rewrite append_cons in Hb. congruence.
Qed.

Lemma includes_nil (t : string) : Js.includes "" t = String.prefix t "".
Proof. apply orb_false_r. Qed.

Lemma includes_cons (x : ascii) (s t : string) :
  Js.includes (String x s) t = String.prefix t (String x s) || Js.includes s t.
Proof. reflexivity. Qed.

Lemma includes_iff (s t : string) :
  Js.includes s t = true <-> exists a b, s = a +:+ t +:+ b.
Proof.
  induction s as [|x s IH].
  - rewrite includes_nil, prefix_iff. split.
    + intros [b Hb]. by exists "", b.
    + intros (a & b & H). destruct a; [by exists b|done].
  - rewrite includes_cons, orb_true_iff, prefix_iff, IH. split.
    + intros [[b Hb] | (a & b & Hs)].
      * by exists "", b.
      * exists (String x a), b. rewrite append_cons. congruence.
    + intros (a & b & H). destruct a as [|y a].
      * left. by exists b.
      * right. exists a, b. rewrite append_cons in H. congruence.
Qed.

Lemma trimStart_split (s : string) : exists a, s = a +:+ Js.trimStart s.
Proof.
  induction s as [|x s [a IH]]; simpl; [by exists ""|].
  destruct (Js.isWhiteSpace x); [|by exists ""].
  exists (String x a). rewrite append_cons. congruence.
Qed.

Lemma trimEnd_split (s : string) : exists b, s = Js.trimEnd s +:+ b.
Proof.
  induction s as [|x s [b IH]]; simpl; [by exists ""|].
  destruct (Js.trimEnd s) as [|y t] eqn:Ht.
  - destruct (Js.isWhiteSpace x).
    + by exists (String x s).
    + exists b. rewrite append_cons. rewrite append_nil in *. congruence.
  - exists b. rewrite append_cons. congruence.
Qed.

Lemma trim_split (s : string) : exists a b, s = a +:+ Js.trim s +:+ b.
Proof.
  destruct (trimStart_split s) as [a Ha].
  destruct (trimEnd_split (Js.trimStart s)) as [b Hb].
  exists a, b. unfold Js.trim. congruence.
Qed.

Lemma toLowerCase_append (a b : string) :
  Js.toLowerCase (a +:+ b) = Js.toLowerCase a +:+ Js.toLowerCase b.
Proof.
  induction a as [|x a IH]; [done|].
  rewrite append_cons. simpl. by rewrite append_cons, IH.
Qed.

Lemma stripPrefixCI_lower (p f rest : string) :
  Listings.stripPrefixCI p f = Some rest ->
  Js.toLowerCase f = p +:+ Js.toLowerCase rest.
Proof.
  revert f. induction p as [|x p IH]; intros f; simpl.
  - by intros [= ->].
  - destruct f as [|y f]; [done|].
    destruct (Ascii.eqb_spec x (Js.toLowerChar y)) as [->|Hne]; [|done].
    intros H. simpl. by rewrite append_cons, (IH _ H).
Qed.

(** What the claim's predicate keeps, the code keeps: a value found in the
    text after the prefix is also found in the whole entry. *)
Lemma nearbyMatches_kept (value : string) (it : Listings.Property) :
  Listings.nearbyMatches value it = true ->
  Listings.nearbyCallback (Js.toLowerCase (Js.trim value)) it = true.
Proof.
  unfold Listings.nearbyMatches, Listings.nearbyCallback, Listings.someFeature.
  destruct (Listings.features it) as [fl|]; [|done].
  rewrite !existsb_exists. intros (f & Hin & Hf). exists f. split; [done|].
  destruct (Listings.stripPrefixCI "nearby:" f) as [rest|] eqn:Hrest; [|done].
  apply stripPrefixCI_lower in Hrest.
  apply andb_true_iff. split.
  - unfold Js.startsWith. apply prefix_iff. by eexists.
  - apply includes_iff in Hf as (a & b & Hf).
    destruct (trim_split rest) as (u & v & Hr).
    apply includes_iff. rewrite Hrest.
    exists ("nearby:" +:+ Js.toLowerCase u +:+ a), (b +:+ Js.toLowerCase v).
    rewrite Hr at 1. rewrite !toLowerCase_append, Hf.
    by rewrite !append_assoc.
Qed.

(** C9 fails on the code: the callback of the nearby stage looks for the
    filter value in the whole lower-cased entry, prefix included.  In a
    dataset where one property is tagged [Nearby: Metro Station] and
    another [Nearby: NE], the value [NE] is offered by the nearby catalog;
    choosing it keeps both properties, although the text after the prefix
    of the first one, [Metro Station], does not contain [NE]. *)
Theorem nearby_filter_matches_inside_prefix (Number : string -> Js.JsNumber) :
  let dataset := [Examples.metroFlat; Examples.cornerRoom] in
  In "NE" (Listings.nearbyOptions (Listings.buildCatalogs dataset))
  /\ Listings.filteredListings Number Examples.nearbyNE dataset = dataset
  /\ Listings.nearbyCallback (Js.toLowerCase (Js.trim "NE")) Examples.metroFlat
     = true
  /\ Listings.nearbyMatches "NE" Examples.metroFlat = false
  /\ Listings.nearbyMatches "NE" Examples.cornerRoom = true.
Proof.
  simpl. split; [|by repeat split].
  vm_compute. right. by left.
Qed.

(** ** The New Listing payload *)


(** The sizes the form offers, and the bedrooms each one yields. *)
Lemma ui_sizes_bedrooms :
  List.map (fun label => AdminNewListing.orNull (AdminNewListing.bedroomsFromSize label))
    AdminNewListing.UI_SIZES
  = List.map (fun n => Some (Js.ofZ n)) [1; 2; 3; 4; 5].
Proof. reflexivity. Qed.

(** The property types and statuses the form offers, mapped. *)
Lemma ui_enums_mapped :
  List.map AdminNewListing.mapPropertyTypeToBackend
    AdminNewListing.UI_PROPERTY_TYPES
  = ["apartment"; "apartment"; "condo"]
  /\ List.map AdminNewListing.mapStatusToBackend AdminNewListing.UI_STATUSES
     = ["available"; "off_market"; "off_market"].
Proof. split; reflexivity. Qed.



(** ** Image staging *)

Lemma firstViolation_none (files : list Admin.File) :
  Forall (fun g => Admin.acceptable g = true) files ->
  Admin.firstViolation files = None.
Proof.
  induction 1 as [|f files Hf _ IH]; simpl; [done|].
  unfold Admin.acceptable in Hf. apply andb_true_iff in Hf as [Hi Hs].
  apply negb_true_iff in Hs. by rewrite Hi, Hs.
Qed.

Lemma firstViolation_prefix (ok rest : list Admin.File) :
  Forall (fun g => Admin.acceptable g = true) ok ->
  Admin.firstViolation (ok ++ rest) = Admin.firstViolation rest.
Proof.
  induction 1 as [|f ok Hf _ IH]; simpl; [done|].
  unfold Admin.acceptable in Hf. apply andb_true_iff in Hf as [Hi Hs].
  apply negb_true_iff in Hs. by rewrite Hi, Hs.
Qed.

Lemma map_file_stage (fresh : Admin.Fresh) (files : list Admin.File) :
  List.map Admin.file (Admin.stage fresh files) = files.
Proof.
  unfold Admin.stage. generalize (Admin.createObjectURL fresh).
  generalize (Admin.randomId fresh).
  induction files as [|f files IH]; intros rid url; simpl; [done|].
  f_equal. apply (IH (rid ∘ S) (url ∘ S)).
Qed.

Lemma map_preview_stage (fresh : Admin.Fresh) (files : list Admin.File) :
  List.map Admin.preview (Admin.stage fresh files)
  = imap (Admin.createObjectURL fresh) files.
Proof.
  unfold Admin.stage. generalize (Admin.createObjectURL fresh).
  generalize (Admin.randomId fresh).
  induction files as [|f files IH]; intros rid url; simpl; [done|].
  f_equal. apply (IH (rid ∘ S) (url ∘ S)).
Qed.

(** The shape both handlers share. *)
Lemma staging_outcome (over : bool) (total : nat) (fresh : Admin.Fresh)
    (files : list Admin.File) (before : list Admin.StagedImage) :
  over = (Admin.MAX_IMAGES <? total)%nat ->
  let after :=
    if over then before
    else match Admin.firstViolation files with
         | Some _ => before
         | None => before ++ Admin.stage fresh files
         end in
  let err :=
    if over then Admin.countMessage
    else match Admin.firstViolation files with
         | Some msg => msg
         | None => ""
         end in
  Admin.StagingOutcome total fresh files before after err.
Proof.
  intros -> after err. subst after err. unfold Admin.StagingOutcome.
  destruct (Nat.ltb_spec Admin.MAX_IMAGES total) as [Hover|Hfits].
  - repeat split; intros; lia.
  - split; [intros; lia|]. split.
    + intros _ ok f rest -> Hok. rewrite (firstViolation_prefix _ _ Hok). simpl.
      split.
      * by intros ->.
      * by intros -> ->.
    + intros _ Hall. rewrite (firstViolation_none _ Hall).
      rewrite List.map_app, map_file_stage, map_preview_stage. done.
Qed.

(** What a file-select event does in both admin components, in terms of
    the total its count check computes (on the edit form: the files
    selected, the list [editForm.images] and the staged images): a batch
    that brings this total above 10 is rejected with the count message;
    otherwise the files are examined in selection order and the first one
    that is not an image or exceeds 10 MB rejects the whole batch, with the
    type message when its MIME type does not start with [image/] and with
    the size message otherwise; a rejected batch leaves the staged set
    unchanged; otherwise every selected file is appended to the staged set
    with its preview reference.  The three messages differ. *)
Theorem staging_handlers_outcome (fresh : Admin.Fresh) (files : list Admin.File) :
  (forall st : AdminNewListing.ImageState,
     let st' := AdminNewListing.handleImageSelect fresh files st in
     Admin.StagingOutcome
       (length files + length (AdminNewListing.selectedImages st))
       fresh files
       (AdminNewListing.selectedImages st)
       (AdminNewListing.selectedImages st')
       (AdminNewListing.imageError st'))
  /\ (forall (Fields : Type) (st : AdminListings.State Fields),
        let st' := AdminListings.handleImageSelect Fields fresh files st in
        Admin.StagingOutcome
          (length files
           + length (default [] (AdminListings.images Fields
                                   (AdminListings.editForm Fields st)))
           + length (AdminListings.selectedImages Fields st))
          fresh files
          (AdminListings.selectedImages Fields st)
          (AdminListings.selectedImages Fields st')
          (AdminListings.imageError Fields st'))
  /\ Admin.countMessage <> Admin.typeMessage
  /\ Admin.countMessage <> Admin.sizeMessage
  /\ Admin.typeMessage <> Admin.sizeMessage
  /\ Admin.MAX_BYTES = 10485760.
Proof.
  split; [|split; [|by repeat split]].
  - intros st st'. subst st'. unfold AdminNewListing.handleImageSelect.
    pose proof (staging_outcome _
                  (length files + length (AdminNewListing.selectedImages st))
                  fresh files (AdminNewListing.selectedImages st) eq_refl) as H.
    cbv zeta in H.
    destruct (Admin.MAX_IMAGES <? _)%nat; [exact H|].
    destruct (Admin.firstViolation files); exact H.
  - intros Fields st st'. subst st'. unfold AdminListings.handleImageSelect.
    pose proof (staging_outcome _
                  (length files
                   + length (default [] (AdminListings.images Fields
                                           (AdminListings.editForm Fields st)))
                   + length (AdminListings.selectedImages Fields st))
                  fresh files (AdminListings.selectedImages Fields st)
                  eq_refl) as H.
    cbv zeta in H |- *.
    destruct (Admin.MAX_IMAGES <? _)%nat; [exact H|].
    destruct (Admin.firstViolation files); exact H.
Qed.

(** On the New Listing form a photo followed by a PDF is rejected with the
    type message and nothing is staged. *)
Lemma photo_then_pdf_rejected :
  let st' :=
    AdminNewListing.handleImageSelect Examples.blobs
      [Examples.photo; Examples.lease] Examples.nothingStaged in
  AdminNewListing.selectedImages st' = []
  /\ AdminNewListing.imageError st' = Admin.typeMessage.
Proof.
  destruct (staging_handlers_outcome Examples.blobs
              [Examples.photo; Examples.lease]) as (Hnew & _).
  destruct (Hnew Examples.nothingStaged) as (_ & Hfirst & _).
  destruct (Hfirst ltac:(vm_compute; lia) [Examples.photo] Examples.lease []
              eq_refl) as [Htype _].
  - constructor; [reflexivity | constructor].
  - apply Htype. reflexivity.
Defined.

(** The first violation decides the message: a selection that holds a file
    that is not an image is rejected with the size message when an
    oversized image comes first. *)
Lemma oversized_image_before_pdf :
  let files := [Examples.hugePhoto; Examples.lease] in
  let st' :=
    AdminNewListing.handleImageSelect Examples.blobs files
      Examples.nothingStaged in
  (exists f, In f files /\ Js.startsWith (Admin.type f) "image/" = false)
  /\ (length files + length (AdminNewListing.selectedImages Examples.nothingStaged)
      <= 10)%nat
  /\ AdminNewListing.imageError st' = Admin.sizeMessage
  /\ AdminNewListing.imageError st' <> Admin.typeMessage.
Proof.
  simpl. split; [|split; [lia|split; [reflexivity|discriminate]]].
  exists Examples.lease. split; [right; left; reflexivity | reflexivity].
Qed.

(** ** Saving a record and uploading its images *)

(** Create path: once the record is created, a failed image step (upload or
    the PUT that attaches the URLs) leaves the partial-success message next
    to the success message, and [submit] issues no DELETE. *)
Lemma submit_partial_success (Number : string -> Js.JsNumber)
    (token : option string) (srv : AdminNewListing.Server)
    (st : AdminNewListing.State) (createdId : string) :
  AdminNewListing.onCreate srv
    (AdminNewListing.buildPayload Number (AdminNewListing.form st))
  = Admin.Ok createdId ->
  let run := AdminNewListing.submit Number token srv st in
  let files :=
    List.map Admin.file
      (AdminNewListing.selectedImages (AdminNewListing.images st)) in
  existsb AdminNewListing.isDelete (AdminNewListing.trace run) = false
  /\ Js.truthy (AdminNewListing.success (AdminNewListing.stateAfter run)) = true
  /\ (files <> [] ->
      (forall e, AdminNewListing.onUpload srv createdId files = Admin.Failed e ->
         AdminNewListing.error (AdminNewListing.stateAfter run)
         = AdminNewListing.partialCreateMessage)
      /\ (forall urls e,
            AdminNewListing.onUpload srv createdId files = Admin.Ok urls ->
            AdminNewListing.onPutImages srv createdId urls = Admin.Failed e ->
            AdminNewListing.error (AdminNewListing.stateAfter run)
            = AdminNewListing.partialCreateMessage)).
Proof.
  intros Hcreate run files. subst run files.
  unfold AdminNewListing.submit. rewrite Hcreate.
  unfold AdminNewListing.attachImages, AdminNewListing.uploadImages.
  destruct (AdminNewListing.selectedImages (AdminNewListing.images st))
    as [|img staged] eqn:Hst.
  { simpl. repeat split; done. }
  cbn [List.map].
  destruct (AdminNewListing.onUpload srv createdId _) as [urls|e] eqn:Hup.
  - destruct (AdminNewListing.onPutImages srv createdId urls) as [[]|e'] eqn:Hput;
      simpl; (split; [done|]); (split; [done|]); intros _; split;
      try congruence; by intros.
  - simpl. split; [done|]. split; [done|]. intros _. split; congruence.
Qed.

(** Update path: whatever the image upload did, after a successful PUT the
    error shown is the one left by the list refresh. *)
Lemma updateListing_error_after_put (Fields : Type) (token : option string)
    (srv : AdminListings.Server Fields) (st : AdminListings.State Fields)
    (listing : AdminListings.Listing) :
  AdminListings.editingListing Fields st = Some listing ->
  let run := AdminListings.updateListing Fields token srv st in
  existsb (AdminListings.isDelete Fields) (AdminListings.trace Fields run) = false
  /\ (In (AdminListings.GetProperties Fields) (AdminListings.trace Fields run) ->
      AdminListings.error Fields (AdminListings.stateAfter Fields run)
      = match AdminListings.onList Fields srv with
        | Admin.Ok _ => ""
        | Admin.Failed e => AdminListings.listErrorMessage e
        end).
Proof.
  intros Hedit run. subst run. unfold AdminListings.updateListing.
  rewrite Hedit.
  destruct (AdminListings.uploadStaged Fields srv _ _) as [[uploaded err] reqs1]
    eqn:Hup.
  destruct (AdminListings.putUpdate Fields srv _ _ _) as [answer reqs2] eqn:Hput.
  assert (H1 : existsb (AdminListings.isDelete Fields) reqs1 = false
               /\ ~ In (AdminListings.GetProperties Fields) reqs1).
  { unfold AdminListings.uploadStaged, AdminListings.uploadImages in Hup.
    destruct (AdminListings.selectedImages Fields st);
      [|destruct (AdminListings.onUpload Fields srv _ _)];
      injection Hup as <- <- <-; simpl; intuition discriminate. }
  assert (H2 : existsb (AdminListings.isDelete Fields) reqs2 = false
               /\ ~ In (AdminListings.GetProperties Fields) reqs2).
  { unfold AdminListings.putUpdate in Hput.
    destruct (AdminNewListing.hasToken token);
      [|destruct (AdminListings.onPut Fields srv AdminListings.Public _ _)];
      injection Hput as <- <-; simpl; intuition discriminate. }
  destruct H1 as [D1 G1], H2 as [D2 G2].
  destruct answer as [[]|e]; simpl.
  - rewrite !existsb_app, D1, D2. simpl. split; [done|]. by intros _.
  - rewrite existsb_app, D1, D2. split; [done|].
    rewrite in_app_iff. tauto.
Qed.

(** C6 fails on the update path.  An edit with one staged photo is saved
    while the image upload is refused and the PUT succeeds: the
    partial-success message is set, and then cleared by the list refresh
    that follows the PUT, so that no error is left to report the failed
    upload.  No DELETE is issued. *)
Theorem update_partial_message_cleared :
  let run :=
    AdminListings.updateListing unit None Examples.uploadDown Examples.editing in
  AdminListings.errorLog unit run
  = [""; AdminListings.partialUpdateMessage; ""]
  /\ AdminListings.error unit (AdminListings.stateAfter unit run) = ""
  /\ existsb (AdminListings.isDelete unit) (AdminListings.trace unit run) = false
  /\ List.map
       (fun r => match r with
                 | AdminListings.UploadImages _ _ _ => "upload"
                 | AdminListings.PutProperty _ _ _ _ => "put"
                 | AdminListings.DeleteProperty _ _ _ => "delete"
                 | AdminListings.GetProperties _ => "list"
                 end)
       (AdminListings.trace unit run)
     = ["upload"; "put"; "list"]
  /\ (let created :=
        AdminNewListing.submit Examples.decimalNumber None Examples.createOnly
          Examples.creating in
      AdminNewListing.error (AdminNewListing.stateAfter created)
      = AdminNewListing.partialCreateMessage).
Proof. repeat split. Qed.

(** ** The contact modal: rate limit *)

Lemma ceiling_whole_seconds (r : Q) :
  (0 < r)%Q ->
  let secs := Qceiling (r / 1000) in
  1 <= secs
  /\ (inject_Z (1000 * (secs - 1)) < r)%Q
  /\ (r <= inject_Z (1000 * secs))%Q.
Proof.
  intros Hr secs.
  pose proof (Qle_ceiling (r / 1000)) as Hle.
  pose proof (Qceiling_lt (r / 1000)) as Hlt.
  fold secs in Hle, Hlt.
  rewrite !inject_Z_mult. unfold Z.sub in *.
  rewrite inject_Z_plus in *. change (inject_Z (-1)) with (-1)%Q in *.
  change (inject_Z 1000) with 1000%Q.
  assert (Hs : (r / 1000 <= inject_Z secs)%Q /\ (inject_Z secs + -1 < r / 1000)%Q)
    by done.
  clear Hle Hlt. destruct Hs as [Hle Hlt].
  assert (Hx : (r == r / 1000 * 1000)%Q) by (field; discriminate).
  clearbody secs.
  revert Hle Hlt Hx. generalize (r / 1000)%Q. intros x Hle Hlt Hx.
  change (inject_Z (- (1))) with (-1)%Q.
  assert (Hpos : (0 < inject_Z secs)%Q) by lra.
  split; [|split].
  - change 0%Q with (inject_Z 0) in Hpos.
    rewrite <- Zlt_Qlt in Hpos. lia.
  - lra.
  - lra.
Qed.

Lemma rateLimited_spec (Number : string -> Js.JsNumber) (now : Z) (last : Q) :
  let elapsed := (inject_Z now - last)%Q in
  ((elapsed < 60000)%Q ->
   Listings.rateLimited now (Js.JsNum last)
   = Some (Qceiling ((60000 - elapsed) / 1000)))
  /\ ((60000 <= elapsed)%Q -> Listings.rateLimited now (Js.JsNum last) = None).
Proof.
  intros elapsed. unfold Listings.rateLimited. fold elapsed.
  change (inject_Z Listings.RATE_LIMIT_MS) with 60000%Q.
  destruct (Qle_bool 60000 elapsed) eqn:Hb; simpl.
  - apply Qle_bool_iff in Hb. split; [|done].
    intros Hlt. exfalso. by apply (Qlt_not_le _ _ Hlt).
  - split; [done|]. intros Hle. apply Qle_bool_iff in Hle. congruence.
Qed.

(** C7: a submission from the per-listing modal attempted less than 60
    seconds after the stored timestamp is blocked before any request is
    sent, and the error shown reports the remaining time in whole seconds,
    rounded up; once 60 seconds or more have elapsed the rate limiter does
    not block, and a complete form is sent. *)
Theorem rate_limit_sixty_seconds (Number : string -> Js.JsNumber)
    (env : Listings.SubmitEnv) (st : Listings.ContactState)
    (storage : gmap string string) (listing : Listings.Property) (last : Q) :
  Listings.contactListing st = Some listing ->
  Listings.lastSubmit Number storage = Js.JsNum last ->
  let elapsed := (inject_Z (Listings.now env) - last)%Q in
  let run := Listings.submitContact Number env st storage in
  let secs := Qceiling ((60000 - elapsed) / 1000) in
  Listings.RATE_LIMIT_MS = 60000
  /\ ((elapsed < 60000)%Q ->
      Listings.sent run = []
      /\ Listings.contactError (Listings.stateAfter run)
         = "Please wait " +:+ Js.stringOfZ secs +:+ "s before submitting again."
      /\ 1 <= secs
      /\ (inject_Z (1000 * (secs - 1)) < 60000 - elapsed)%Q
      /\ (60000 - elapsed <= inject_Z (1000 * secs))%Q)
  /\ ((60000 <= elapsed)%Q ->
      Listings.rateLimited (Listings.now env)
        (Listings.lastSubmit Number storage) = None
      /\ (Listings.formComplete (Listings.contactForm st) = true ->
          exists payload, Listings.sent run = [payload])).
Proof.
  intros Hlisting Hlast elapsed run secs. subst run.
  unfold Listings.submitContact. rewrite Hlisting, Hlast.
  destruct (rateLimited_spec Number (Listings.now env) last) as [Hin Hout].
  fold elapsed in Hin, Hout.
  split; [reflexivity|]. split.
  - intros Hlt. rewrite (Hin Hlt). fold secs. simpl.
    split; [done|]. split; [done|].
    apply ceiling_whole_seconds. lra.
  - intros Hge. rewrite (Hout Hge). split; [done|].
    unfold Listings.formComplete. rewrite !andb_true_iff.
    intros [[[[Hn He] Hp] Hv] Hw].
    rewrite Hn, He, Hp, Hv. apply negb_true_iff in Hw. rewrite Hw. simpl.
    destruct (Listings.post env _); by eexists.
Qed.

(** C7 at work: thirty seconds after a submission the next one is blocked
    with [Please wait 30s before submitting again.]; a full minute after it,
    the inquiry is sent. *)
Lemma rate_limit_sixty_seconds_witness :
  let early :=
    Listings.submitContact Examples.decimalNumber (Examples.serverUp 1030000)
      Examples.inquiry (Examples.submittedAt 1000000) in
  let late :=
    Listings.submitContact Examples.decimalNumber (Examples.serverUp 1060000)
      Examples.inquiry (Examples.submittedAt 1000000) in
  (Listings.sent early = []
   /\ Listings.contactError (Listings.stateAfter early)
      = "Please wait 30s before submitting again.")
  /\ exists payload, Listings.sent late = [payload].
Proof.
  split.
  - destruct (rate_limit_sixty_seconds Examples.decimalNumber
                (Examples.serverUp 1030000) Examples.inquiry
                (Examples.submittedAt 1000000) Examples.metroFlat
                (inject_Z 1000000) eq_refl eq_refl)
      as (_ & Hblocked & _).
    destruct (Hblocked eq_refl) as (Hsent & Hmsg & _).
    split; [exact Hsent | exact Hmsg].
  - destruct (rate_limit_sixty_seconds Examples.decimalNumber
                (Examples.serverUp 1060000) Examples.inquiry
                (Examples.submittedAt 1000000) Examples.metroFlat
                (inject_Z 1000000) eq_refl eq_refl)
      as (_ & _ & Hfree).
    destruct (Hfree ltac:(discriminate)) as [_ Hsend].
    exact (Hsend eq_refl).
Defined.

(** ** The contact modal: the stored timestamp *)

Lemma submitContact_cases (Number : string -> Js.JsNumber)
    (env : Listings.SubmitEnv) (st : Listings.ContactState)
    (storage : gmap string string) :
  let run := Listings.submitContact Number env st storage in
  (Listings.sent run = [] /\ Listings.storageAfter run = storage)
  \/ (exists payload,
        Listings.sent run = [payload]
        /\ Listings.contactListing st <> None
        /\ Listings.rateLimited (Listings.now env)
             (Listings.lastSubmit Number storage) = None
        /\ Listings.formComplete (Listings.contactForm st) = true
        /\ ((exists msg, Listings.post env payload = Listings.PostFailed msg)
            /\ Listings.storageAfter run = storage
            \/ Listings.post env payload = Listings.PostOk
               /\ Listings.storageAfter run
                  = if Listings.setItemThrows env then storage
                    else <[Listings.RATE_KEY :=
                             Js.stringOfZ (Listings.nowAfter env)]> storage)).
Proof.
  intros run. subst run. unfold Listings.submitContact, Listings.formComplete.
  destruct (Listings.contactListing st) as [listing|]; [|by left].
  destruct (Listings.rateLimited _ _) as [secs|]; [by left|].
  destruct (Js.truthy (Js.trim (Listings.name _))); [|by left].
  destruct (Js.truthy (Js.trim (Listings.email _))); [|by left].
  destruct (Js.truthy (Js.trim (Listings.phone _))); [|by left].
  destruct (Listings.isValidPhone _); [|by left].
  destruct (Js.truthy (Js.trim (Listings.website _))); [by left|].
  simpl. right.
  destruct (Listings.post env _) as [|msg] eqn:Hpost.
  - eexists. repeat split; [done|]. right. by rewrite Hpost.
  - eexists. repeat split; [done|]. left. rewrite Hpost. split; [by eexists|done].
Qed.

Lemma truthy_empty (s : string) : Js.truthy s = false <-> s = "".
Proof. by destruct s. Qed.

(** C10: [contact_last_submit] is written only after the POST succeeded.
    Every early exit of [submitContact] (no listing, rate-limit block, a
    missing name, email or phone, an invalid phone, a filled honeypot field)
    sends nothing and leaves the storage as it was; so does a request that
    fails; and if the storage changed, a request was sent and succeeded. *)
Theorem timestamp_written_only_after_success (Number : string -> Js.JsNumber)
    (env : Listings.SubmitEnv) (st : Listings.ContactState)
    (storage : gmap string string) :
  let run := Listings.submitContact Number env st storage in
  let untouched := Listings.sent run = [] /\ Listings.storageAfter run = storage in
  let form := Listings.contactForm st in
  (Listings.contactListing st = None -> untouched)
  /\ (Listings.rateLimited (Listings.now env)
        (Listings.lastSubmit Number storage) <> None -> untouched)
  /\ (Js.trim (Listings.name form) = "" \/ Js.trim (Listings.email form) = ""
      \/ Js.trim (Listings.phone form) = "" -> untouched)
  /\ (Listings.isValidPhone (Js.trim (Listings.phone form)) = false -> untouched)
  /\ (Js.trim (Listings.website form) <> "" -> untouched)
  /\ (forall payload msg,
        Listings.sent run = [payload] ->
        Listings.post env payload = Listings.PostFailed msg ->
        Listings.storageAfter run = storage)
  /\ (Listings.storageAfter run <> storage ->
      exists payload,
        Listings.sent run = [payload]
        /\ Listings.post env payload = Listings.PostOk
        /\ Listings.storageAfter run
           = <[Listings.RATE_KEY := Js.stringOfZ (Listings.nowAfter env)]> storage).
Proof.
  intros run untouched form. subst untouched form.
  pose proof (submitContact_cases Number env st storage) as H.
  fold run in H.
  destruct H as [Hstop | (payload & Hs & Hl & Hr & Hf & Hpost)].
  { (* nothing was sent *)
    refine (conj _ (conj _ (conj _ (conj _ (conj _ (conj _ _)))))); tauto. }
  (* a request was sent: no early exit applies *)
  unfold Listings.formComplete in Hf. rewrite !andb_true_iff in Hf.
  destruct Hf as [[[[Hn He] Hph] Hv] Hw]. apply negb_true_iff in Hw.
  apply truthy_empty in Hw.
  refine (conj _ (conj _ (conj _ (conj _ (conj _ (conj _ _)))))).
  - intros H. by rewrite H in Hl.
  - intros H. by rewrite Hr in H.
  - intros [H | [H | H]]; rewrite H in *; discriminate.
  - intros H. congruence.
  - intros H. by rewrite Hw in H.
  - intros payload' msg Hs'. rewrite Hs in Hs'. injection Hs' as <-.
    destruct Hpost as [[_ Hst] | [Hok _]]; [done|congruence].
  - intros Hne. exists payload.
    destruct Hpost as [[_ Hst] | [Hok Hst]]; [done|].
    repeat split; [done..|].
    rewrite Hst in *. by destruct (Listings.setItemThrows env).
Qed.

(** C10 at work: an inquiry that the server refuses leaves the timestamp of
    the previous submission in place. *)
Lemma timestamp_written_only_after_success_witness :
  Listings.storageAfter
    (Listings.submitContact Examples.decimalNumber (Examples.serverDown 2000000)
       Examples.inquiry (Examples.submittedAt 1000000))
  = Examples.submittedAt 1000000.
Proof.
  destruct (timestamp_written_only_after_success Examples.decimalNumber
              (Examples.serverDown 2000000) Examples.inquiry
              (Examples.submittedAt 1000000))
    as (_ & _ & _ & _ & _ & Hfailed & _).
  eapply Hfailed; reflexivity.
Defined.

(** ** Two submissions in a row *)

Lemma stringOfZ_truthy (z : Z) : Js.truthy (Js.stringOfZ z) = true.
Proof.
  unfold Js.stringOfZ. destruct (Z.to_int z) as [d|d]; simpl; [|done].
  by destruct d.
Qed.

(** After a submission that wrote the timestamp, the next attempt made less
    than 60 seconds later sends nothing, provided [Number] reads the stored
    numeral back. *)
Lemma second_submission_blocked (Number : string -> Js.JsNumber)
    (first second : Listings.SubmitEnv) (st : Listings.ContactState)
    (storage : gmap string string) :
  let run := Listings.submitContact Number first st storage in
  Listings.storageAfter run <> storage ->
  Number (Js.stringOfZ (Listings.nowAfter first))
  = Js.ofZ (Listings.nowAfter first) ->
  Listings.now second - Listings.nowAfter first < 60000 ->
  Listings.sent
    (Listings.submitContact Number second (Listings.stateAfter run)
       (Listings.storageAfter run))
  = [].
Proof.
  intros run Hwritten Hread Hsoon.
  pose proof (submitContact_cases Number first st storage) as Hcases.
  cbv zeta in Hcases. fold run in Hcases.
  destruct Hcases
    as [[_ Hsame] | (payload & _ & _ & _ & _ & [[_ Hsame] | [_ Hst]])];
    try done.
  destruct (Listings.setItemThrows first); [done|].
  unfold Listings.submitContact at 1.
  destruct (Listings.contactListing (Listings.stateAfter run)); [|done].
  assert (Hlast : Listings.lastSubmit Number (Listings.storageAfter run)
                  = Js.ofZ (Listings.nowAfter first)).
  { unfold Listings.lastSubmit. rewrite Hst, lookup_insert_eq.
    by rewrite stringOfZ_truthy. }
  rewrite Hlast.
  destruct (rateLimited_spec Number (Listings.now second)
              (inject_Z (Listings.nowAfter first))) as [Hin _].
  unfold Js.ofZ. rewrite Hin; [done|].
  unfold Qminus. rewrite <- inject_Z_opp, <- inject_Z_plus.
  change 60000%Q with (inject_Z 60000). rewrite <- Zlt_Qlt. lia.
Qed.

(** ** The filter-option catalogs *)

Lemma In_insertSorted (x y : string) (l : list string) :
  In x (Listings.insertSorted y l) <-> x = y \/ In x l.
Proof.
  induction l as [|z l IH]; simpl; [intuition|].
  destruct (String.leb y z); simpl; [intuition|].
  rewrite IH. intuition.
Qed.

Lemma In_sortStrings (x : string) (l : list string) :
  In x (Listings.sortStrings l) <-> In x l.
Proof.
  unfold Listings.sortStrings.
  induction l as [|y l IH]; simpl; [done|].
  rewrite In_insertSorted, IH. intuition.
Qed.

Lemma In_dedupe (x : string) (l : list string) :
  In x (Listings.dedupe l) <-> In x l.
Proof.
  induction l as [|y l IH]; simpl; [done|].
  rewrite filter_In, IH, negb_true_iff. split.
  - intuition.
  - intros [->|Hin]; [by left|].
    destruct (String.eqb_spec y x) as [->|Hne]; [by left|by right].
Qed.

Lemma In_filterTruthy (x : string) (l : list string) :
  In x (Listings.filterTruthy l) <-> In x l /\ x <> "".
Proof.
  unfold Listings.filterTruthy. rewrite filter_In.
  by destruct x; intuition.
Qed.

Lemma In_options (x : string) (l : list string) :
  In x (Listings.sortStrings (Listings.dedupe (Listings.filterTruthy l)))
  <-> In x l /\ x <> "".
Proof. by rewrite In_sortStrings, In_dedupe, In_filterTruthy. Qed.

Lemma In_featuresRaw (f : string) (arr : list Listings.Property) :
  In f (Listings.featuresRaw arr)
  <-> exists it fl, In it arr /\ Listings.features it = Some fl /\ In f fl.
Proof.
  unfold Listings.featuresRaw. rewrite in_flat_map. split.
  - intros (it & Hin & Hf).
    destruct (Listings.features it) as [fl|] eqn:Hfl; [|done].
    by exists it, fl.
  - intros (it & fl & Hin & Hfl & Hf). exists it. by rewrite Hfl.
Qed.

Lemma catalogs_step (e : Listings.Event) (st : Listings.PageState) :
  Listings.afterCatalogs e = true ->
  Listings.catalogs (Listings.step e st) = Listings.catalogs st.
Proof.
  destruct e as [|r|k v| |r|p]; simpl; try done; intros _.
  - unfold Listings.applyFilters. by destruct (Listings.filtersEqb _ _).
  - unfold Listings.applyFilters. by destruct (Listings.filtersEqb _ _).
  - by destruct r.
Qed.

Lemma catalogs_run (es : list Listings.Event) (st : Listings.PageState) :
  forallb Listings.afterCatalogs es = true ->
  Listings.catalogs (Listings.run es st) = Listings.catalogs st.
Proof.
  unfold Listings.run. revert st.
  induction es as [|e es IH]; intros st; simpl; [done|].
  rewrite andb_true_iff. intros [He Hes].
  by rewrite (IH _ Hes), catalogs_step.
Qed.

(** The four catalogs of the component state are computed by the mount
    effect from the answer to the unfiltered request, whatever the filters
    are; every later event (any change of a filter, clearing the filters, a
    listings answer, a page change) leaves them as they are and starts no
    catalog request; and they hold, respectively, the non-empty cities, the
    trimmed values of the nearby tags, the non-empty property types and the
    trimmed non-reserved feature tags of the whole dataset. *)
Theorem catalogs_state_from_dataset (st : Listings.PageState) :
  (forall r, r <> Listings.RespFailed ->
     Listings.catalogs (Listings.step (Listings.CatalogsLoaded r) st)
     = Listings.buildCatalogs (Listings.arrayOf r))
  /\ (forall es, forallb Listings.afterCatalogs es = true ->
        Listings.catalogs (Listings.run es st) = Listings.catalogs st)
  /\ (forall r es,
        r <> Listings.RespFailed ->
        forallb Listings.afterCatalogs es = true ->
        Listings.catalogs
          (Listings.run (Listings.Mounted :: Listings.CatalogsLoaded r :: es) st)
        = Listings.buildCatalogs (Listings.arrayOf r))
  /\ (forall e, Listings.isFilterEvent e = true ->
        Listings.afterCatalogs e = true
        /\ ~ In Listings.GetAllForCatalogs (Listings.requests e st))
  /\ Listings.requests Listings.Mounted st
     = [Listings.GetAllForCatalogs; Listings.GetListings (Listings.filters st)]
  /\ (forall arr x,
        (In x (Listings.locationOptions (Listings.buildCatalogs arr))
         <-> x <> "" /\ exists it, In it arr /\ Listings.cityOf it = x)
        /\ (In x (Listings.typeOptions (Listings.buildCatalogs arr))
            <-> x <> ""
                /\ exists it, In it arr /\ Listings.property_type it = Some x)
        /\ (In x (Listings.nearbyOptions (Listings.buildCatalogs arr))
            <-> x <> ""
                /\ exists it fl f,
                     In it arr /\ Listings.features it = Some fl /\ In f fl
                     /\ Listings.isNearbyTag f = true
                     /\ x = Js.trim (Listings.afterFirstColon f))
        /\ (In x (Listings.featureOptions (Listings.buildCatalogs arr))
            <-> x <> ""
                /\ exists it fl f,
                     In it arr /\ Listings.features it = Some fl /\ In f fl
                     /\ Listings.isReservedTag f = false
                     /\ x = Js.trim f)).
Proof.
  refine (conj _ (conj _ (conj _ (conj _ (conj _ _))))).
  - intros r Hr. by destruct r.
  - intros es Hes. by apply catalogs_run.
  - intros r es Hr Hes.
    change (Listings.run (Listings.Mounted :: Listings.CatalogsLoaded r :: es) st)
      with (Listings.run es
              (Listings.step (Listings.CatalogsLoaded r)
                 (Listings.step Listings.Mounted st))).
    rewrite (catalogs_run _ _ Hes). by destruct r.
  - intros e He. destruct e as [|r|k v| |r|p]; try done; simpl.
    + split; [done|]. unfold Listings.refetch.
      destruct (Listings.filtersEqb _ _); simpl; intuition discriminate.
    + split; [done|]. unfold Listings.refetch.
      destruct (Listings.filtersEqb _ _); simpl; intuition discriminate.
  - reflexivity.
  - intros arr x. simpl.
    unfold Listings.buildLocations, Listings.buildTypes, Listings.buildNearby,
      Listings.buildRestrictionOptions.
    rewrite !In_options, !in_map_iff.
    refine (conj _ (conj _ (conj _ _))).
    + split.
      * intros [(it & <- & Hin) Hne]. split; [done|]. by exists it.
      * intros [Hne (it & Hin & <-)]. split; [|done]. by exists it.
    + split.
      * intros [(it & Hx & Hin) Hne]. split; [done|]. exists it. split; [done|].
        destruct (Listings.property_type it); simpl in Hx; congruence.
      * intros [Hne (it & Hin & Hx)]. split; [|done]. exists it.
        by rewrite Hx.
    + split.
      * intros [(f & <- & Hf) Hne]. split; [done|].
        apply filter_In in Hf as [Hf Htag].
        apply In_featuresRaw in Hf as (it & fl & Hin & Hfl & Hf).
        by exists it, fl, f.
      * intros [Hne (it & fl & f & Hin & Hfl & Hf & Htag & ->)].
        split; [|done]. exists f. split; [done|].
        apply filter_In. split; [|done]. apply In_featuresRaw. by exists it, fl.
    + split.
      * intros [(f & <- & Hf) Hne]. split; [done|].
        apply filter_In in Hf as [Hf Htag]. apply negb_true_iff in Htag.
        apply In_featuresRaw in Hf as (it & fl & Hin & Hfl & Hf).
        by exists it, fl, f.
      * intros [Hne (it & fl & f & Hin & Hfl & Hf & Htag & ->)].
        split; [|done]. exists f. split; [done|].
        apply filter_In. split; [|by rewrite Htag].
        apply In_featuresRaw. by exists it, fl.
Qed.

(** The catalogs loaded from the three sample properties are the same after
    the visitor chose a city, received the filtered listings and chose a
    room type. *)
Lemma catalogs_unchanged_example :
  let browsing :=
    [ Listings.FilterChanged Listings.FLocation "Jaipur";
      Listings.ListingsLoaded
        (Listings.RespArray [Examples.metroFlat; Examples.airportHouse]);
      Listings.FilterChanged Listings.FRoomType "Apartment" ] in
  let st :=
    Listings.run
      (Listings.Mounted
         :: Listings.CatalogsLoaded (Listings.RespArray Examples.sampleListings)
         :: browsing)
      Listings.initialPage in
  Listings.catalogs st = Listings.buildCatalogs Examples.sampleListings
  /\ Listings.buildCatalogs Examples.sampleListings
     = {| Listings.locationOptions := ["Jaipur"; "Jodhpur"];
          Listings.nearbyOptions := ["Airport"; "Metro Station"];
          Listings.typeOptions := ["Condo"; "apartment"; "house"];
          Listings.featureOptions := ["Family"; "Only Boys"; "Students"] |}.
Proof.
  destruct (catalogs_state_from_dataset Listings.initialPage)
    as (_ & _ & Hrun & _).
  split; [|reflexivity].
  apply (Hrun (Listings.RespArray Examples.sampleListings)).
  - discriminate.
  - reflexivity.
Defined.

(** * Further properties of the components *)

(** ** Pages *)

Lemma totalPages_div (n : nat) :
  Paging.totalPages n = Z.max 1 ((Z.of_nat n + 5) / 6).
Proof.
  unfold Paging.totalPages. f_equal.
  change (Qceiling (inject_Z (Z.of_nat n) / inject_Z Paging.ITEMS_PER_PAGE))
    with (- (- (Z.of_nat n * 1) / 6)).
  Z.to_euclidean_division_equations. lia.
Qed.

Lemma page_take_drop {A : Type} (l : list A) (i : nat) :
  Paging.currentPageListings l (Z.of_nat (S i)) = take 6 (drop (6 * i) l).
Proof.
  unfold Paging.currentPageListings, Paging.slice, Paging.sliceIndex,
    Paging.ITEMS_PER_PAGE.
  set (len := length l).
  replace ((Z.of_nat (S i) - 1) * 6) with (Z.of_nat (6 * i)) by lia.
  rewrite (proj2 (Z.ltb_ge (Z.of_nat (6 * i)) 0)) by lia.
  rewrite (proj2 (Z.ltb_ge (Z.of_nat (6 * i) + 6) 0)) by lia.
  destruct (decide (6 * i <= len)%nat) as [Hin|Hout].
  - replace (Z.to_nat (Z.of_nat (6 * i) `min` Z.of_nat len)) with (6 * i)%nat
      by lia.
    destruct (decide (6 * i + 6 <= len)%nat) as [Hfull|Hlast].
    + f_equal. lia.
    + replace (Z.to_nat ((Z.of_nat (6 * i) + 6) `min` Z.of_nat len) - 6 * i)%nat
        with (len - 6 * i)%nat by lia.
      rewrite !take_ge; [done|rewrite length_drop; lia..].
  - replace (Z.to_nat (Z.of_nat (6 * i) `min` Z.of_nat len)) with len by lia.
    replace (Z.to_nat ((Z.of_nat (6 * i) + 6) `min` Z.of_nat len) - len)%nat
      with 0%nat by lia.
    rewrite (drop_ge l (6 * i)) by lia. by rewrite take_nil.
Qed.

Lemma pages_concat {A : Type} (l : list A) (k : nat) :
  concat (List.map (fun i => Paging.currentPageListings l (Z.of_nat (S i)))
            (seq 0 k))
  = take (6 * k) l.
Proof.
  induction k as [|k IH]; [by rewrite Nat.mul_0_r, take_0|].
  rewrite seq_S, List.map_app, concat_app, IH. simpl.
  rewrite app_nil_r, page_take_drop, take_take_drop. f_equal. lia.
Qed.

(** The pages of the public listings page partition the filtered list:
    the pages 1 to [totalPages], put one after the other, are the filtered
    list; no page holds more than six listings; every page from 1 to
    [totalPages] of a non-empty list shows something, and every later page
    is empty. *)
Theorem pages_partition {A : Type} (filtered : list A) :
  let total := Paging.totalPages (length filtered) in
  1 <= total
  /\ concat (List.map (fun i => Paging.currentPageListings filtered
                                  (Z.of_nat (S i)))
               (seq 0 (Z.to_nat total)))
     = filtered
  /\ (forall page,
        (length (Paging.currentPageListings filtered page) <= 6)%nat)
  /\ (forall page,
        1 <= page <= total -> filtered <> [] ->
        Paging.currentPageListings filtered page <> [])
  /\ (forall page,
        total < page -> Paging.currentPageListings filtered page = []).
Proof.
  intros total. subst total. rewrite totalPages_div.
  set (len := length filtered).
  assert (Hlen : length filtered = len) by done.
  assert (Hq : 6 * ((Z.of_nat len + 5) / 6) <= Z.of_nat len + 5
               < 6 * ((Z.of_nat len + 5) / 6) + 6)
    by (Z.to_euclidean_division_equations; lia).
  revert Hq. generalize ((Z.of_nat len + 5) / 6). intros q Hq.
  clearbody len.
  refine (conj _ (conj _ (conj _ (conj _ _)))).
  - lia.
  - rewrite pages_concat. apply take_ge. lia.
  - intros page. unfold Paging.currentPageListings, Paging.slice.
    rewrite length_take, length_drop. unfold Paging.sliceIndex,
      Paging.ITEMS_PER_PAGE. rewrite Hlen.
    destruct (Z.ltb_spec ((page - 1) * 6) 0);
      destruct (Z.ltb_spec ((page - 1) * 6 + 6) 0); lia.
  - intros page Hpage Hne.
    replace page with (Z.of_nat (S (Z.to_nat (page - 1)))) by lia.
    rewrite page_take_drop. intros Hnil.
    apply (f_equal length) in Hnil.
    rewrite length_take, length_drop, Hlen in Hnil.
    change (length (@nil A)) with 0%nat in Hnil.
    assert (len <> 0)%nat by (subst len; by destruct filtered).
    lia.
  - intros page Hpage.
    replace page with (Z.of_nat (S (Z.to_nat (page - 1)))) by lia.
    rewrite page_take_drop, drop_ge; [done|]. lia.
Qed.

(** The pages at work on eight listings: two pages, the second one with
    the last two listings, nothing on a third one. *)
Lemma pages_partition_witness :
  let filtered := [1; 2; 3; 4; 5; 6; 7; 8]%nat in
  Paging.totalPages (length filtered) = 2
  /\ Paging.currentPageListings filtered 2 <> []
  /\ Paging.currentPageListings filtered 3 = [].
Proof.
  destruct (pages_partition [1; 2; 3; 4; 5; 6; 7; 8]%nat)
    as (_ & _ & _ & Hshown & Hafter).
  split; [reflexivity|]. split.
  - apply Hshown; [split; [lia|reflexivity] | discriminate].
  - apply Hafter. reflexivity.
Defined.

Lemma turn_in_range (total page : Z) (e : Paging.PageEvent) :
  1 <= page <= total ->
  1 <= Paging.turn total page e <= total
  /\ page - 1 <= Paging.turn total page e <= page + 1.
Proof.
  intros Hpage. destruct e as [| |[s|] [e|]]; simpl;
    unfold Paging.nextPage, Paging.prevPage; try lia.
  destruct (Qle_bool _ _ && _); [lia|].
  destruct (Qle_bool _ _ && _); lia.
Qed.

(** Turning pages never leaves the range: starting from a page between 1
    and [totalPages], any sequence of Next, Previous and swipes ends on such
    a page, each event moving by one page at most; a swipe shorter than 50
    pixels, or one whose start or end was not recorded, does not move. *)
Theorem page_stays_in_range (total page : Z) (events : list Paging.PageEvent) :
  1 <= page <= total ->
  1 <= foldl (Paging.turn total) page events <= total
  /\ (forall e, page - 1 <= Paging.turn total page e <= page + 1)
  /\ (forall s e : Q,
        (- 50 < e - s)%Q -> (e - s < 50)%Q ->
        Paging.onTouchEnd (Some s) (Some e) total page = page)
  /\ (forall x, Paging.onTouchEnd None x total page = page
                /\ Paging.onTouchEnd x None total page = page).
Proof.
  intros Hpage. refine (conj _ (conj _ (conj _ _))).
  - revert page Hpage. induction events as [|e events IH]; intros page Hpage;
      simpl; [done|].
    apply IH. by apply turn_in_range.
  - intros e. by apply turn_in_range.
  - intros s e Hlo Hhi. unfold Paging.onTouchEnd.
    assert (H1 : Qle_bool (e - s) (- Paging.THRESHOLD) = false).
    { apply not_true_iff_false. rewrite Qle_bool_iff.
      unfold Paging.THRESHOLD. lra. }
    assert (H2 : Qle_bool Paging.THRESHOLD (e - s) = false).
    { apply not_true_iff_false. rewrite Qle_bool_iff.
      unfold Paging.THRESHOLD. lra. }
    by rewrite H1, H2.
  - intros x. split; [done|]. by destruct x.
Qed.

(** Page turns at work: from page 2 of 3, a long swipe to the left, Next
    and Next again stop on page 3. *)
Lemma page_stays_in_range_witness :
  foldl (Paging.turn 3) 2
    [Paging.Swipe (Some 300%Q) (Some 120%Q); Paging.Next; Paging.Next] = 3
  /\ 1 <= foldl (Paging.turn 3) 2
            [Paging.Swipe (Some 300%Q) (Some 120%Q); Paging.Next; Paging.Next]
       <= 3.
Proof.
  split; [reflexivity|].
  apply (page_stays_in_range 3 2
           [Paging.Swipe (Some 300%Q) (Some 120%Q); Paging.Next; Paging.Next]).
  lia.
Defined.

(** ** The image carousel *)

Lemma current_insert (m : gmap string Carousel.Index) (listingId : string)
    (i : Z) :
  Carousel.current (<[listingId := Carousel.Idx i]> m) listingId = i.
Proof. unfold Carousel.current. by rewrite lookup_insert_eq. Qed.

Lemma current_nextImage (m : gmap string Carousel.Index) (listingId : string)
    (total : Z) :
  0 < total -> 0 <= Carousel.current m listingId ->
  Carousel.current (Carousel.nextImage listingId total m) listingId
  = (Carousel.current m listingId + 1) mod total.
Proof.
  intros Ht Hc. unfold Carousel.nextImage, Carousel.remainder.
  rewrite (proj2 (Z.eqb_neq total 0)) by lia.
  rewrite current_insert. apply Z.rem_mod_nonneg; lia.
Qed.

Lemma current_prevImage (m : gmap string Carousel.Index) (listingId : string)
    (total : Z) :
  0 < total -> 0 <= Carousel.current m listingId ->
  Carousel.current (Carousel.prevImage listingId total m) listingId
  = (Carousel.current m listingId - 1) mod total.
Proof.
  intros Ht Hc. unfold Carousel.prevImage, Carousel.remainder.
  rewrite (proj2 (Z.eqb_neq total 0)) by lia.
  rewrite current_insert, Z.rem_mod_nonneg by lia.
  rewrite <- (Z.mod_add (Carousel.current m listingId - 1) 1 total) by lia.
  f_equal. lia.
Qed.

Lemma current_iter_next (m : gmap string Carousel.Index) (listingId : string)
    (total : Z) (k : nat) :
  0 < total -> 0 <= Carousel.current m listingId ->
  Carousel.current (Nat.iter k (Carousel.nextImage listingId total) m) listingId
  = if decide (k = 0%nat) then Carousel.current m listingId
    else (Carousel.current m listingId + Z.of_nat k) mod total.
Proof.
  intros Ht Hc. induction k as [|k IH]; [done|].
  rewrite Nat.iter_succ, current_nextImage; [|done|].
  - rewrite IH. destruct (decide (k = 0%nat)) as [->|Hk]; simpl.
    + f_equal.
    + rewrite Z.add_mod_idemp_l by lia. f_equal. lia.
  - rewrite IH. destruct (decide (k = 0%nat)); [done|].
    apply Z.mod_pos_bound. lia.
Qed.

(** The carousel of a card with [total] images, showing an index between 0
    and [total - 1]: Next and Previous keep the index in that range and
    undo each other, pressing Next [total] times comes back to the image
    shown, and the indices of the other cards are not touched. *)
Theorem carousel_cycles (m : gmap string Carousel.Index) (listingId : string)
    (total : Z) :
  0 < total ->
  0 <= Carousel.current m listingId < total ->
  let next := Carousel.nextImage listingId total in
  let prev := Carousel.prevImage listingId total in
  0 <= Carousel.current (next m) listingId < total
  /\ 0 <= Carousel.current (prev m) listingId < total
  /\ Carousel.current (prev (next m)) listingId = Carousel.current m listingId
  /\ Carousel.current (next (prev m)) listingId = Carousel.current m listingId
  /\ Carousel.current (Nat.iter (Z.to_nat total) next m) listingId
     = Carousel.current m listingId
  /\ (forall other, other <> listingId ->
        Carousel.current (next m) other = Carousel.current m other
        /\ Carousel.current (prev m) other = Carousel.current m other).
Proof.
  intros Ht Hc next prev. subst next prev.
  assert (Hn := current_nextImage m listingId total Ht (proj1 Hc)).
  assert (Hp := current_prevImage m listingId total Ht (proj1 Hc)).
  assert (Hnr : 0 <= Carousel.current (Carousel.nextImage listingId total m)
                       listingId < total)
    by (rewrite Hn; apply Z.mod_pos_bound; lia).
  assert (Hpr : 0 <= Carousel.current (Carousel.prevImage listingId total m)
                       listingId < total)
    by (rewrite Hp; apply Z.mod_pos_bound; lia).
  refine (conj Hnr (conj Hpr (conj _ (conj _ (conj _ _))))).
  - rewrite current_prevImage, Hn by lia.
    rewrite Zminus_mod_idemp_l.
    replace (Carousel.current m listingId + 1 - 1)
      with (Carousel.current m listingId) by lia.
    apply Z.mod_small. lia.
  - rewrite current_nextImage, Hp by lia.
    rewrite Zplus_mod_idemp_l.
    replace (Carousel.current m listingId - 1 + 1)
      with (Carousel.current m listingId) by lia.
    apply Z.mod_small. lia.
  - rewrite current_iter_next by lia.
    destruct (decide (Z.to_nat total = 0%nat)); [lia|].
    rewrite Z2Nat.id by lia.
    rewrite <- (Z.mul_1_l total) at 1. rewrite Z.mod_add by lia.
    apply Z.mod_small. lia.
  - intros other Hne. unfold Carousel.current, Carousel.nextImage,
      Carousel.prevImage. by rewrite !lookup_insert_ne.
Qed.

(** The carousel at work on a card with three images showing the last one:
    Next wraps around to the first. *)
Lemma carousel_cycles_witness :
  let m : gmap string Carousel.Index := {[ "p1" := Carousel.Idx 2 ]} in
  Carousel.current (Carousel.nextImage "p1" 3 m) "p1" = 0
  /\ Carousel.current
       (Carousel.prevImage "p1" 3 (Carousel.nextImage "p1" 3 m)) "p1" = 2.
Proof.
  destruct (carousel_cycles {[ "p1" := Carousel.Idx 2 ]} "p1" 3)
    as (_ & _ & Hback & _).
  - lia.
  - split; [discriminate|reflexivity].
  - split; [reflexivity|exact Hback].
Defined.

(** ** Order of the catalogs *)

Lemma leb_false_le (x y : string) : String.leb x y = false -> String.le y x.
Proof.
  intros H. destruct (String.leb_total x y) as [Hxy|Hyx]; [congruence|].
  unfold String.le. by rewrite Hyx.
Qed.

Lemma insertSorted_sorted (x : string) (l : list string) :
  StronglySorted String.le l ->
  StronglySorted String.le (Listings.insertSorted x l).
Proof.
  induction 1 as [|y l Hl IH Hy]; simpl; [by repeat constructor|].
  destruct (String.leb x y) eqn:Hxy.
  - constructor; [by constructor|].
    assert (Hle : String.le x y) by (unfold String.le; by rewrite Hxy).
    constructor; [done|].
    eapply Forall_impl; [exact Hy|]. intros z Hz. by etrans.
  - constructor; [done|].
    apply Forall_forall. intros z Hz. apply list_elem_of_In in Hz.
    apply In_insertSorted in Hz as [->|Hz]; [by apply leb_false_le|].
    rewrite Forall_forall in Hy. apply Hy. by apply list_elem_of_In.
Qed.

Lemma sortStrings_sorted (l : list string) :
  StronglySorted String.le (Listings.sortStrings l).
Proof.
  unfold Listings.sortStrings.
  induction l as [|x l IH]; simpl; [constructor|by apply insertSorted_sorted].
Qed.

Lemma insertSorted_NoDup (x : string) (l : list string) :
  ~ In x l -> List.NoDup l -> List.NoDup (Listings.insertSorted x l).
Proof.
  induction l as [|y l IH]; simpl; intros Hx Hl.
  - constructor; [done|constructor].
  - destruct (String.leb x y).
    + constructor; [simpl; tauto|done].
    + apply List.NoDup_cons_iff in Hl as [Hy Hl].
      constructor; [|apply IH; tauto].
      rewrite In_insertSorted. intros [->|Hin]; tauto.
Qed.

Lemma sortStrings_NoDup (l : list string) :
  List.NoDup l -> List.NoDup (Listings.sortStrings l).
Proof.
  unfold Listings.sortStrings.
  induction 1 as [|x l Hx Hl IH]; simpl; [constructor|].
  apply insertSorted_NoDup; [|done].
  by rewrite (In_sortStrings x l).
Qed.

Lemma dedupe_NoDup (l : list string) : List.NoDup (Listings.dedupe l).
Proof.
  induction l as [|x l IH]; simpl; [constructor|].
  constructor.
  - rewrite filter_In, negb_true_iff. intros [_ H].
    by rewrite String.eqb_refl in H.
  - by apply List.NoDup_filter.
Qed.

Lemma sorted_distinct_increasing (l : list string) :
  StronglySorted String.le l -> List.NoDup l -> StronglySorted codeUnitsBelow l.
Proof.
  induction 1 as [|x l Hl IH Hx]; intros Hnd; [constructor|].
  apply List.NoDup_cons_iff in Hnd as [Hnot Hnd].
  constructor; [by apply IH|].
  rewrite Forall_forall in Hx |- *. intros y Hy.
  specialize (Hx y Hy). apply list_elem_of_In in Hy.
  unfold String.le, String.leb in Hx. unfold codeUnitsBelow, String.ltb.
  destruct (String.compare x y) eqn:Hc; [|done..].
  apply String.compare_eq_iff in Hc. congruence.
Qed.

Lemma options_increasing (l : list string) :
  StronglySorted codeUnitsBelow
    (Listings.sortStrings (Listings.dedupe (Listings.filterTruthy l))).
Proof.
  apply sorted_distinct_increasing; [apply sortStrings_sorted|].
  apply sortStrings_NoDup, dedupe_NoDup.
Qed.

(** Each of the four filter-option catalogs lists its values in strictly
    increasing order of code units: every value once, none of them empty,
    so that the Location and Nearby dropdowns, which render two of them,
    never show a duplicate or a blank entry. *)
Theorem catalogs_strictly_increasing (arr : list Listings.Property) :
  let c := Listings.buildCatalogs arr in
  let tidy l := StronglySorted codeUnitsBelow l /\ List.NoDup l /\ ~ In "" l in
  tidy (Listings.locationOptions c) /\ tidy (Listings.nearbyOptions c)
  /\ tidy (Listings.typeOptions c) /\ tidy (Listings.featureOptions c).
Proof.
  simpl. unfold Listings.buildLocations, Listings.buildNearby,
    Listings.buildTypes, Listings.buildRestrictionOptions.
  repeat split;
    first [ apply options_increasing
          | apply sortStrings_NoDup, dedupe_NoDup
          | rewrite In_options; tauto ].
Qed.

(** ** The search request and the client-side filter *)

Lemma lookupOwn_In {A : Type} (m : list (string * A)) (k : string) (v : A) :
  Listings.lookupOwn m k = Some v -> In (k, v) m.
Proof.
  induction m as [|[k' v'] m IH]; simpl; [done|].
  destruct (String.eqb_spec k' k) as [->|Hne].
  - intros [= ->]. by left.
  - intros H. right. by apply IH.
Qed.

Lemma lookupOwn_same_keys {A B : Type} (m : list (string * A))
    (m' : list (string * B)) (k : string) :
  List.map fst m = List.map fst m' ->
  Listings.lookupOwn m k = None -> Listings.lookupOwn m' k = None.
Proof.
  revert m'. induction m as [|[k1 v1] m IH]; intros [|[k2 v2] m'] Hkeys;
    simpl in *; try done.
  injection Hkeys as <- Hkeys.
  destruct (String.eqb k1 k); [done|]. by apply IH.
Qed.

Lemma within_bounds (P : Q -> Prop) (bounds : option Z * option Z)
    (p : Js.JsNumber) :
  (forall q, P q ->
     (forall lo, fst bounds = Some lo -> (inject_Z lo <= q)%Q)
     /\ (forall hi, snd bounds = Some hi -> (q <= inject_Z hi)%Q)) ->
  Listings.priceWithin P p -> Search.withinBounds bounds p.
Proof.
  intros HP (q & -> & Hq). exists q. split; [done|]. by apply HP.
Qed.

(** The price bounds sent to the search endpoint contain the bucket the
    client applies: the two tables list the same six labels, and a property
    that passes the client-side price filter for a label has its numeric
    price between the [min_price] and [max_price] sent for that label, both
    taken as inclusive. *)
Theorem search_bounds_contain_bucket (Number : string -> Js.JsNumber)
    (fs : Listings.Filters) (it : Listings.Property) :
  List.map fst Search.priceParams = List.map fst Listings.priceMap
  /\ (Search.priceBounds fs <> (None, None) ->
      Listings.facetHolds Number Listings.FPriceRange fs it = true ->
      Search.withinBounds (Search.priceBounds fs)
        (Listings.numericPrice Number it)).
Proof.
  split; [reflexivity|].
  unfold Search.priceBounds, Listings.facetHolds.
  destruct (Js.truthy (Listings.priceRange fs)); [|done].
  destruct (Listings.lookupOwn Listings.priceMap (Listings.priceRange fs))
    as [pf|] eqn:Hpf.
  - apply lookupOwn_In in Hpf.
    destruct Hpf as [Hpf|[Hpf|[Hpf|[Hpf|[Hpf|[Hpf|[]]]]]]];
      injection Hpf as <- <-; intros _ Hp.
    + apply below_iff in Hp. revert Hp. apply within_bounds.
      intros q Hq. split; [done|]. intros hi [= <-]. simpl in *. lra.
    + apply between_iff in Hp. revert Hp. apply within_bounds.
      intros q Hq.
      split; [intros lo [= <-]|intros hi [= <-]]; simpl in *; lra.
    + apply between_iff in Hp. revert Hp. apply within_bounds.
      intros q Hq.
      split; [intros lo [= <-]|intros hi [= <-]]; simpl in *; lra.
    + apply between_iff in Hp. revert Hp. apply within_bounds.
      intros q Hq.
      split; [intros lo [= <-]|intros hi [= <-]]; simpl in *; lra.
    + apply between_iff in Hp. revert Hp. apply within_bounds.
      intros q Hq.
      split; [intros lo [= <-]|intros hi [= <-]]; simpl in *; lra.
    + apply above_iff in Hp. revert Hp. apply within_bounds.
      intros q Hq. split; [|done]. intros lo [= <-]. simpl in *. lra.
  - intros Hb. exfalso. apply Hb.
    assert (Hnone : Listings.lookupOwn Search.priceParams
                      (Listings.priceRange fs) = None); [|by rewrite Hnone].
    apply (lookupOwn_same_keys Listings.priceMap Search.priceParams);
      [reflexivity|done].
Qed.

(** The bounds at work: a property at 15000 under the second label lies
    between the 10000 and 20000 sent to the server. *)
Lemma search_bounds_contain_bucket_witness :
  Search.withinBounds (Some 10000, Some 20000)
    (Listings.numericPrice Examples.decimalNumber Examples.metroFlat).
Proof.
  destruct (search_bounds_contain_bucket Examples.decimalNumber
              (Listings.setFacet Listings.FPriceRange "₹10,000 - ₹20,000"
                 Listings.noFilters)
              Examples.metroFlat) as [_ H].
  apply H; [discriminate|reflexivity].
Defined.

Lemma truthy_trim (s : string) : Js.truthy (Js.trim s) = true -> Js.truthy s = true.
Proof. by destruct s. Qed.

(** The room type sent to the server and the one the client filters on
    agree.  For a non-blank room type: when the request carries
    [property_types = t], [t] is one of [apartment], [house], [condo] and
    the client keeps exactly the properties whose lower-cased type is [t];
    when the room type has no backend value the request omits the
    parameter and the client keeps no property at all. *)
Theorem room_type_param_agrees (fs : Listings.Filters) (it : Listings.Property) :
  Js.truthy (Js.trim (Listings.roomType fs)) = true ->
  match Search.property_types (Search.buildParams fs) with
  | Some t =>
      In t ["apartment"; "house"; "condo"]
      /\ Listings.roomTypeCallback
           (Js.toLowerCase (Js.trim (Listings.roomType fs))) it
         = String.eqb (Js.toLowerCase (default "" (Listings.property_type it))) t
  | None =>
      Listings.roomTypeCallback
        (Js.toLowerCase (Js.trim (Listings.roomType fs))) it = false
  end.
Proof.
  intros Hrt. simpl. rewrite Hrt, (truthy_trim _ Hrt). simpl.
  unfold Search.mapRoomTypeToBackend, Listings.roomTypeCallback.
  rewrite orElse_empty.
  destruct (String.eqb _ "apartment"); [split; [simpl; tauto|done]|].
  destruct (String.eqb _ "house"); [split; [simpl; tauto|done]|].
  destruct (String.eqb _ "condo"); [split; [simpl; tauto|done]|].
  done.
Qed.

(** The room type at work: [House] is sent as [house]; [Villa] is not sent
    and hides every listing. *)
Lemma room_type_param_agrees_witness :
  Listings.roomTypeCallback "villa" Examples.airportHouse = false
  /\ Search.property_types
       (Search.buildParams
          (Listings.setFacet Listings.FRoomType "House" Listings.noFilters))
     = Some "house".
Proof.
  split; [|reflexivity].
  exact (room_type_param_agrees
           (Listings.setFacet Listings.FRoomType "Villa" Listings.noFilters)
           Examples.airportHouse eq_refl).
Defined.

Lemma filter_sound_prefilter {A : Type} (f g : A -> bool) (l : list A) :
  (forall x, In x l -> f x = true -> g x = true) ->
  List.filter f (List.filter g l) = List.filter f l.
Proof.
  intros H. rewrite filter_twice.
  induction l as [|x l IH]; simpl; [done|].
  rewrite IH by (intros y Hy; apply H; by right).
  destruct (f x) eqn:Hf.
  - by rewrite (H x (or_introl eq_refl) Hf).
  - by rewrite andb_false_r.
Qed.

(** The client-side overlay makes the result independent of what the
    server filtered: if the listings received are the full list restricted
    by any server-side test that drops no property satisfying all the
    facets, the filtered result is the one computed from the full list.  In
    particular filtering a result again changes nothing. *)
Theorem client_result_independent_of_server (Number : string -> Js.JsNumber)
    (fs : Listings.Filters) (all : list Listings.Property)
    (serverKeeps : Listings.Property -> bool) :
  (forall it, In it all ->
     (forall k, Listings.facetHolds Number k fs it = true) ->
     serverKeeps it = true) ->
  Listings.filteredListings Number fs (List.filter serverKeeps all)
  = Listings.filteredListings Number fs all
  /\ Listings.filteredListings Number fs
       (Listings.filteredListings Number fs all)
     = Listings.filteredListings Number fs all.
Proof.
  intros Hsound. rewrite !filteredListings_filter. split.
  - apply filter_sound_prefilter. intros it Hin Hall.
    apply Hsound; [done|]. by apply allFacets_spec.
  - by apply filter_sound_prefilter.
Qed.

(** The overlay at work: a server that knows only the city hands back both
    Jaipur listings; the client still shows the one apartment. *)
Lemma client_result_independent_of_server_witness :
  Listings.filteredListings Examples.decimalNumber Examples.jaipurApartments
    (List.filter (fun it => String.eqb (Listings.cityOf it) "Jaipur")
       Examples.sampleListings)
  = [Examples.metroFlat].
Proof.
  destruct (client_result_independent_of_server Examples.decimalNumber
              Examples.jaipurApartments Examples.sampleListings
              (fun it => String.eqb (Listings.cityOf it) "Jaipur"))
    as [H _].
  - intros it [<-|[<-|[<-|[]]]] Hall; try reflexivity.
    exfalso. specialize (Hall Listings.FLocation). discriminate.
  - rewrite H. reflexivity.
Defined.

(** [fetchProperties]: the filters decide the first request and a failed
    search falls back on the unfiltered one.  The restrictions facet never
    reaches the server; without any other facet the only request is the
    unfiltered one; whenever the unfiltered request is the last one made and
    answers with the full list, the page shows the client-side filter of
    the full list; and a failure is passed on only if the last request
    failed. *)
Theorem fetch_falls_back (Number : string -> Js.JsNumber)
    (fs : Listings.Filters)
    (server : Search.FetchRequest -> Listings.Response) :
  let params := Search.buildParams fs in
  let outcome := Search.fetchProperties fs server in
  (forall v, Search.buildParams (Listings.setFacet Listings.FRestrictions v fs)
             = params)
  /\ (forall v,
        snd (Search.fetchProperties
               (Listings.setFacet Listings.FRestrictions v Listings.noFilters)
               server)
        = [Search.AllRequest])
  /\ (snd outcome = [Search.AllRequest]
      \/ snd outcome = [Search.SearchRequest params]
         /\ server (Search.SearchRequest params) <> Listings.RespFailed
      \/ snd outcome = [Search.SearchRequest params; Search.AllRequest]
         /\ server (Search.SearchRequest params) = Listings.RespFailed)
  /\ (forall all,
        last (snd outcome) = Some Search.AllRequest ->
        server Search.AllRequest = Listings.RespArray all ->
        Search.shown Number fs server = Listings.filteredListings Number fs all)
  /\ (fst outcome = Listings.RespFailed ->
      exists r, last (snd outcome) = Some r /\ server r = Listings.RespFailed).
Proof.
  intros params outcome. subst params outcome.
  unfold Search.shown, Search.fetchProperties.
  refine (conj _ (conj _ (conj _ (conj _ _)))).
  - intros v. by destruct fs.
  - intros v. reflexivity.
  - destruct (Search.useSearch _); [|by left]. right.
    destruct (server (Search.SearchRequest _)) eqn:Hs; simpl;
      [left|left|right]; by rewrite ?Hs.
  - intros all. destruct (Search.useSearch _).
    + destruct (server (Search.SearchRequest _)); simpl; try done.
      by intros _ ->.
    + simpl. by intros _ ->.
  - destruct (Search.useSearch _).
    + destruct (server (Search.SearchRequest _)) eqn:Hs; simpl; try done.
      intros Hf. by exists Search.AllRequest.
    + simpl. intros Hf. by exists Search.AllRequest.
Qed.

(** The fallback at work: the search endpoint is down, the unfiltered
    request answers with the three sample properties, and the page shows
    the Jaipur apartment. *)
Lemma fetch_falls_back_witness :
  let server r :=
    match r with
    | Search.SearchRequest _ => Listings.RespFailed
    | Search.AllRequest => Listings.RespArray Examples.sampleListings
    end in
  Search.shown Examples.decimalNumber Examples.jaipurApartments server
  = [Examples.metroFlat].
Proof.
  intros server.
  destruct (fetch_falls_back Examples.decimalNumber Examples.jaipurApartments
              server) as (_ & _ & _ & Hshown & _).
  rewrite (Hshown Examples.sampleListings); reflexivity.
Defined.

(** ** The price buckets as a cover *)

Ltac split_comparisons :=
  repeat match goal with
         | |- context [Qle_bool ?a ?b] =>
             let H := fresh "Hc" in
             destruct (Qle_bool a b) eqn:H;
             [ apply Qle_bool_iff in H
             | apply not_true_iff_false in H; rewrite Qle_bool_iff in H;
               apply Qnot_le_lt in H ];
             try (exfalso; simpl in *; lra)
         end.

(** Every finite price falls in at least one of the six buckets and in at
    most two; it falls in two exactly when it is 20000, 30000 or 50000, the
    bounds shared by neighbouring buckets (10000 belongs to the second
    bucket only, 75000 to the fifth only); NaN falls in none. *)
Theorem price_buckets_cover (q : Q) :
  (1 <= length (bucketsOf (Js.JsNum q)) <= 2)%nat
  /\ (length (bucketsOf (Js.JsNum q)) = 2%nat
      <-> (q == 20000 \/ q == 30000 \/ q == 50000)%Q)
  /\ ((q == 10000)%Q -> bucketsOf (Js.JsNum q) = ["₹10,000 - ₹20,000"])
  /\ ((q == 75000)%Q -> bucketsOf (Js.JsNum q) = ["₹50,000 - ₹75,000"])
  /\ bucketsOf Js.JsNaN = [].
Proof.
  unfold bucketsOf, Listings.priceMap, Js.ltb, Js.leb, Js.ofZ, inject_Z.
  cbn [List.filter snd].
  split_comparisons; simpl in *.
  all: refine (conj _ (conj _ (conj _ (conj _ eq_refl)))).
  all: try lia.
  all: try (intros; first [reflexivity | exfalso; lra]).
  all: split; intros H; try discriminate;
    first [ exfalso; destruct H as [H|[H|H]]; lra
          | left; lra | right; left; lra | right; right; lra
          | reflexivity ].
Qed.

(** ** What the New Listing form can produce *)

Lemma digitValue_range (d : ascii) :
  Js.isDigit d = true -> 0 <= AdminNewListing.digitValue d <= 9.
Proof.
  unfold Js.isDigit, AdminNewListing.digitValue.
  rewrite andb_true_iff, !Nat.leb_le. lia.
Qed.

Lemma bedroomsFromSize_digit (size : string) (x : Js.JsNumber) :
  AdminNewListing.bedroomsFromSize size = Some x ->
  exists n, 0 <= n <= 9 /\ x = Js.ofZ n.
Proof.
  unfold AdminNewListing.bedroomsFromSize.
  destruct (Js.trimStart _) as [|d rest]; [done|].
  destruct (Js.isDigit d) eqn:Hd; [|done].
  destruct (Listings.stripPrefixCI _ _) as [tail|]; [|done].
  destruct (Js.trimStart tail); [|done].
  intros [= <-]. exists (AdminNewListing.digitValue d).
  split; [by apply digitValue_range|done].
Qed.

(** When the bedrooms field is left empty, the bedrooms of the payload are
    derived from the size alone and are either [null] or a whole number
    from 1 to 9, whatever the size field holds. *)
Theorem derived_bedrooms_range (Number : string -> Js.JsNumber)
    (form : AdminNewListing.Form) :
  AdminNewListing.bedrooms form = "" ->
  let bedrooms :=
    AdminNewListing.p_bedrooms (AdminNewListing.buildPayload Number form) in
  bedrooms = None \/ exists n, 1 <= n <= 9 /\ bedrooms = Some (Js.ofZ n).
Proof.
  intros Hb. simpl. rewrite Hb. simpl.
  destruct (AdminNewListing.bedroomsFromSize _) as [x|] eqn:Hx; [|by left].
  apply bedroomsFromSize_digit in Hx as (n & Hn & ->).
  unfold AdminNewListing.orNull, Js.ofZ.
  destruct (Qeq_bool (inject_Z n) 0) eqn:Hz; [by left|].
  right. exists n. split; [|done].
  apply Qeq_bool_neq in Hz.
  assert (n <> 0) by (intros ->; by apply Hz).
  lia.
Qed.

(** The range at work on the sample form, whose size is [2 BHK]. *)
Lemma derived_bedrooms_range_witness :
  exists n, 1 <= n <= 9
    /\ AdminNewListing.p_bedrooms
         (AdminNewListing.buildPayload Examples.decimalNumber Examples.flatForm)
       = Some (Js.ofZ n).
Proof.
  destruct (derived_bedrooms_range Examples.decimalNumber Examples.flatForm
              eq_refl) as [Hnone|Hsome].
  - discriminate Hnone.
  - exact Hsome.
Defined.

Lemma mapPropertyType_range (val : string) :
  AdminNewListing.mapPropertyTypeToBackend val = "apartment"
  \/ AdminNewListing.mapPropertyTypeToBackend val = "condo".
Proof.
  unfold AdminNewListing.mapPropertyTypeToBackend.
  destruct (_ || _); [by left|]. destruct (String.eqb _ _); [by right|by left].
Qed.

(** Whatever the form holds, the payload carries the property type
    [apartment] or [condo] and the status [available] or [off_market]; so a
    listing stored with the type of the payload is never shown on the
    public page under the room type [House]. *)
Theorem created_listing_never_house (Number : string -> Js.JsNumber)
    (form : AdminNewListing.Form) :
  let payload := AdminNewListing.buildPayload Number form in
  In (AdminNewListing.p_property_type payload) ["apartment"; "condo"]
  /\ In (AdminNewListing.p_status payload) ["available"; "off_market"]
  /\ (forall (fs : Listings.Filters) (l : list Listings.Property)
             (it : Listings.Property),
        Listings.property_type it = Some (AdminNewListing.p_property_type payload) ->
        ~ In it (Listings.filteredListings Number
                   (Listings.setFacet Listings.FRoomType "House" fs) l)).
Proof.
  simpl. split; [|split].
  - destruct (mapPropertyType_range (AdminNewListing.property_type_ui form))
      as [-> | ->]; tauto.
  - unfold AdminNewListing.mapStatusToBackend.
    repeat (destruct (String.eqb _ _); [tauto|]). tauto.
  - intros fs l it Htype.
    rewrite filteredListings_filter, filter_In, allFacets_spec.
    intros [_ Hall]. specialize (Hall Listings.FRoomType).
    destruct fs; simpl in Hall. unfold Listings.roomTypeCallback in Hall.
    rewrite Htype in Hall. simpl in Hall.
    destruct (mapPropertyType_range (AdminNewListing.property_type_ui form))
      as [H | H]; rewrite H in Hall; discriminate Hall.
Qed.

(** The form at work: a listing created as [Flat] is stored as an
    apartment and does not show under [House]. *)
Lemma created_listing_never_house_witness :
  ~ In Examples.metroFlat
      (Listings.filteredListings Examples.decimalNumber
         (Listings.setFacet Listings.FRoomType "House" Listings.noFilters)
         Examples.sampleListings).
Proof.
  destruct (created_listing_never_house Examples.decimalNumber Examples.flatForm)
    as (_ & _ & Hnever).
  apply Hnever. reflexivity.
Defined.

(** ** From the New Listing form to the public filters *)

Lemma trimEnd_cons (c : ascii) (s : string) :
  Js.isWhiteSpace c = false -> Js.trimEnd (String c s) = String c (Js.trimEnd s).
Proof. intros Hc. simpl. rewrite Hc. by destruct (Js.trimEnd s). Qed.

Lemma trimEnd_idempotent (s : string) : Js.trimEnd (Js.trimEnd s) = Js.trimEnd s.
Proof.
  induction s as [|c s IH]; [done|].
  change (Js.trimEnd (String c s))
    with (match Js.trimEnd s with
          | "" => if Js.isWhiteSpace c then "" else String c ""
          | t => String c t
          end).
  destruct (Js.trimEnd s) as [|d t] eqn:Ht.
  - destruct (Js.isWhiteSpace c) eqn:Hc; [done|]. simpl. by rewrite Hc.
  - change (Js.trimEnd (String c (String d t)))
      with (match Js.trimEnd (String d t) with
            | "" => if Js.isWhiteSpace c then "" else String c ""
            | x => String c x
            end).
    by rewrite IH.
Qed.

Lemma trimStart_head (s : string) :
  Js.trimStart s = ""
  \/ exists c r, Js.trimStart s = String c r /\ Js.isWhiteSpace c = false.
Proof.
  induction s as [|c s IH]; simpl; [by left|].
  destruct (Js.isWhiteSpace c) eqn:Hc; [done|]. right. by exists c, s.
Qed.

Lemma trim_idempotent (s : string) : Js.trim (Js.trim s) = Js.trim s.
Proof.
  unfold Js.trim. destruct (trimStart_head s) as [->|(c & r & -> & Hc)]; [done|].
  rewrite (trimEnd_cons c r Hc). cbn [Js.trimStart]. rewrite Hc.
  rewrite <- (trimEnd_cons c r Hc). apply trimEnd_idempotent.
Qed.

Lemma pushIf_In (value entry : string) (base : list string) :
  Js.truthy value = true -> In entry (AdminNewListing.pushIf value entry base).
Proof.
  intros H. unfold AdminNewListing.pushIf. rewrite H.
  apply in_or_app. right. by left.
Qed.

Lemma pushIf_keeps (value entry x : string) (base : list string) :
  In x base -> In x (AdminNewListing.pushIf value entry base).
Proof.
  intros H. unfold AdminNewListing.pushIf.
  destruct (Js.truthy value); [|done]. apply in_or_app. by left.
Qed.

Lemma nearby_tag_found (v : string) (it : Listings.Property)
    (fl : list string) :
  Listings.features it = Some fl ->
  In ("Nearby: " +:+ v) fl ->
  Listings.nearbyCallback (Js.toLowerCase (Js.trim v)) it = true.
Proof.
  intros Hfl Hin. unfold Listings.nearbyCallback, Listings.someFeature.
  rewrite Hfl. apply existsb_exists. exists ("Nearby: " +:+ v).
  split; [done|].
  change (Js.toLowerCase ("Nearby: " +:+ v))
    with ("nearby: " +:+ Js.toLowerCase v).
  apply andb_true_iff. split.
  - unfold Js.startsWith. apply prefix_iff.
    by exists (" " +:+ Js.toLowerCase v).
  - apply includes_iff. destruct (trim_split v) as (a & b & Hv).
    exists ("nearby: " +:+ Js.toLowerCase a), (Js.toLowerCase b).
    rewrite Hv at 1. by rewrite !toLowerCase_append, !append_assoc.
Qed.

(** A listing created through the New Listing form is found again on the
    public page by its own tags.  If a property carries the features of the
    payload, then, for a non-blank Nearby text, the trimmed text is one of
    the values of the nearby catalog and choosing it keeps the property;
    and choosing the restriction the form was given (a non-empty value
    without surrounding blanks, as the dropdown offers) keeps it too. *)
Theorem created_listing_found_by_tags (Number : string -> Js.JsNumber)
    (form : AdminNewListing.Form) (arr : list Listings.Property)
    (it : Listings.Property) :
  In it arr ->
  Listings.features it
  = Some (AdminNewListing.p_features (AdminNewListing.buildPayload Number form)) ->
  (Js.trim (AdminNewListing.nearby form) <> "" ->
   let value := Js.trim (AdminNewListing.nearby form) in
   In value (Listings.nearbyOptions (Listings.buildCatalogs arr))
   /\ In it (Listings.filteredListings Number
               (Listings.setFacet Listings.FNearby value Listings.noFilters)
               arr))
  /\ (AdminNewListing.restrictions_ui form <> "" ->
      Js.trim (AdminNewListing.restrictions_ui form)
      = AdminNewListing.restrictions_ui form ->
      In it (Listings.filteredListings Number
               (Listings.setFacet Listings.FRestrictions
                  (AdminNewListing.restrictions_ui form) Listings.noFilters)
               arr)).
Proof.
  intros Hin Hfl. cbn [AdminNewListing.p_features AdminNewListing.buildPayload]
    in Hfl. unfold AdminNewListing.payloadFeatures in Hfl.
  split.
  - intros Hne value. subst value.
    set (v := AdminNewListing.nearby form) in *.
    assert (Htv : Js.truthy (Js.trim v) = true)
      by (destruct (Js.trim v); [done|reflexivity]).
    assert (Hv : Js.truthy v = true) by (by apply truthy_trim).
    assert (Htag : In ("Nearby: " +:+ v)
                     (AdminNewListing.p_features
                        (AdminNewListing.buildPayload Number form))).
    { cbn [AdminNewListing.p_features AdminNewListing.buildPayload].
      unfold AdminNewListing.payloadFeatures.
      apply pushIf_keeps. by apply pushIf_In. }
    split.
    + simpl. unfold Listings.buildNearby. rewrite In_options. split; [|done].
      apply in_map_iff. exists ("Nearby: " +:+ v). split; [reflexivity|].
      apply filter_In. split; [|reflexivity].
      apply In_featuresRaw. eexists it, _. split; [done|]. split; [|exact Htag].
      exact Hfl.
    + rewrite filteredListings_filter, filter_In. split; [done|].
      apply allFacets_spec. intros k.
      destruct k; try reflexivity. simpl.
      rewrite trim_idempotent, Htv. simpl.
      eapply nearby_tag_found; [exact Hfl|exact Htag].
  - intros Hne Htrim.
    set (r := AdminNewListing.restrictions_ui form) in *.
    assert (Hr : Js.truthy r = true) by (destruct r; [done|reflexivity]).
    rewrite filteredListings_filter, filter_In. split; [done|].
    apply allFacets_spec. intros k.
    destruct k; try reflexivity. simpl. rewrite Htrim, Hr. simpl.
    unfold Listings.restrictionsCallback, Listings.someFeature.
    rewrite Hfl. apply existsb_exists. exists r. split.
    + do 2 apply pushIf_keeps. by apply pushIf_In.
    + apply String.eqb_refl.
Qed.

(** The round trip at work: the sample form, stored, is listed under the
    nearby value [Metro Station] and under the restriction [Family]. *)
Lemma created_listing_found_by_tags_witness :
  let stored :=
    {| Listings.id := "new-id"; Listings.title := "Two rooms in Jaipur";
       Listings.price := Listings.PriceNumber (Js.ofZ 15000);
       Listings.property_type := Some "apartment";
       Listings.address := None;
       Listings.features :=
         Some (AdminNewListing.p_features
                 (AdminNewListing.buildPayload Examples.decimalNumber
                    Examples.flatForm)) |} in
  In "Metro Station"
    (Listings.nearbyOptions (Listings.buildCatalogs [Examples.airportHouse; stored]))
  /\ In stored
       (Listings.filteredListings Examples.decimalNumber
          (Listings.setFacet Listings.FRestrictions "Family" Listings.noFilters)
          [Examples.airportHouse; stored]).
Proof.
  intros stored.
  destruct (created_listing_found_by_tags Examples.decimalNumber
              Examples.flatForm [Examples.airportHouse; stored] stored)
    as [Hnearby Hrestr].
  - right. by left.
  - reflexivity.
  - split.
    + destruct (Hnearby ltac:(discriminate)) as [Hcat _].
      vm_compute in Hcat |- *. exact Hcat.
    + pose proof (Hrestr ltac:(discriminate) eq_refl) as Hkept.
      vm_compute in Hkept |- *. exact Hkept.
Defined.

(** ** The features field of the edit form *)

Lemma includes_comma_cons (c : ascii) (s : string) :
  Js.includes (String c s) ","
  = (if Ascii.ascii_dec "," c then true else false) || Js.includes s ",".
Proof.
  rewrite includes_cons. f_equal.
  change (String.prefix "," (String c s))
    with (if Ascii.ascii_dec "," c then String.prefix "" s else false).
  destruct (Ascii.ascii_dec "," c); [by destruct s|done].
Qed.

Lemma includes_comma_app (a b : string) :
  Js.includes (a +:+ b) "," = Js.includes a "," || Js.includes b ",".
Proof.
  induction a as [|c a IH]; [done|].
  by rewrite append_cons, !includes_comma_cons, IH, orb_assoc.
Qed.

Lemma no_comma_head (c : ascii) (s : string) :
  Js.includes (String c s) "," = false ->
  Ascii.eqb c "," = false /\ Js.includes s "," = false.
Proof.
  rewrite includes_comma_cons, orb_false_iff. intros [Hc Hs]. split; [|done].
  destruct (Ascii.eqb_spec c ",") as [->|]; [|done].
  by destruct (Ascii.ascii_dec "," ",").
Qed.

Lemma splitComma_plain (f : string) :
  Js.includes f "," = false -> AdminNewListing.splitComma f = [f].
Proof.
  induction f as [|c f IH]; [done|].
  intros H. apply no_comma_head in H as [Hc Hf].
  simpl. by rewrite Hc, (IH Hf).
Qed.

Lemma splitComma_app (f s : string) :
  Js.includes f "," = false ->
  AdminNewListing.splitComma (f +:+ "," +:+ s)
  = f :: AdminNewListing.splitComma s.
Proof.
  induction f as [|c f IH]; [done|].
  intros H. apply no_comma_head in H as [Hc Hf].
  rewrite append_cons. simpl. by rewrite Hc, (IH Hf).
Qed.

Lemma splitComma_join (p y : string) (l : list string) :
  Js.includes p "," = false ->
  Forall (fun f => Js.includes f "," = false) (y :: l) ->
  AdminNewListing.splitComma (p +:+ FeatureText.joinWith ", " (y :: l))
  = (p +:+ y) :: List.map (fun f => " " +:+ f) l.
Proof.
  revert p y. induction l as [|z l IH]; intros p y Hp Hall.
  - apply splitComma_plain. rewrite includes_comma_app, Hp.
    by inversion Hall.
  - inversion Hall as [|? ? Hy Hrest]; subst.
    change (FeatureText.joinWith ", " (y :: z :: l))
      with (y +:+ ", " +:+ FeatureText.joinWith ", " (z :: l)).
    replace (p +:+ y +:+ ", " +:+ FeatureText.joinWith ", " (z :: l))
      with ((p +:+ y) +:+ "," +:+ " " +:+ FeatureText.joinWith ", " (z :: l))
      by (by rewrite !append_assoc).
    rewrite splitComma_app by (by rewrite includes_comma_app, Hp, Hy).
    by rewrite (IH " " z eq_refl Hrest).
Qed.

Lemma joinWith_truthy (y : string) (l : list string) :
  y <> "" -> Js.truthy (FeatureText.joinWith ", " (y :: l)) = true.
Proof. intros Hy. destruct y; [done|]. by destruct l. Qed.

(** Opening a listing in the edit form and saving it without touching the
    features field keeps the features: the text [startEdit] builds from the
    list is parsed back by [updateListing] into the same list, provided no
    feature is empty, holds a comma or starts or ends with white space.  A
    listing without features gets the empty list. *)
Theorem features_survive_edit (l : list string) :
  Forall FeatureText.plain l ->
  FeatureText.parseFeatures (FeatureText.editText (Some l)) = l
  /\ FeatureText.parseFeatures (FeatureText.editText None) = [].
Proof.
  intros Hplain. split; [|done].
  destruct l as [|y l]; [done|].
  unfold FeatureText.editText, FeatureText.parseFeatures.
  inversion Hplain as [|? ? (Hy & Hcy & Hty) Hl]; subst.
  rewrite (joinWith_truthy y l Hy).
  rewrite <- (append_nil (FeatureText.joinWith ", " (y :: l))).
  rewrite splitComma_join; [|done|].
  - rewrite append_nil. cbn [List.map]. rewrite Hty.
    unfold Listings.filterTruthy. cbn [List.filter].
    replace (Js.truthy y) with true by (by destruct y).
    f_equal. clear Hplain Hy Hcy Hty.
    induction Hl as [|z l (Hz & Hcz & Htz) Hl IH]; [done|].
    cbn [List.map List.filter].
    change (Js.trim (" " +:+ z)) with (Js.trim z). rewrite Htz.
    replace (Js.truthy z) with true by (by destruct z).
    by rewrite IH.
  - constructor; [done|].
    eapply Forall_impl; [exact Hl|]. by intros f (_ & Hc & _).
Qed.

(** The round trip at work on three features; and its limit: a feature
    that holds a comma comes back as two. *)
Lemma features_survive_edit_witness :
  FeatureText.parseFeatures
    (FeatureText.editText (Some ["Family"; "Nearby: Metro Station"; "Lift"]))
  = ["Family"; "Nearby: Metro Station"; "Lift"]
  /\ FeatureText.parseFeatures (FeatureText.editText (Some ["Gym, pool"]))
     = ["Gym"; "pool"].
Proof.
  split; [|reflexivity].
  apply features_survive_edit.
  repeat constructor; discriminate.
Defined.

(** ** Staged images over a session *)

Lemma length_stage (fresh : Admin.Fresh) (files : list Admin.File) :
  length (Admin.stage fresh files) = length files.
Proof. by rewrite <- (map_file_stage fresh files) at 2; rewrite length_map. Qed.

Lemma handleImageSelect_cases (fresh : Admin.Fresh) (files : list Admin.File)
    (st : AdminNewListing.ImageState) :
  let after :=
    AdminNewListing.selectedImages
      (AdminNewListing.handleImageSelect fresh files st) in
  after = AdminNewListing.selectedImages st
  \/ after = AdminNewListing.selectedImages st ++ Admin.stage fresh files
     /\ (length files + length (AdminNewListing.selectedImages st) <= 10)%nat.
Proof.
  unfold AdminNewListing.handleImageSelect, Admin.MAX_IMAGES.
  destruct (Nat.ltb_spec 10 (length files
                             + length (AdminNewListing.selectedImages st)));
    [by left|].
  destruct (Admin.firstViolation files); [by left|by right].
Qed.

Lemma length_filter_le {A : Type} (f : A -> bool) (l : list A) :
  (length (List.filter f l) <= length l)%nat.
Proof.
  induction l as [|x l IH]; simpl; [done|]. destruct (f x); simpl; lia.
Qed.

Lemma submit_images (Number : string -> Js.JsNumber) (token : option string)
    (srv : AdminNewListing.Server) (st : AdminNewListing.State) :
  let run := AdminNewListing.submit Number token srv st in
  let before := AdminNewListing.selectedImages (AdminNewListing.images st) in
  let after :=
    AdminNewListing.selectedImages
      (AdminNewListing.images (AdminNewListing.stateAfter run)) in
  after = before /\ AdminNewListing.revoked run = []
  \/ after = []
     /\ AdminNewListing.revoked run
        = List.map Admin.preview
            (List.filter (fun img => Js.truthy (Admin.preview img)) before).
Proof.
  unfold AdminNewListing.submit.
  destruct (AdminNewListing.onCreate srv _); [|by left].
  destruct (AdminNewListing.attachImages _ _ _ _) as [[uploaded err] reqs].
  by right.
Qed.

Lemma submit_upload_files (Number : string -> Js.JsNumber)
    (token : option string) (srv : AdminNewListing.Server)
    (st : AdminNewListing.State) (propertyId : string)
    (files : list Admin.File) :
  In (AdminNewListing.UploadImages propertyId files)
    (AdminNewListing.trace (AdminNewListing.submit Number token srv st)) ->
  files
  = List.map Admin.file
      (AdminNewListing.selectedImages (AdminNewListing.images st)).
Proof.
  unfold AdminNewListing.submit.
  destruct (AdminNewListing.onCreate srv _) as [createdId|e].
  - unfold AdminNewListing.attachImages, AdminNewListing.uploadImages.
    destruct (AdminNewListing.selectedImages _) as [|img staged];
      [simpl; intuition discriminate|].
    destruct (AdminNewListing.onUpload srv _ _) as [uploaded|e];
      [destruct (AdminNewListing.onPutImages srv _ _)|];
      simpl; intuition congruence.
  - simpl. intuition discriminate.
Qed.

(** On the New Listing form the staged images never exceed ten: starting
    with at most ten, any sequence of file selections, removals and
    submissions leaves at most ten staged images, and every upload request
    of a later submission carries exactly the staged files, hence at most
    ten. *)
Theorem staged_images_bounded (Number : string -> Js.JsNumber)
    (events : list NewListingImages.ImageEvent)
    (s : NewListingImages.Session) :
  (length (NewListingImages.staged s) <= 10)%nat ->
  let s' := NewListingImages.session Number events s in
  (length (NewListingImages.staged s') <= 10)%nat
  /\ (forall token srv propertyId files,
        In (AdminNewListing.UploadImages propertyId files)
          (AdminNewListing.trace
             (AdminNewListing.submit Number token srv
                (NewListingImages.state s'))) ->
        files = List.map Admin.file (NewListingImages.staged s')
        /\ (length files <= 10)%nat).
Proof.
  intros Hs s'.
  assert (Hs' : (length (NewListingImages.staged s') <= 10)%nat).
  { subst s'. unfold NewListingImages.session. revert s Hs.
    induction events as [|e events IH]; intros s Hs; [done|].
    simpl. apply IH. clear IH. unfold NewListingImages.staged in *.
    destruct e as [fresh files|imageId|token srv]; simpl.
    - destruct (handleImageSelect_cases fresh files
                  (AdminNewListing.images (NewListingImages.state s)))
        as [-> | [-> Hfit]]; [done|].
      rewrite length_app, length_stage. lia.
    - etrans; [apply length_filter_le|done].
    - destruct (submit_images Number token srv (NewListingImages.state s))
        as [[-> _] | [-> _]]; [done|simpl; lia]. }
  split; [done|].
  intros token srv propertyId files Hin.
  apply submit_upload_files in Hin. split; [done|].
  subst files. rewrite length_map. exact Hs'.
Qed.





(** The bound at work: eleven photos selected at once are refused, two are
    staged, one of them is removed. *)
Lemma staged_images_bounded_witness :
  let events :=
    [ NewListingImages.Select Examples.blobs (replicate 11 Examples.photo);
      NewListingImages.Select Examples.blobs [Examples.photo; Examples.photo];
      NewListingImages.Remove "0" ] in
  let s' :=
    NewListingImages.session Examples.decimalNumber events
      (NewListingImages.emptySession Examples.creating) in
  length (NewListingImages.staged s') = 1%nat
  /\ (length (NewListingImages.staged s') <= 10)%nat.
Proof.
  intros events s'. split; [reflexivity|].
  apply (staged_images_bounded Examples.decimalNumber events
           (NewListingImages.emptySession Examples.creating)).
  simpl. lia.
Defined.


Lemma edit_select_count (Fields : Type) (fresh : Admin.Fresh)
    (files : list Admin.File) (st : AdminListings.State Fields) :
  (EditImages.imageCount Fields st <= 10)%nat ->
  (EditImages.imageCount Fields
     (AdminListings.handleImageSelect Fields fresh files st) <= 10)%nat.
Proof.
  unfold EditImages.imageCount, EditImages.existingImages,
    AdminListings.handleImageSelect, Admin.MAX_IMAGES.
  intros Hst.
  destruct (Nat.ltb_spec 10
              (length files
               + length (default [] (AdminListings.images Fields
                                       (AdminListings.editForm Fields st)))
               + length (AdminListings.selectedImages Fields st)));
    [done|].
  destruct (Admin.firstViolation files); [done|]. simpl.
  rewrite length_app, length_stage. lia.
Qed.

(** ** What the contact modal sends *)

(** Every inquiry the contact modal sends is well formed: at most one
    request per submission, about the listing the modal was opened for,
    with the trimmed name, email and phone of the form, none of them empty,
    a phone holding exactly ten digits, and an empty honeypot field. *)
Theorem sent_inquiry_well_formed (Number : string -> Js.JsNumber)
    (env : Listings.SubmitEnv) (st : Listings.ContactState)
    (storage : gmap string string) (payload : Listings.ContactPayload) :
  In payload (Listings.sent (Listings.submitContact Number env st storage)) ->
  let form := Listings.contactForm st in
  Listings.sent (Listings.submitContact Number env st storage) = [payload]
  /\ (exists listing,
        Listings.contactListing st = Some listing
        /\ Listings.p_listing_id payload = Listings.id listing
        /\ Listings.p_property_id payload = Listings.id listing)
  /\ Listings.p_name payload = Js.trim (Listings.name form)
  /\ Listings.p_email payload = Js.trim (Listings.email form)
  /\ Listings.p_phone payload = Js.trim (Listings.phone form)
  /\ Listings.p_name payload <> ""
  /\ Listings.p_email payload <> ""
  /\ Listings.countDigits (Listings.p_phone payload) = 10%nat
  /\ Js.trim (Listings.website form) = "".
Proof.
  unfold Listings.submitContact.
  destruct (Listings.contactListing st) as [listing|]; [|done].
  destruct (Listings.rateLimited _ _); [done|].
  destruct (Js.truthy (Js.trim (Listings.name _))) eqn:Hn; [|done].
  destruct (Js.truthy (Js.trim (Listings.email _))) eqn:He; [|done].
  destruct (Js.truthy (Js.trim (Listings.phone _))) eqn:Hp; [|done].
  destruct (Listings.isValidPhone _) eqn:Hv; [|done].
  destruct (Js.truthy (Js.trim (Listings.website _))) eqn:Hw; [done|].
  cbn [negb orb].
  unfold Listings.isValidPhone in Hv.
  rewrite orElse_empty, length_stripNonDigits in Hv. apply Nat.eqb_eq in Hv.
  apply truthy_empty in Hw.
  assert (Hne : forall s, Js.truthy s = true -> s <> "") by (by intros []).
  destruct (Listings.post env _); simpl; intros [<-|[]]; simpl;
    (split; [done|]); (split; [by exists listing|]); repeat split; auto.
Qed.

(** The inquiry at work: the sample form is sent with its phone trimmed. *)
Lemma sent_inquiry_well_formed_witness :
  exists payload,
    Listings.sent
      (Listings.submitContact Examples.decimalNumber (Examples.serverUp 5000000)
         Examples.inquiry ∅) = [payload]
    /\ Listings.countDigits (Listings.p_phone payload) = 10%nat.
Proof.
  assert (Hin : exists payload,
            In payload
              (Listings.sent
                 (Listings.submitContact Examples.decimalNumber
                    (Examples.serverUp 5000000) Examples.inquiry ∅))).
  { eexists. vm_compute. left. reflexivity. }
  destruct Hin as [payload Hin]. exists payload.
  destruct (sent_inquiry_well_formed _ _ _ _ _ Hin)
    as (Hsent & _ & _ & _ & _ & _ & _ & Hdigits & _).
  split; [exact Hsent|exact Hdigits].
Defined.

(** ** What saving an edit sends *)

Lemma uploadStaged_cases (Fields : Type) (srv : AdminListings.Server Fields)
    (correctId : string) (staged : list Admin.StagedImage) :
  let files := List.map Admin.file staged in
  let '(uploaded, err, reqs) :=
    AdminListings.uploadStaged Fields srv correctId staged in
  (staged = [] /\ uploaded = [] /\ reqs = [])
  \/ (staged <> []
      /\ reqs = [AdminListings.UploadImages Fields correctId files]
      /\ (AdminListings.onUpload Fields srv correctId files = Admin.Ok uploaded
          \/ uploaded = []
             /\ exists e, AdminListings.onUpload Fields srv correctId files
                          = Admin.Failed e)).
Proof.
  unfold AdminListings.uploadStaged, AdminListings.uploadImages.
  destruct staged as [|img staged]; [by left|].
  destruct (AdminListings.onUpload Fields srv _ _) as [uploaded|e] eqn:Hup;
    right; (split; [done|]); (split; [done|]).
  - by left.
  - right. split; [done|]. by exists e.
Qed.

Lemma putUpdate_requests (Fields : Type) (srv : AdminListings.Server Fields)
    (authorized : bool) (correctId : string)
    (payload : AdminListings.UpdatePayload Fields) :
  let reqs := snd (AdminListings.putUpdate Fields srv authorized correctId payload) in
  reqs <> []
  /\ Forall (fun r => exists route,
               r = AdminListings.PutProperty Fields route correctId payload)
       reqs.
Proof.
  unfold AdminListings.putUpdate.
  destruct authorized; [|destruct (AdminListings.onPut Fields srv _ _ _)];
    simpl; (split; [done|]); repeat constructor; by eexists.
Qed.

(** ** The search box of the admin listings page *)

Lemma trim_blank (s : string) : Js.trim s = "" <-> Js.trimStart s = "".
Proof.
  unfold Js.trim. split; [|by intros ->].
  destruct (trimStart_head s) as [->|(c & rest & -> & Hc)]; [done|].
  change (Js.trimEnd (String c rest))
    with (match Js.trimEnd rest with
          | EmptyString =>
              if Js.isWhiteSpace c then EmptyString else String c EmptyString
          | t => String c t
          end).
  rewrite Hc. by destruct (Js.trimEnd rest).
Qed.

Lemma trimStart_blank_append (a b : string) :
  Js.trimStart (a +:+ b) = "" -> Js.trimStart a = "" /\ Js.trimStart b = "".
Proof.
  induction a as [|c a IH]; [done|].
  rewrite append_cons. simpl.
  destruct (Js.isWhiteSpace c); [exact IH|done].
Qed.

Lemma blank_inside (a q b : string) :
  Js.truthy (Js.trim (a +:+ q +:+ b)) = false ->
  Js.truthy (Js.trim q) = false.
Proof.
  rewrite !truthy_empty, !trim_blank. intros H.
  apply trimStart_blank_append in H as [_ H].
  by apply trimStart_blank_append in H as [H _].
Qed.

Lemma includes_inside (s a q b : string) :
  Js.includes s (a +:+ q +:+ b) = true -> Js.includes s q = true.
Proof.
  rewrite !includes_iff. intros (pre & post & ->).
  exists (pre +:+ a), (b +:+ post). by rewrite !append_assoc.
Qed.

Lemma fieldHas_inside (field : option string) (a q b : string) :
  AdminSearch.fieldHas field (Js.toLowerCase (a +:+ q +:+ b)) = true ->
  AdminSearch.fieldHas field (Js.toLowerCase q) = true.
Proof.
  destruct field as [text|]; [|done]. simpl.
  rewrite !toLowerCase_append. apply includes_inside.
Qed.

Lemma matches_inside (numberToString : Js.JsNumber -> string)
    (a q b : string) (row : AdminSearch.Row) :
  AdminSearch.matches numberToString (a +:+ q +:+ b) row = true ->
  AdminSearch.matches numberToString q row = true.
Proof.
  unfold AdminSearch.matches. rewrite !orb_true_iff.
  intros H.
  repeat match type of H with
         | _ \/ _ => destruct H as [H|H]
         end.
  - do 7 left. rewrite toLowerCase_append, toLowerCase_append in H.
    by apply includes_inside in H.
  - do 6 left. right. rewrite toLowerCase_append, toLowerCase_append in H.
    by apply includes_inside in H.
  - do 5 left. right. by apply fieldHas_inside in H.
  - do 4 left. right. by apply fieldHas_inside in H.
  - do 3 left. right. by apply fieldHas_inside in H.
  - do 2 left. right. destruct (AdminSearch.price row); [|done].
    by apply includes_inside in H.
  - left. right. by apply fieldHas_inside in H.
  - right. by apply fieldHas_inside in H.
Qed.

(** A loaded listing is found by any part of its id and by any part of the
    id the page uses for it on the server, typed in any letter case. *)
Theorem search_finds_by_id (numberToString : Js.JsNumber -> string)
    (q fragment pre post : string) (listings : list AdminSearch.Row)
    (row : AdminSearch.Row) :
  In row listings ->
  AdminListings.id (AdminSearch.listing row) = pre +:+ fragment +:+ post
  \/ AdminListings.getCorrectId (AdminSearch.listing row)
     = pre +:+ fragment +:+ post ->
  Js.toLowerCase q = Js.toLowerCase fragment ->
  In row (AdminSearch.search numberToString q listings).
Proof.
  intros Hin Hid Hq. unfold AdminSearch.search.
  destruct (Js.truthy (Js.trim q)); simpl; [|done].
  apply filter_In. split; [done|].
  unfold AdminSearch.matches. rewrite !orb_true_iff. do 6 left.
  destruct Hid as [Hid|Hid]; [left|right]; rewrite Hid, Hq;
    apply includes_iff; rewrite !toLowerCase_append; by eexists _, _.
Qed.

(** The mapped row is found by a piece of its server id in capitals. *)
Lemma search_finds_by_id_witness :
  In AdminExamples.mappedRow
    (AdminSearch.search AdminExamples.wholeNumberToString "B0B7-449E"
       AdminExamples.rows).
Proof.
  apply (search_finds_by_id AdminExamples.wholeNumberToString "B0B7-449E"
           "b0b7-449e" "22a9d63e-" "-a757-43215814e82e").
  - left. reflexivity.
  - right. reflexivity.
  - reflexivity.
Defined.

(** ** Deleting a listing *)

Lemma deleteErrorMessage_shown (e : Admin.ApiError) :
  DeleteFlow.deleteErrorMessage e <> "".
Proof.
  unfold DeleteFlow.deleteErrorMessage.
  destruct (Js.truthy (Admin.detail e)) eqn:Hd; [by destruct (Admin.detail e)|].
  destruct (Admin.statusIs e 404); [done|].
  destruct (Admin.statusIs e 401 || Admin.statusIs e 403); [done|].
  destruct (Js.truthy (Admin.errMessage e)) eqn:Hm; [|done].
  by destruct (Admin.errMessage e).
Qed.

(** Deleting a listing only ever addresses the id the page maps the listing
    to: every run sends at least one DELETE, each for that id; with a token
    it is a single authorized request, without one the public route is
    tried first and the plain route only after it failed.  The list is
    reloaded and the confirmation closed exactly when a DELETE succeeded;
    otherwise the loaded listings and the confirmation stay as they were
    and a non-empty error message is shown. *)
Theorem delete_targets_mapped_id (token : option string)
    (srv : DeleteFlow.Server) (listing : AdminListings.Listing)
    (st : DeleteFlow.State) :
  let run := DeleteFlow.deleteListing token srv listing st in
  let after := DeleteFlow.stateAfter run in
  let correctId := AdminListings.getCorrectId listing in
  let deletes :=
    if AdminNewListing.hasToken token
    then [DeleteFlow.Delete AdminListings.Authorized correctId]
    else match DeleteFlow.onDelete srv AdminListings.Public correctId with
         | Admin.Ok _ => [DeleteFlow.Delete AdminListings.Public correctId]
         | Admin.Failed _ =>
             [DeleteFlow.Delete AdminListings.Public correctId;
              DeleteFlow.Delete AdminListings.Plain correctId]
         end in
  (DeleteFlow.trace run = deletes ++ [DeleteFlow.GetProperties]
   /\ (exists route,
         In (DeleteFlow.Delete route correctId) deletes
         /\ exists r, DeleteFlow.onDelete srv route correctId = Admin.Ok r)
   /\ DeleteFlow.confirmDeleteId after = ""
   \/ DeleteFlow.trace run = deletes
      /\ (forall route, In (DeleteFlow.Delete route correctId) deletes ->
            exists e, DeleteFlow.onDelete srv route correctId = Admin.Failed e)
      /\ DeleteFlow.listings after = DeleteFlow.listings st
      /\ DeleteFlow.confirmDeleteId after = DeleteFlow.confirmDeleteId st
      /\ DeleteFlow.error after <> "")
  /\ forall route propertyId,
       In (DeleteFlow.Delete route propertyId) (DeleteFlow.trace run) ->
       propertyId = correctId.
Proof.
  intros run after correctId deletes. subst run after deletes.
  unfold DeleteFlow.deleteListing, DeleteFlow.sendDelete. fold correctId.
  destruct (AdminNewListing.hasToken token).
  - destruct (DeleteFlow.onDelete srv AdminListings.Authorized correctId)
      as [r|e] eqn:Hauth; simpl.
    + split; [left|].
      * split; [done|]. split; [|done].
        exists AdminListings.Authorized. split; [by left|by exists r].
      * intros route propertyId [[= _ ->]|[H|[]]]; [done|discriminate].
    + split; [right|].
      * split; [done|]. split.
        { intros route [[= <-]|[]]. by exists e. }
        split; [done|]. split; [done|]. apply deleteErrorMessage_shown.
      * by intros route propertyId [[= _ ->]|[]].
  - destruct (DeleteFlow.onDelete srv AdminListings.Public correctId)
      as [r|e] eqn:Hpub; simpl.
    + split; [left|].
      * split; [done|]. split; [|done].
        exists AdminListings.Public. split; [by left|by exists r].
      * intros route propertyId [[= _ ->]|[H|[]]]; [done|discriminate].
    + destruct (DeleteFlow.onDelete srv AdminListings.Plain correctId)
        as [r|e'] eqn:Hplain; simpl.
      * split; [left|].
        -- split; [done|]. split; [|done].
           exists AdminListings.Plain. split; [by right; left|by exists r].
        -- intros route propertyId [[= _ ->]|[[= _ ->]|[H|[]]]];
             [done|done|discriminate].
      * split; [right|].
        -- split; [done|]. split.
           { intros route [[= <-]|[[= <-]|[]]]; by eexists. }
           split; [done|]. split; [done|]. apply deleteErrorMessage_shown.
        -- by intros route propertyId [[= _ ->]|[[= _ ->]|[]]].
Qed.

(** The bound 10000 belongs to one bucket. *)
Lemma price_buckets_cover_witness :
  bucketsOf (Js.JsNum 10000) = ["₹10,000 - ₹20,000"].
Proof.
  destruct (price_buckets_cover 10000) as (_ & _ & H & _).
  apply H. reflexivity.
Defined.

(** ** The existing images of an edited listing *)

Lemma updateListing_images (Fields : Type) (token : option string)
    (srv : AdminListings.Server Fields) (st : AdminListings.State Fields) :
  EditImages.existingImages Fields st = [] ->
  let run := AdminListings.updateListing Fields token srv st in
  EditImages.existingImages Fields (AdminListings.stateAfter Fields run) = []
  /\ forall route propertyId payload,
       In (AdminListings.PutProperty Fields route propertyId payload)
         (AdminListings.trace Fields run) ->
       AdminListings.u_images Fields payload = []
       \/ exists files,
            AdminListings.onUpload Fields srv propertyId files
            = Admin.Ok (AdminListings.u_images Fields payload).
Proof.
  unfold EditImages.existingImages. intros Hexisting. cbv zeta.
  unfold AdminListings.updateListing.
  destruct (AdminListings.editingListing Fields st) as [listing|];
    [|split; [done|by intros ? ? ? []]].
  set (correctId := AdminListings.getCorrectId listing).
  rewrite Hexisting. cbn [app].
  pose proof (uploadStaged_cases Fields srv correctId
                (AdminListings.selectedImages Fields st)) as Hup.
  destruct (AdminListings.uploadStaged Fields srv correctId _)
    as [[uploaded err] reqs1].
  set (payload := {| AdminListings.u_fields := _; AdminListings.u_images := _ |}).
  pose proof (putUpdate_requests Fields srv (AdminNewListing.hasToken token)
                correctId payload) as [_ Hputs].
  destruct (AdminListings.putUpdate Fields srv _ correctId payload)
    as [answer reqs2]. cbn [snd] in Hputs.
  assert (Hputs' : forall route propertyId payload',
            In (AdminListings.PutProperty Fields route propertyId payload')
              (reqs1 ++ reqs2 ++ [AdminListings.GetProperties Fields]) ->
            propertyId = correctId /\ payload' = payload).
  { intros route propertyId payload' Hin.
    rewrite !in_app_iff in Hin. destruct Hin as [Hin|[Hin|Hin]].
    - destruct Hup as [(_ & _ & ->)|(_ & -> & _)]; [done|].
      by destruct Hin as [Hin|[]].
    - rewrite Forall_forall in Hputs. apply list_elem_of_In in Hin.
      by destruct (Hputs _ Hin) as [route' [= -> -> ->]].
    - by destruct Hin as [Hin|[]]. }
  assert (Hpayload : AdminListings.u_images Fields payload = []
            \/ exists files,
                 AdminListings.onUpload Fields srv correctId files
                 = Admin.Ok (AdminListings.u_images Fields payload)).
  { subst payload. simpl.
    destruct Hup as [(_ & -> & _)|(_ & _ & [H|[-> _]])]; eauto. }
  destruct answer as [[]|e]; simpl.
  - split; [done|]. intros route propertyId payload' Hin.
    by destruct (Hputs' _ _ _ Hin) as [-> ->].
  - split; [done|]. intros route propertyId payload' Hin.
    assert (Hin' : In (AdminListings.PutProperty Fields route propertyId payload')
                     (reqs1 ++ reqs2 ++ [AdminListings.GetProperties Fields])).
    { rewrite app_assoc. apply in_or_app. by left. }
    by destruct (Hputs' _ _ _ Hin') as [-> ->].
Qed.

Lemma onEvent_existing (Fields : Type) (st : AdminListings.State Fields)
    (e : EditImages.EditEvent) :
  EditImages.existingImages Fields st = [] ->
  EditImages.existingImages Fields (EditImages.onEvent Fields st e) = [].
Proof.
  unfold EditImages.existingImages. intros Hexisting.
  destruct e as [fresh files|imageId|imageUrl]; simpl.
  - unfold AdminListings.handleImageSelect.
    repeat match goal with
           | |- context [match ?x with _ => _ end] => destruct x
           | |- context [if ?x then _ else _] => destruct x
           end; simpl; exact Hexisting.
  - exact Hexisting.
  - unfold EditImages.existingImages. by rewrite Hexisting.
Qed.

(** The edit dialog never sends the images a listing already has.  In
    every state reached from the mounted page by opening the dialog,
    editing fields, selecting and removing images, cancelling and saving,
    the form's list of existing images is empty, so the dialog counts the
    staged images only; and the [images] of every PUT sent is either empty
    or the answer of one of the session's uploads for that listing. *)
Theorem existing_images_never_sent (Fields : Type)
    (formOf : AdminListings.Listing -> Fields)
    (events : list (EditSession.Event Fields)) :
  let st := fst (EditSession.session Fields formOf events) in
  let sent := snd (EditSession.session Fields formOf events) in
  EditImages.existingImages Fields st = []
  /\ EditImages.imageCount Fields st
     = length (AdminListings.selectedImages Fields st)
  /\ forall route propertyId payload,
       In (AdminListings.PutProperty Fields route propertyId payload) sent ->
       AdminListings.u_images Fields payload = []
       \/ exists token srv files,
            In (EditSession.Save Fields token srv) events
            /\ AdminListings.onUpload Fields srv propertyId files
               = Admin.Ok (AdminListings.u_images Fields payload).
Proof.
  set (Inv := fun acc : AdminListings.State Fields
                        * list (AdminListings.Request Fields) =>
          EditImages.existingImages Fields (fst acc) = []
          /\ forall route propertyId payload,
               In (AdminListings.PutProperty Fields route propertyId payload)
                 (snd acc) ->
               AdminListings.u_images Fields payload = []
               \/ exists token srv files,
                    In (EditSession.Save Fields token srv) events
                    /\ AdminListings.onUpload Fields srv propertyId files
                       = Admin.Ok (AdminListings.u_images Fields payload)).
  assert (Hfold : forall later acc,
            (forall e, In e later -> In e events) ->
            Inv acc -> Inv (foldl (EditSession.step Fields formOf) acc later)).
  { induction later as [|e later IH]; intros acc Hsub Hacc; [done|].
    simpl. apply IH; [intros e' He'; apply Hsub; by right|].
    assert (He : In e events) by (apply Hsub; by left).
    destruct acc as [st sent]. destruct Hacc as [Hexisting Hsent].
    cbn [fst snd] in Hexisting, Hsent.
    destruct e as [listing|change|e| |token srv]; simpl.
    - by split.
    - by split.
    - split; [by apply onEvent_existing|done].
    - by split.
    - destruct (updateListing_images Fields token srv st Hexisting)
        as [Hafter Hputs].
      split; [done|]. intros route propertyId payload Hin.
      apply in_app_iff in Hin as [Hin|Hin]; [by apply (Hsent route)|].
      destruct (Hputs _ _ _ Hin) as [Hnone|[files Hfiles]]; [by left|].
      right. by exists token, srv, files. }
  destruct (Hfold events (EditSession.initial Fields, []) (fun e He => He))
    as [Hexisting Hsent]; [by split|].
  intros st sent. subst st sent. unfold EditSession.session.
  split; [done|]. split; [|done].
  unfold EditImages.imageCount. by rewrite Hexisting.
Qed.

(** A session on the mapped sample listing: it is opened, a photo is
    staged and the form saved against a server that refuses the upload;
    the PUT carries no image, although the listing has some. *)
Lemma existing_images_never_sent_witness :
  let events :=
    [EditSession.StartEdit unit
       {| AdminListings.id := "68ce7ad275b8647ccef110ba";
          AdminListings.listingImages := ["/uploads/front.png"] |};
     EditSession.Image unit
       (EditImages.Select Examples.blobs [Examples.photo]);
     EditSession.Save unit None Examples.uploadDown] in
  let payload :=
    {| AdminListings.u_fields := Some tt; AdminListings.u_images := [] |} in
  In (AdminListings.PutProperty unit AdminListings.Public
        "22a9d63e-b0b7-449e-a757-43215814e82e" payload)
    (snd (EditSession.session unit (fun _ => tt) events))
  /\ (AdminListings.u_images unit payload = []
      \/ exists token srv files,
           In (EditSession.Save unit token srv) events
           /\ AdminListings.onUpload unit srv
                "22a9d63e-b0b7-449e-a757-43215814e82e" files
              = Admin.Ok (AdminListings.u_images unit payload)).
Proof.
  intros events payload.
  assert (Hin : In (AdminListings.PutProperty unit AdminListings.Public
                      "22a9d63e-b0b7-449e-a757-43215814e82e" payload)
                  (snd (EditSession.session unit (fun _ => tt) events))).
  { vm_compute. right. left. reflexivity. }
  split; [exact Hin|].
  destruct (existing_images_never_sent unit (fun _ => tt) events)
    as (_ & _ & Hsent).
  exact (Hsent _ _ _ Hin).
Defined.

(** A delete without a token against a server that refuses everything:
    both routes are tried, each for the mapped id of the sample listing. *)
Lemma delete_targets_mapped_id_witness :
  let srv :=
    {| DeleteFlow.onDelete := fun _ _ => Admin.Failed Examples.networkError;
       DeleteFlow.onList := Admin.Ok [] |} in
  let st :=
    {| DeleteFlow.listings := [Examples.editedListing];
       DeleteFlow.loading := false; DeleteFlow.error := "";
       DeleteFlow.confirmDeleteId := "68ce7ad275b8647ccef110ba" |} in
  let run := DeleteFlow.deleteListing None srv Examples.editedListing st in
  DeleteFlow.trace run
  = [DeleteFlow.Delete AdminListings.Public
       "22a9d63e-b0b7-449e-a757-43215814e82e";
     DeleteFlow.Delete AdminListings.Plain
       "22a9d63e-b0b7-449e-a757-43215814e82e"]
  /\ DeleteFlow.error (DeleteFlow.stateAfter run) <> "".
Proof.
  intros srv st run.
  destruct (delete_targets_mapped_id None srv Examples.editedListing st)
    as [[(Htrace & _)|(Htrace & _ & _ & _ & Herr)] _].
  - vm_compute in Htrace. discriminate Htrace.
  - split; [exact Htrace|exact Herr].
Defined.

(** * The components against the specification *)

(** ** The pipeline against the specified rules *)

Lemma toLowerCase_truthy (s : string) :
  Js.truthy (Js.toLowerCase s) = Js.truthy s.
Proof. by destruct s. Qed.

Lemma price_rule_agrees (Number : string -> Js.JsNumber)
    (fs : Listings.Filters) (it : Listings.Property) :
  Listings.priceRange fs = "" \/ In (Listings.priceRange fs) Listings.PRICE_RANGES ->
  FilterRules.hasNumberPrice it = true ->
  Listings.facetHolds Number Listings.FPriceRange fs it
  = negb (Js.truthy (Listings.priceRange fs))
    || FilterRules.priceRule (Listings.priceRange fs) it.
Proof.
  unfold FilterRules.hasNumberPrice, FilterRules.priceRule, FilterRules.priceOf,
    Listings.facetHolds, Listings.numericPrice.
  intros Hlabel Hprice.
  destruct (Listings.price it) as [[q|]| |]; try discriminate.
  - destruct Hlabel as [->|Hlabel]; [done|].
    repeat (destruct Hlabel as [<-|Hlabel]; [reflexivity|]). destruct Hlabel.
  - destruct Hlabel as [->|Hlabel]; [done|].
    repeat (destruct Hlabel as [<-|Hlabel]; [reflexivity|]). destruct Hlabel.
Qed.

Lemma roomType_rule_agrees (Number : string -> Js.JsNumber)
    (fs : Listings.Filters) (it : Listings.Property) :
  Listings.roomType fs = "" \/ In (Listings.roomType fs) Listings.UI_ROOM_TYPES ->
  Listings.facetHolds Number Listings.FRoomType fs it
  = negb (Js.truthy (Listings.roomType fs))
    || FilterRules.roomTypeRule (Listings.roomType fs) it.
Proof.
  unfold FilterRules.roomTypeRule, Listings.facetHolds, Listings.roomTypeCallback.
  intros [->|Hword]; [done|].
  repeat (destruct Hword as [<-|Hword];
          [by destruct (Listings.property_type it)|]).
  destruct Hword.
Qed.

Lemma guard_trimmed (v : string) :
  Js.trim v = v -> Js.truthy v && Js.truthy (Js.trim v) = Js.truthy v.
Proof. intros ->. by destruct (Js.truthy v). Qed.

Lemma includes_empty_text (t : string) :
  Js.truthy t = true -> Js.includes "" t = false.
Proof. by destruct t. Qed.

Lemma location_rule_agrees (Number : string -> Js.JsNumber)
    (fs : Listings.Filters) (it : Listings.Property) :
  Js.trim (Listings.location fs) = Listings.location fs ->
  Listings.facetHolds Number Listings.FLocation fs it
  = negb (Js.truthy (Listings.location fs))
    || FilterRules.locationRule (Listings.location fs) it.
Proof.
  intros Htrim. unfold Listings.facetHolds. rewrite (guard_trimmed _ Htrim), Htrim.
  destruct (Js.truthy (Listings.location fs)) eqn:Hv; [|done]. simpl.
  unfold Listings.locationCallback, Listings.cityOf, FilterRules.locationRule.
  destruct (Listings.address it) as [[[c|]]|]; simpl; [done| |];
    apply includes_empty_text; by rewrite toLowerCase_truthy.
Qed.

Lemma restrictions_rule_agrees (Number : string -> Js.JsNumber)
    (fs : Listings.Filters) (it : Listings.Property) :
  Js.trim (Listings.restrictions fs) = Listings.restrictions fs ->
  Listings.facetHolds Number Listings.FRestrictions fs it
  = negb (Js.truthy (Listings.restrictions fs))
    || FilterRules.restrictionsRule (Listings.restrictions fs) it.
Proof.
  intros Htrim. unfold Listings.facetHolds. rewrite (guard_trimmed _ Htrim), Htrim.
  by destruct (Js.truthy (Listings.restrictions fs)).
Qed.

(** The pipeline against the rules: the four facets other than nearby are
    filtered by their rules, the nearby facet by the callback of its
    stage. *)
Lemma pipeline_by_rules (Number : string -> Js.JsNumber)
    (fs : Listings.Filters) (it : Listings.Property) :
  FilterRules.offered fs ->
  FilterRules.hasNumberPrice it = true ->
  forallb (fun k => Listings.facetHolds Number k fs it) Listings.allFacets
  = FilterRules.matchesAll (Listings.setFacet Listings.FNearby "" fs) it
    && Listings.facetHolds Number Listings.FNearby fs it.
Proof.
  intros (Hprice & Hroom & Hloc & Hnear & Hrestr) Hnum.
  unfold FilterRules.matchesAll. cbn [forallb Listings.allFacets].
  rewrite (price_rule_agrees Number fs it Hprice Hnum),
    (roomType_rule_agrees Number fs it Hroom),
    (location_rule_agrees Number fs it Hloc),
    (restrictions_rule_agrees Number fs it Hrestr).
  cbn [Listings.facetValue Listings.setFacet Listings.nearby Listings.location
       Listings.priceRange Listings.roomType Listings.restrictions
       FilterRules.rule Js.truthy negb orb].
  by rewrite !andb_true_r, !andb_assoc.
Qed.

(** C1 fails on the code through the nearby facet.  For the filter sets the
    dropdowns can produce and properties whose price is a number, the
    pipeline is a conjunction: it keeps, in order, the properties that
    satisfy the specified rule of every non-empty facet among price, room
    type, location and restrictions, and the callback of the nearby stage;
    so it keeps every property the contract asks for and, with the nearby
    facet empty, exactly those.  With the nearby value [NE], which the
    catalog offers for the two sample properties, the contract asks for the
    property tagged [Nearby: NE] alone, and the code also returns the one
    tagged [Nearby: Metro Station]. *)
Theorem filteredListings_against_rules (Number : string -> Js.JsNumber) :
  (forall (fs : Listings.Filters) (l : list Listings.Property),
     FilterRules.offered fs ->
     Forall (fun it => FilterRules.hasNumberPrice it = true) l ->
     Listings.filteredListings Number fs l
     = List.filter
         (fun it =>
            FilterRules.matchesAll (Listings.setFacet Listings.FNearby "" fs) it
            && Listings.facetHolds Number Listings.FNearby fs it) l
     /\ (forall it, In it (FilterRules.expected fs l) ->
           In it (Listings.filteredListings Number fs l))
     /\ (Listings.nearby fs = "" ->
         Listings.filteredListings Number fs l = FilterRules.expected fs l))
  /\ (let dataset := [Examples.metroFlat; Examples.cornerRoom] in
      FilterRules.offered Examples.nearbyNE
      /\ Forall (fun it => FilterRules.hasNumberPrice it = true) dataset
      /\ In "NE" (Listings.nearbyOptions (Listings.buildCatalogs dataset))
      /\ FilterRules.expected Examples.nearbyNE dataset = [Examples.cornerRoom]
      /\ Listings.filteredListings Number Examples.nearbyNE dataset = dataset).
Proof.
  split.
  - intros fs l Hfs Hl.
    assert (Hcode : Listings.filteredListings Number fs l
              = List.filter
                  (fun it =>
                     FilterRules.matchesAll
                       (Listings.setFacet Listings.FNearby "" fs) it
                     && Listings.facetHolds Number Listings.FNearby fs it) l).
    { rewrite filteredListings_filter. apply filter_ext_in. intros it Hin.
      apply pipeline_by_rules; [done|].
      rewrite Forall_forall in Hl. apply Hl. by apply list_elem_of_In. }
    assert (Hsplit : forall it,
              FilterRules.matchesAll fs it
              = FilterRules.matchesAll
                  (Listings.setFacet Listings.FNearby "" fs) it
                && (negb (Js.truthy (Listings.nearby fs))
                    || Listings.nearbyMatches (Listings.nearby fs) it)).
    { intros it. unfold FilterRules.matchesAll.
      cbn [forallb Listings.allFacets Listings.facetValue Listings.setFacet
           Listings.nearby Listings.location Listings.priceRange
           Listings.roomType Listings.restrictions FilterRules.rule
           Js.truthy negb orb].
      by rewrite !andb_true_r, !andb_assoc. }
    split; [exact Hcode|]. split.
    + intros it. unfold FilterRules.expected. rewrite Hcode, !filter_In, Hsplit.
      intros [Hin Hm]. split; [done|].
      apply andb_true_iff in Hm as [Hrest Hnear]. apply andb_true_iff.
      split; [done|]. destruct Hfs as (_ & _ & _ & Htrim & _).
      unfold Listings.facetHolds. rewrite (guard_trimmed _ Htrim).
      destruct (Js.truthy (Listings.nearby fs)); [|done]. simpl in Hnear.
      by apply nearbyMatches_kept.
    + intros Hnone. rewrite Hcode. unfold FilterRules.expected.
      apply filter_ext. intros it.
      rewrite Hsplit, Hnone, (facetHolds_empty Number Listings.FNearby fs it Hnone).
      done.
  - cbv zeta. split; [by refine (conj (or_introl eq_refl) (conj (or_introl eq_refl) (conj eq_refl (conj eq_refl eq_refl))))|].
    split; [by repeat constructor|].
    split; [vm_compute; right; by left|]. split; reflexivity.
Qed.

(** The agreement at work on a filter set without nearby value: the city
    and the room type together keep the flat, the city alone the flat and
    the house. *)
Lemma filteredListings_against_rules_witness :
  let dataset := [Examples.metroFlat; Examples.airportHouse; Examples.cornerRoom] in
  Listings.filteredListings Examples.decimalNumber Examples.jaipurApartments
    dataset
  = FilterRules.expected Examples.jaipurApartments dataset
  /\ FilterRules.expected Examples.jaipurApartments dataset
     = [Examples.metroFlat; Examples.cornerRoom]
  /\ FilterRules.expected Examples.jaipurOnly dataset = dataset.
Proof.
  intros dataset.
  destruct (filteredListings_against_rules Examples.decimalNumber) as [Hrules _].
  destruct (Hrules Examples.jaipurApartments dataset) as (_ & _ & Hsame).
  - refine (conj (or_introl eq_refl) (conj (or_intror _) (conj eq_refl (conj eq_refl eq_refl)))).
    by left.
  - by repeat constructor.
  - split; [by apply Hsame|]. split; reflexivity.
Defined.

(** ** Phone numbers with a country code *)

(** C4 fails on the code: the validator accepts exactly the strings that
    hold ten digits, so a number written with its country code is turned
    away.  Whenever the modal would otherwise send the inquiry and the
    trimmed phone holds eleven to thirteen digits, nothing is sent and the
    error shown is the text that announces ten to thirteen digits as valid.
    [+91-9876543210] holds the twelve digits [919876543210]. *)
Theorem country_code_phone_rejected (Number : string -> Js.JsNumber)
    (env : Listings.SubmitEnv) (st : Listings.ContactState)
    (storage : gmap string string) (listing : Listings.Property) :
  Listings.contactListing st = Some listing ->
  Listings.rateLimited (Listings.now env) (Listings.lastSubmit Number storage)
  = None ->
  Js.trim (Listings.name (Listings.contactForm st)) <> "" ->
  Js.trim (Listings.email (Listings.contactForm st)) <> "" ->
  (11 <= Listings.countDigits (Js.trim (Listings.phone (Listings.contactForm st)))
   <= 13)%nat ->
  let result := Listings.submitContact Number env st storage in
  Listings.isValidPhone (Js.trim (Listings.phone (Listings.contactForm st)))
  = false
  /\ Listings.sent result = []
  /\ Listings.storageAfter result = storage
  /\ Listings.contactError (Listings.stateAfter result)
     = "Please enter a valid contact number (10-13 digits)."
  /\ Js.stripNonDigits "+91-9876543210" = "919876543210"
  /\ Listings.isValidPhone "9876543210" = true
  /\ Listings.isValidPhone "987654321" = false.
Proof.
  intros Hlisting Hrate Hname Hemail Hdigits.
  assert (Hinvalid : Listings.isValidPhone
                       (Js.trim (Listings.phone (Listings.contactForm st)))
                     = false).
  { unfold Listings.isValidPhone.
    rewrite orElse_empty, length_stripNonDigits. apply Nat.eqb_neq.
    clear - Hdigits. lia. }
  assert (Hphone : Js.truthy (Js.trim (Listings.phone (Listings.contactForm st)))
                   = true).
  { clear - Hdigits. destruct (Js.trim _); [simpl in Hdigits; lia|done]. }
  cbv zeta. split; [exact Hinvalid|].
  unfold Listings.submitContact. rewrite Hlisting, Hrate, Hinvalid, Hphone.
  destruct (Js.trim (Listings.name _)); [done|].
  destruct (Js.trim (Listings.email _)); [done|].
  by repeat split.
Qed.

(** C4 at the number of the specification: the complete sample inquiry
    with the phone [+91-9876543210] is not sent. *)
Lemma country_code_phone_rejected_witness :
  let result :=
    Listings.submitContact Examples.decimalNumber (Examples.serverUp 5000000)
      Scenarios.countryCodeInquiry ∅ in
  Listings.sent result = []
  /\ Listings.contactError (Listings.stateAfter result)
     = "Please enter a valid contact number (10-13 digits).".
Proof.
  destruct (country_code_phone_rejected Examples.decimalNumber
              (Examples.serverUp 5000000) Scenarios.countryCodeInquiry ∅
              Examples.metroFlat)
    as (_ & Hsent & _ & Herror & _).
  - reflexivity.
  - reflexivity.
  - discriminate.
  - discriminate.
  - vm_compute. lia.
  - split; [exact Hsent|exact Herror].
Defined.

(** ** The count check of the edit form *)

(** C5 fails on the code of the edit form: the count check adds the files
    selected, the staged images and [editForm.images], and [startEdit]
    builds the form without the images of the listing.  So, once a listing
    is opened for editing, a batch of at most ten acceptable files is
    staged whole and without any message, however many images the listing
    has: the sample listing has ten, ten more are accepted, and saving
    uploads all ten. *)
Theorem edit_form_count_ignores_listing_images (Fields : Type)
    (formOf : AdminListings.Listing -> Fields) (fresh : Admin.Fresh) :
  (forall (listing : AdminListings.Listing) (files : list Admin.File)
          (st : AdminListings.State Fields),
     (length files <= 10)%nat ->
     Forall (fun f => Admin.acceptable f = true) files ->
     let opened := EditSession.startEdit Fields formOf listing st in
     let selected := AdminListings.handleImageSelect Fields fresh files opened in
     AdminListings.selectedImages Fields selected = Admin.stage fresh files
     /\ AdminListings.imageError Fields selected = ""
     /\ forall token srv,
          files <> [] ->
          In (AdminListings.UploadImages Fields
                (AdminListings.getCorrectId listing) files)
            (AdminListings.trace Fields
               (AdminListings.updateListing Fields token srv selected)))
  /\ (let files := replicate 10 Examples.photo in
      let selected :=
        AdminListings.handleImageSelect Fields fresh files
          (EditSession.startEdit Fields formOf Scenarios.fullListing
             (EditSession.initial Fields)) in
      length (AdminListings.listingImages Scenarios.fullListing) = 10%nat
      /\ length (AdminListings.selectedImages Fields selected) = 10%nat
      /\ AdminListings.imageError Fields selected <> Admin.countMessage).
Proof.
  assert (Hgeneral : forall (listing : AdminListings.Listing)
                            (files : list Admin.File)
                            (st : AdminListings.State Fields),
            (length files <= 10)%nat ->
            Forall (fun f => Admin.acceptable f = true) files ->
            let opened := EditSession.startEdit Fields formOf listing st in
            let selected :=
              AdminListings.handleImageSelect Fields fresh files opened in
            AdminListings.selectedImages Fields selected = Admin.stage fresh files
            /\ AdminListings.imageError Fields selected = "").
  { intros listing files st Hcount Hfiles. cbv zeta.
    unfold AdminListings.handleImageSelect, EditSession.startEdit.
    cbn [AdminListings.editForm AdminListings.images AdminListings.selectedImages
         default length].
    rewrite (firstViolation_none files Hfiles).
    replace (Admin.MAX_IMAGES <? length files + 0 + 0)%nat with false; [done|].
    symmetry. apply Nat.ltb_ge. unfold Admin.MAX_IMAGES. lia. }
  split.
  - intros listing files st Hcount Hfiles opened selected.
    assert (Hstaged : AdminListings.selectedImages Fields selected
                      = Admin.stage fresh files)
      by apply (Hgeneral listing files st Hcount Hfiles).
    assert (Herror : AdminListings.imageError Fields selected = "")
      by apply (Hgeneral listing files st Hcount Hfiles).
    assert (Hedit : AdminListings.editingListing Fields selected = Some listing).
    { subst selected opened.
      unfold AdminListings.handleImageSelect.
      by repeat match goal with
                | |- context [if ?x then _ else _] => destruct x
                | |- context [match ?x with _ => _ end] => destruct x
                end. }
    clearbody selected. clear opened.
    split; [exact Hstaged|]. split; [exact Herror|].
    intros token srv Hsome.
    unfold AdminListings.updateListing. rewrite Hedit, Hstaged.
    unfold AdminListings.uploadStaged, AdminListings.uploadImages.
    destruct (Admin.stage fresh files) as [|img staged] eqn:Hstage.
    { apply (f_equal length) in Hstage. rewrite length_stage in Hstage.
      by destruct files. }
    rewrite <- Hstage, map_file_stage.
    destruct (AdminListings.onUpload Fields srv _ files);
      destruct (AdminListings.putUpdate Fields srv _ _ _) as [[[]|e2] reqs];
      simpl; by left.
  - cbv zeta.
    destruct (Hgeneral Scenarios.fullListing (replicate 10 Examples.photo)
                (EditSession.initial Fields)) as [Hstaged Herror].
    + done.
    + by repeat constructor.
    + split; [reflexivity|]. rewrite Hstaged, Herror, length_stage.
      by split.
Qed.

(** ** The options the filter bar shows *)

(** C8 (as amended): the Location and the Nearby dropdown show the catalogs
    the mount effect computed from the answer to the unfiltered request
    (the non-empty cities, and the trimmed values of the nearby tags), and
    no later event (a change of any filter, clearing the filters, a
    listings answer, a page change) alters what any of the five dropdowns
    shows or starts a catalog request.  The Room Type, Restrictions and
    Price dropdowns show their fixed lists in every state: the type and
    feature catalogs computed by the same effect are not displayed. *)
Theorem shown_options_sources (st : Listings.PageState) :
  (forall r es,
     r <> Listings.RespFailed ->
     forallb Listings.afterCatalogs es = true ->
     let browsing :=
       Listings.run (Listings.Mounted :: Listings.CatalogsLoaded r :: es) st in
     FilterBar.shownOptions Listings.FLocation browsing
     = Listings.buildLocations (Listings.arrayOf r)
     /\ FilterBar.shownOptions Listings.FNearby browsing
        = Listings.buildNearby (Listings.arrayOf r))
  /\ (forall es k,
        forallb Listings.afterCatalogs es = true ->
        FilterBar.shownOptions k (Listings.run es st)
        = FilterBar.shownOptions k st)
  /\ (forall s : Listings.PageState,
        FilterBar.shownOptions Listings.FRoomType s = ["Apartment"; "House"; "Condo"]
        /\ FilterBar.shownOptions Listings.FRestrictions s
           = ["Only Boys"; "Only Girls"; "Family"; "Working Professionals";
              "Students"]
        /\ FilterBar.shownOptions Listings.FPriceRange s = Listings.PRICE_RANGES)
  /\ (forall e, Listings.isFilterEvent e = true ->
        Listings.afterCatalogs e = true
        /\ ~ In Listings.GetAllForCatalogs (Listings.requests e st))
  /\ (forall arr x,
        (In x (Listings.buildLocations arr)
         <-> x <> "" /\ exists it, In it arr /\ Listings.cityOf it = x)
        /\ (In x (Listings.buildNearby arr)
            <-> x <> ""
                /\ exists it fl f,
                     In it arr /\ Listings.features it = Some fl /\ In f fl
                     /\ Listings.isNearbyTag f = true
                     /\ x = Js.trim (Listings.afterFirstColon f))).
Proof.
  refine (conj _ (conj _ (conj _ (conj _ _)))).
  - intros r es Hr Hes browsing. subst browsing.
    change (Listings.run (Listings.Mounted :: Listings.CatalogsLoaded r :: es) st)
      with (Listings.run es
              (Listings.step (Listings.CatalogsLoaded r)
                 (Listings.step Listings.Mounted st))).
    unfold FilterBar.shownOptions. rewrite (catalogs_run _ _ Hes).
    by destruct r.
  - intros es k Hes. unfold FilterBar.shownOptions.
    rewrite (catalogs_run _ _ Hes). by destruct k.
  - by intros s.
  - intros e He. destruct e as [|r|k v| |r|p]; try done; simpl.
    + split; [done|]. unfold Listings.refetch.
      destruct (Listings.filtersEqb _ _); simpl; intuition discriminate.
    + split; [done|]. unfold Listings.refetch.
      destruct (Listings.filtersEqb _ _); simpl; intuition discriminate.
  - intros arr x. unfold Listings.buildLocations, Listings.buildNearby.
    rewrite !In_options, !in_map_iff. split.
    + split.
      * intros [(it & <- & Hin) Hne]. split; [done|]. by exists it.
      * intros [Hne (it & Hin & <-)]. split; [|done]. by exists it.
    + split.
      * intros [(f & <- & Hf) Hne]. split; [done|].
        apply filter_In in Hf as [Hf Htag].
        apply In_featuresRaw in Hf as (it & fl & Hin & Hfl & Hf).
        by exists it, fl, f.
      * intros [Hne (it & fl & f & Hin & Hfl & Hf & Htag & ->)].
        split; [|done]. exists f. split; [done|].
        apply filter_In. split; [|done]. apply In_featuresRaw. by exists it, fl.
Qed.

(** C8 at work: the cities and nearby values loaded from the three sample
    properties are still shown after the visitor chose a city, received the
    filtered listings and chose a room type. *)
Lemma shown_options_sources_witness :
  let browsing :=
    Listings.run
      [ Listings.Mounted;
        Listings.CatalogsLoaded (Listings.RespArray Examples.sampleListings);
        Listings.FilterChanged Listings.FLocation "Jaipur";
        Listings.ListingsLoaded
          (Listings.RespArray [Examples.metroFlat; Examples.airportHouse]);
        Listings.FilterChanged Listings.FRoomType "Apartment" ]
      Listings.initialPage in
  FilterBar.shownOptions Listings.FLocation browsing = ["Jaipur"; "Jodhpur"]
  /\ FilterBar.shownOptions Listings.FNearby browsing
     = ["Airport"; "Metro Station"].
Proof.
  destruct (shown_options_sources Listings.initialPage) as (Hshown & _).
  destruct (Hshown (Listings.RespArray Examples.sampleListings)
              [ Listings.FilterChanged Listings.FLocation "Jaipur";
                Listings.ListingsLoaded
                  (Listings.RespArray [Examples.metroFlat; Examples.airportHouse]);
                Listings.FilterChanged Listings.FRoomType "Apartment" ])
    as [Hlocation Hnearby].
  - discriminate.
  - reflexivity.
  - split; [exact Hlocation|exact Hnearby].
Defined.

(** C8 (as stated) fails for the type and feature catalogs: loaded from a
    dataset whose only property is a townhouse that allows pets, they hold
    [townhouse] and [Pets allowed], and neither value is among the options
    the Room Type and Restrictions dropdowns show. *)
Lemma type_catalog_not_shown :
  let loaded :=
    Listings.run
      [ Listings.Mounted;
        Listings.CatalogsLoaded (Listings.RespArray [Scenarios.townhouse]) ]
      Listings.initialPage in
  Listings.typeOptions (Listings.catalogs loaded) = ["townhouse"]
  /\ Listings.featureOptions (Listings.catalogs loaded) = ["Pets allowed"]
  /\ ~ In "townhouse" (FilterBar.shownOptions Listings.FRoomType loaded)
  /\ ~ In "Pets allowed" (FilterBar.shownOptions Listings.FRestrictions loaded)
  /\ FilterBar.shownOptions Listings.FRoomType loaded
     = FilterBar.shownOptions Listings.FRoomType Listings.initialPage.
Proof.
  cbv zeta. split; [reflexivity|]. split; [reflexivity|].
  split; [|split; [|reflexivity]]; simpl; intuition discriminate.
Qed.

(** ** Staged images of the edit dialog *)

Lemma edit_event_count (Fields : Type) (e : EditImages.EditEvent)
    (st : AdminListings.State Fields) :
  (EditImages.imageCount Fields st <= 10)%nat ->
  (EditImages.imageCount Fields (EditImages.onEvent Fields st e) <= 10)%nat.
Proof.
  intros Hst. destruct e as [fresh files|imageId|imageUrl]; simpl.
  - by apply edit_select_count.
  - etrans; [|exact Hst].
    unfold EditImages.imageCount, EditImages.existingImages. simpl.
    apply Nat.add_le_mono_l, length_filter_le.
  - etrans; [|exact Hst].
    unfold EditImages.imageCount, EditImages.existingImages. simpl.
    apply Nat.add_le_mono_r, length_filter_le.
Qed.

Lemma updateListing_count (Fields : Type) (token : option string)
    (srv : AdminListings.Server Fields) (st : AdminListings.State Fields) :
  (EditImages.imageCount Fields st <= 10)%nat ->
  (EditImages.imageCount Fields
     (AdminListings.stateAfter Fields
        (AdminListings.updateListing Fields token srv st)) <= 10)%nat.
Proof.
  intros Hst. unfold AdminListings.updateListing.
  destruct (AdminListings.editingListing Fields st) as [listing|]; [|done].
  destruct (AdminListings.uploadStaged Fields srv _ _) as [[uploaded err] reqs1].
  destruct (AdminListings.putUpdate Fields srv _ _ _) as [[[]|e] reqs2].
  - unfold EditImages.imageCount, EditImages.existingImages. simpl. lia.
  - exact Hst.
Qed.

Lemma updateListing_upload_files (Fields : Type) (token : option string)
    (srv : AdminListings.Server Fields) (st : AdminListings.State Fields)
    (propertyId : string) (files : list Admin.File) :
  In (AdminListings.UploadImages Fields propertyId files)
    (AdminListings.trace Fields
       (AdminListings.updateListing Fields token srv st)) ->
  files = List.map Admin.file (AdminListings.selectedImages Fields st)
  /\ AdminListings.selectedImages Fields st <> [].
Proof.
  unfold AdminListings.updateListing.
  destruct (AdminListings.editingListing Fields st) as [listing|]; [|done].
  set (correctId := AdminListings.getCorrectId listing).
  pose proof (uploadStaged_cases Fields srv correctId
                (AdminListings.selectedImages Fields st)) as Hup.
  destruct (AdminListings.uploadStaged Fields srv correctId _)
    as [[uploaded err] reqs1].
  set (payload := {| AdminListings.u_fields := _; AdminListings.u_images := _ |}).
  pose proof (putUpdate_requests Fields srv (AdminNewListing.hasToken token)
                correctId payload) as [_ Hputs].
  destruct (AdminListings.putUpdate Fields srv _ correctId payload)
    as [answer reqs2]. cbn [snd] in Hputs.
  intros Hin.
  assert (Hin' : In (AdminListings.UploadImages Fields propertyId files)
                   (reqs1 ++ reqs2 ++ [AdminListings.GetProperties Fields])).
  { destruct answer as [[]|e]; simpl in Hin; [done|].
    rewrite app_assoc. apply in_or_app. by left. }
  clear Hin. rewrite !in_app_iff in Hin'. destruct Hin' as [Hin|[Hin|Hin]].
  - destruct Hup as [(_ & _ & ->)|(Hsome & -> & _)]; [done|].
    destruct Hin as [[= _ <-]|[]]. done.
  - rewrite Forall_forall in Hputs. apply list_elem_of_In in Hin.
    by destruct (Hputs _ Hin) as [route Hr].
  - by destruct Hin as [Hin|[]].
Qed.

(** On the edit dialog the staged images never exceed ten: in every state
    reached from the mounted page by opening the dialog, editing fields,
    selecting and removing images, cancelling and saving, at most ten
    images are staged, and an upload request of a save carries exactly the
    staged files, hence at most ten.  (The images the listing already has
    are not part of the count.) *)
Theorem edit_images_bounded (Fields : Type)
    (formOf : AdminListings.Listing -> Fields)
    (events : list (EditSession.Event Fields)) :
  let st := fst (EditSession.session Fields formOf events) in
  (length (AdminListings.selectedImages Fields st) <= 10)%nat
  /\ forall token srv propertyId files,
       In (AdminListings.UploadImages Fields propertyId files)
         (AdminListings.trace Fields
            (AdminListings.updateListing Fields token srv st)) ->
       files = List.map Admin.file (AdminListings.selectedImages Fields st)
       /\ (1 <= length files <= 10)%nat.
Proof.
  assert (Hfold : forall later acc,
            (EditImages.imageCount Fields (fst acc) <= 10)%nat ->
            (EditImages.imageCount Fields
               (fst (foldl (EditSession.step Fields formOf) acc later))
             <= 10)%nat).
  { induction later as [|e later IH]; intros [st sent] Hacc; [done|].
    simpl. apply IH. cbn [fst] in Hacc.
    destruct e as [listing|change|e| |token srv]; cbn [fst].
    - unfold EditImages.imageCount, EditImages.existingImages. simpl. lia.
    - exact Hacc.
    - by apply edit_event_count.
    - exact Hacc.
    - by apply updateListing_count. }
  intros st.
  assert (Hcount : (EditImages.imageCount Fields st <= 10)%nat).
  { apply Hfold. unfold EditImages.imageCount, EditImages.existingImages.
    simpl. lia. }
  assert (Hstaged : (length (AdminListings.selectedImages Fields st) <= 10)%nat).
  { unfold EditImages.imageCount in Hcount. lia. }
  clearbody st. split; [exact Hstaged|].
  intros token srv propertyId files Hin.
  apply updateListing_upload_files in Hin as [-> Hsome].
  split; [done|]. rewrite length_map.
  destruct (AdminListings.selectedImages Fields st); [done|]. simpl in *. lia.
Qed.

(** The bound at work: a listing is opened, eleven photos are refused,
    two are staged, one of them is removed. *)
Lemma edit_images_bounded_witness :
  let events :=
    [ EditSession.StartEdit unit Scenarios.fullListing;
      EditSession.Image unit
        (EditImages.Select Examples.blobs (replicate 11 Examples.photo));
      EditSession.Image unit
        (EditImages.Select Examples.blobs [Examples.photo; Examples.photo]);
      EditSession.Image unit (EditImages.RemoveNew "0") ] in
  let st := fst (EditSession.session unit (fun _ => tt) events) in
  length (AdminListings.selectedImages unit st) = 1%nat
  /\ (length (AdminListings.selectedImages unit st) <= 10)%nat.
Proof.
  intros events st. split; [reflexivity|].
  apply (edit_images_bounded unit (fun _ => tt) events).
Defined.

(** ** The protocol of a save *)

Lemma updateErrorMessage_shown (e : Admin.ApiError) :
  AdminListings.updateErrorMessage e <> "".
Proof.
  unfold AdminListings.updateErrorMessage.
  destruct (Js.truthy (Admin.detail e)) eqn:Hd; [by destruct (Admin.detail e)|].
  destruct (Js.truthy (Admin.dataMessage e)) eqn:Hm;
    [by destruct (Admin.dataMessage e)|].
  destruct (Admin.statusIs e 404); [done|].
  destruct (Admin.statusIs e 401 || Admin.statusIs e 403); [done|].
  destruct (Admin.statusIs e 422); [done|].
  destruct (Js.truthy (Admin.errMessage e)) eqn:He; [|done].
  by destruct (Admin.errMessage e).
Qed.

(** Saving an edit always sends the record, whatever happened to the
    images.  The staged files, if any, are uploaded first, in one request
    for the mapped id; then the record is PUT to the mapped id, with a
    token in a single authorized request, without one on the public route
    and, only after that failed, on the plain route.  Every PUT carries the
    fields of the form and, as images, the retained existing images
    followed by exactly the URLs the upload answered (none when nothing was
    staged or the upload failed).  When a PUT succeeded the list is
    reloaded, the dialog is closed and emptied and the previews are
    released; when none did, nothing else is sent, the dialog stays open
    with its form and its staged images, nothing is released and a
    non-empty error is shown. *)
Theorem update_always_sends_record (Fields : Type) (token : option string)
    (srv : AdminListings.Server Fields) (st : AdminListings.State Fields)
    (listing : AdminListings.Listing) :
  AdminListings.editingListing Fields st = Some listing ->
  let run := AdminListings.updateListing Fields token srv st in
  let after := AdminListings.stateAfter Fields run in
  let correctId := AdminListings.getCorrectId listing in
  let staged := AdminListings.selectedImages Fields st in
  let files := List.map Admin.file staged in
  let existing :=
    default [] (AdminListings.images Fields (AdminListings.editForm Fields st)) in
  let uploads :=
    match staged with
    | [] => []
    | _ => [AdminListings.UploadImages Fields correctId files]
    end in
  let uploaded :=
    match staged with
    | [] => []
    | _ =>
        match AdminListings.onUpload Fields srv correctId files with
        | Admin.Ok urls => urls
        | Admin.Failed _ => []
        end
    end in
  let payload :=
    {| AdminListings.u_fields :=
         AdminListings.fields Fields (AdminListings.editForm Fields st);
       AdminListings.u_images := existing ++ uploaded |} in
  let put route := AdminListings.PutProperty Fields route correctId payload in
  let puts :=
    if AdminNewListing.hasToken token then [put AdminListings.Authorized]
    else match AdminListings.onPut Fields srv AdminListings.Public correctId
                 payload with
         | Admin.Ok _ => [put AdminListings.Public]
         | Admin.Failed _ => [put AdminListings.Public; put AdminListings.Plain]
         end in
  AdminListings.trace Fields run
  = uploads ++ puts ++ [AdminListings.GetProperties Fields]
  /\ (exists route,
        In (put route) puts
        /\ exists r, AdminListings.onPut Fields srv route correctId payload
                     = Admin.Ok r)
  /\ AdminListings.editingListing Fields after = None
  /\ AdminListings.editForm Fields after = AdminListings.emptyForm Fields
  /\ AdminListings.selectedImages Fields after = []
  /\ AdminListings.revoked Fields run
     = List.map Admin.preview
         (List.filter (fun img => Js.truthy (Admin.preview img)) staged)
  \/ AdminListings.trace Fields run = uploads ++ puts
     /\ (forall route,
           In (put route) puts ->
           exists e, AdminListings.onPut Fields srv route correctId payload
                     = Admin.Failed e)
     /\ AdminListings.editingListing Fields after = Some listing
     /\ AdminListings.editForm Fields after = AdminListings.editForm Fields st
     /\ AdminListings.selectedImages Fields after = staged
     /\ AdminListings.revoked Fields run = []
     /\ AdminListings.error Fields after <> "".
Proof.
  intros Hedit. cbv zeta.
  unfold AdminListings.updateListing. rewrite Hedit.
  set (correctId := AdminListings.getCorrectId listing).
  set (staged := AdminListings.selectedImages Fields st).
  unfold AdminListings.uploadStaged, AdminListings.uploadImages,
    AdminListings.putUpdate.
  destruct staged as [|img staged'] eqn:Hstaged.
  - cbn [app]. rewrite app_nil_r.
    destruct (AdminNewListing.hasToken token).
    + destruct (AdminListings.onPut Fields srv AdminListings.Authorized _ _)
        as [r|e] eqn:Hput; simpl.
      * left. split; [done|]. split; [|done].
        exists AdminListings.Authorized. split; [by left|]. by exists r.
      * right. split; [done|]. split.
        { intros route [[= <-]|[]]. by exists e. }
        repeat split; try done. apply updateErrorMessage_shown.
    + destruct (AdminListings.onPut Fields srv AdminListings.Public _ _)
        as [r|e] eqn:Hpub; simpl.
      * left. split; [done|]. split; [|done].
        exists AdminListings.Public. split; [by left|]. by exists r.
      * destruct (AdminListings.onPut Fields srv AdminListings.Plain _ _)
          as [r|e'] eqn:Hplain; simpl.
        -- left. split; [done|]. split; [|done].
           exists AdminListings.Plain. split; [by right; left|]. by exists r.
        -- right. split; [done|]. split.
           { intros route [[= <-]|[[= <-]|[]]]; by eexists. }
           repeat split; try done. apply updateErrorMessage_shown.
  - set (files := List.map Admin.file (img :: staged')).
    destruct (AdminListings.onUpload Fields srv correctId files)
      as [urls|ue] eqn:Hupload;
      destruct (AdminNewListing.hasToken token).
    + destruct (AdminListings.onPut Fields srv AdminListings.Authorized _ _)
        as [r|e] eqn:Hput; simpl.
      * left. split; [done|]. split; [|done].
        exists AdminListings.Authorized. split; [by left|]. by exists r.
      * right. split; [done|]. split.
        { intros route [[= <-]|[]]. by exists e. }
        repeat split; try done. apply updateErrorMessage_shown.
    + destruct (AdminListings.onPut Fields srv AdminListings.Public _ _)
        as [r|e] eqn:Hpub; simpl.
      * left. split; [done|]. split; [|done].
        exists AdminListings.Public. split; [by left|]. by exists r.
      * destruct (AdminListings.onPut Fields srv AdminListings.Plain _ _)
          as [r|e'] eqn:Hplain; simpl.
        -- left. split; [done|]. split; [|done].
           exists AdminListings.Plain. split; [by right; left|]. by exists r.
        -- right. split; [done|]. split.
           { intros route [[= <-]|[[= <-]|[]]]; by eexists. }
           repeat split; try done. apply updateErrorMessage_shown.
    + destruct (AdminListings.onPut Fields srv AdminListings.Authorized _ _)
        as [r|e] eqn:Hput; simpl.
      * left. split; [done|]. split; [|done].
        exists AdminListings.Authorized. split; [by left|]. by exists r.
      * right. split; [done|]. split.
        { intros route [[= <-]|[]]. by exists e. }
        repeat split; try done. apply updateErrorMessage_shown.
    + destruct (AdminListings.onPut Fields srv AdminListings.Public _ _)
        as [r|e] eqn:Hpub; simpl.
      * left. split; [done|]. split; [|done].
        exists AdminListings.Public. split; [by left|]. by exists r.
      * destruct (AdminListings.onPut Fields srv AdminListings.Plain _ _)
          as [r|e'] eqn:Hplain; simpl.
        -- left. split; [done|]. split; [|done].
           exists AdminListings.Plain. split; [by right; left|]. by exists r.
        -- right. split; [done|]. split.
           { intros route [[= <-]|[[= <-]|[]]]; by eexists. }
           repeat split; try done. apply updateErrorMessage_shown.
Qed.

(** The update at work on the sample edit: the upload answers with two
    URLs, and the record is sent with both; when the upload is refused it
    is sent all the same, without image. *)
Lemma update_always_sends_record_witness :
  In (AdminListings.PutProperty unit AdminListings.Public
        "22a9d63e-b0b7-449e-a757-43215814e82e"
        {| AdminListings.u_fields := Some tt;
           AdminListings.u_images := ["/uploads/a.png"; "/uploads/b.png"] |})
    (AdminListings.trace unit
       (AdminListings.updateListing unit None Scenarios.allUp Examples.editing))
  /\ In (AdminListings.PutProperty unit AdminListings.Public
           "22a9d63e-b0b7-449e-a757-43215814e82e"
           {| AdminListings.u_fields := Some tt; AdminListings.u_images := [] |})
       (AdminListings.trace unit
          (AdminListings.updateListing unit None Examples.uploadDown
             Examples.editing)).
Proof.
  split.
  - destruct (update_always_sends_record unit None Scenarios.allUp
                Examples.editing Examples.editedListing eq_refl)
      as [(Htrace & _)|(_ & Hfailed & _)].
    + rewrite Htrace. right. left. reflexivity.
    + destruct (Hfailed AdminListings.Public) as [e He];
        [left; reflexivity|discriminate He].
  - destruct (update_always_sends_record unit None Examples.uploadDown
                Examples.editing Examples.editedListing eq_refl)
      as [(Htrace & _)|(_ & Hfailed & _)].
    + rewrite Htrace. right. left. reflexivity.
    + destruct (Hfailed AdminListings.Public) as [e He];
        [left; reflexivity|discriminate He].
Defined.

(** ** Narrowing the admin search *)

(** Typing more into the search box never brings a listing back, for
    queries and listing texts written in ASCII (where lower-casing works
    character by character): every listing shown for a query is one of the
    loaded listings and is also shown for every part of that query, so
    extending the query at either end can only narrow the result. *)
Theorem search_narrows (numberToString : Js.JsNumber -> string)
    (a q b : string) (listings : list AdminSearch.Row) (row : AdminSearch.Row) :
  Charset.isAscii (a +:+ q +:+ b) = true ->
  Forall (fun r => Charset.asciiRow r = true) listings ->
  In row (AdminSearch.search numberToString (a +:+ q +:+ b) listings) ->
  In row listings /\ In row (AdminSearch.search numberToString q listings).
Proof.
  intros _ _. unfold AdminSearch.search.
  destruct (Js.truthy (Js.trim (a +:+ q +:+ b))) eqn:Hlong; simpl.
  - rewrite filter_In. intros [Hin Hm]. split; [done|].
    destruct (Js.truthy (Js.trim q)); simpl; [|done].
    apply filter_In. split; [done|]. by apply matches_inside in Hm.
  - intros Hin. split; [done|].
    by rewrite (blank_inside _ _ _ Hlong).
Qed.

(** The narrowing at work: the mapped row shown for "JAIPUR" is shown for
    "aip" too. *)
Lemma search_narrows_witness :
  In AdminExamples.mappedRow
    (AdminSearch.search AdminExamples.wholeNumberToString "aip"
       AdminExamples.rows).
Proof.
  destruct (search_narrows AdminExamples.wholeNumberToString "J" "aip" "UR"
              AdminExamples.rows AdminExamples.mappedRow) as [_ H].
  - reflexivity.
  - repeat constructor.
  - vm_compute. left. reflexivity.
  - exact H.
Defined.
